(** * Project-BHP: order countdown and appointment scheduling

    A shallow embedding of the Node/Express/Mongoose backend:
    - [models/Order.js]: the [pre('save')] hook and the [countdownStatus]
      virtual;
    - the orders router ([GET /api/orders], [POST /api/orders],
      [PUT /api/orders/:id], [DELETE /api/orders/:id],
      [GET /api/orders/shipping/overdue], [GET /api/orders/shipping/urgent],
      [POST /api/orders/:id/receive]);
    - [routes/schedule.js] ([POST /api/schedule], [PUT /api/schedule/:id],
      [DELETE /api/schedule/:id], the technician's diary,
      [POST /api/schedule/:id/start], [POST /api/schedule/:id/complete]);
    - [routes/parts.js]: the low-stock list, restock and soft delete;
    - the countdown widget and the shipping page of the client.

    Conventions.
    - A JavaScript [Date] is its millisecond timestamp, a [Z].
    - [Date.now()] / [new Date()] is an explicit argument of the handler that
      reads the clock, one argument per read that matters.
    - A Mongo collection is a finite map from document ids to documents;
      [findById] is lookup, [save] is insert.
    - A route handler is a function from the database (and the request) to a
      response and the database after the request.
    - JSON numbers that the validators force to be integers are [Z]; money
      amounts are integral minor units. [isInt] accepts the numeral string
      as well as the number and converts nothing: where a handler treats the
      two differently, the request type tells them apart.
    - [save] runs the schema validation first, then the [pre('save')]
      hooks, then writes. A document a route can build that fails the
      validation makes [save] throw, and the handler's [catch] answers
      500; stored documents satisfy their schema. The database itself does
      not fail.
    - [populate] only decorates the answer with referenced documents and is
      left out. *)

From Stdlib Require Import ZArith Lia.
From stdpp Require Import base option list gmap strings pretty sorting.

Local Open Scope Z_scope.

(** ** Time *)

(** [60 * 60 * 1000], written as in the source. *)
Definition msPerHour : Z := 60 * 60 * 1000.

(** [1000 * 60], the divisor of the minutes computation. *)
Definition msPerMinute : Z := 1000 * 60.

(** [Math.floor (a / b)] for a positive divisor. *)
Definition floorDiv (a b : Z) : Z := a `div` b.

(** JavaScript [%]: the remainder has the sign of the dividend. *)
Definition jsRem (a b : Z) : Z := a `rem` b.

(** ** Strings *)

(** A string is the UTF-8 encoding of the JavaScript string. The white
    space and line terminators of ECMAScript are U+0009 to U+000D and
    U+0020 (one byte each), U+00A0 (two bytes), and U+1680, U+2000 to
    U+200A, U+2028, U+2029, U+202F, U+205F, U+3000 and U+FEFF (three
    bytes each). *)
Definition isSpace2 (a b : Ascii.ascii) : bool :=
  Nat.eqb (Ascii.nat_of_ascii a) 194 && Nat.eqb (Ascii.nat_of_ascii b) 160.

Definition isSpace3 (a b c : Ascii.ascii) : bool :=
  let x := Ascii.nat_of_ascii a in
  let y := Ascii.nat_of_ascii b in
  let z := Ascii.nat_of_ascii c in
  Nat.eqb x 225 && Nat.eqb y 154 && Nat.eqb z 128
  || Nat.eqb x 226 && Nat.eqb y 128
     && (Nat.leb 128 z && Nat.leb z 138
         || Nat.eqb z 168 || Nat.eqb z 169 || Nat.eqb z 175)
  || Nat.eqb x 226 && Nat.eqb y 129 && Nat.eqb z 159
  || Nat.eqb x 227 && Nat.eqb y 128 && Nat.eqb z 128
  || Nat.eqb x 239 && Nat.eqb y 187 && Nat.eqb z 191.

(** Drops the white space at the front of [s]; with [backwards] the string
    is read from its end, so that the bytes of a character arrive last
    byte first. *)
Fixpoint strip (backwards : bool) (s : string) : string :=
  match s with
  | EmptyString => EmptyString
  | String a s1 =>
      if Ascii.is_space a then strip backwards s1
      else
        match s1 with
        | EmptyString => s
        | String b s2 =>
            if (if backwards then isSpace2 b a else isSpace2 a b)
            then strip backwards s2
            else
              match s2 with
              | EmptyString => s
              | String c s3 =>
                  if (if backwards then isSpace3 c b a else isSpace3 a b c)
                  then strip backwards s3
                  else s
              end
        end
  end.

(** [String.prototype.trim], which the [trim: true] option of a schema
    path applies to every value the path is set to. *)
Definition trim (s : string) : string :=
  String.rev (strip true (String.rev (strip false s))).

(** ** models/Order.js *)

Module Order.

Inductive Status := pending | confirmed | shipped | delivered | cancelled.

#[global] Instance Status_eq_dec : EqDecision Status.
Proof. solve_decision. Defined.

(** The fields of [orderSchema] that the handlers below read or write.
    [supplier] and [parts] are references; [notes], [shippingInfo] and
    the delivery dates are payload that no decision depends on and are
    left out; the [orderNumber] is part of the [Draft] below. *)
Record t := mk {
  supplier : nat;
  parts : list (nat * Z * Z * Z);   (* part, quantity, unitPrice, totalPrice *)
  totalAmount : Z;
  status : Status;
  orderDate : Z;
  customTimeLimit : Z;
  countdownEndTime : option Z;
  createdBy : nat
}.

Definition set_status (s : Status) (o : t) : t :=
  mk (supplier o) (parts o) (totalAmount o) s (orderDate o)
     (customTimeLimit o) (countdownEndTime o) (createdBy o).

Definition set_orderDate (d : Z) (o : t) : t :=
  mk (supplier o) (parts o) (totalAmount o) (status o) d
     (customTimeLimit o) (countdownEndTime o) (createdBy o).

Definition set_customTimeLimit (l : Z) (o : t) : t :=
  mk (supplier o) (parts o) (totalAmount o) (status o) (orderDate o)
     l (countdownEndTime o) (createdBy o).

Definition set_countdownEndTime (e : option Z) (o : t) : t :=
  mk (supplier o) (parts o) (totalAmount o) (status o) (orderDate o)
     (customTimeLimit o) e (createdBy o).

(** [orderSchema.pre('save')]. [isNew] is Mongoose's flag, [now] the value
    of [Date.now()] inside the hook. [if (this.customTimeLimit)] is
    JavaScript truthiness of a number: non-zero. *)
Definition pre_save (isNew : bool) (now : Z) (o : t) : t :=
  if isNew then
    if bool_decide (customTimeLimit o ≠ 0)
    then set_countdownEndTime (Some (now + customTimeLimit o * msPerHour)) o
    else o
  else o.

(** The document [new Order({...})] builds: the modelled fields, and the
    [orderNumber] if the caller passed one. *)
Record Draft := mkDraft {
  orderNumber : option string;
  fields : t
}.

(** The schema validation of a new document. [orderNumber] is [required];
    the other required paths ([supplier], [totalAmount], [createdBy], the
    fields of the lines) are always set by the route and within their
    bounds once the request passed the route's own checks. *)
Definition validate (d : Draft) : bool :=
  bool_decide (is_Some (orderNumber d)).

(** [order.save()] for a new document: Mongoose validates before it runs
    the [pre('save')] hooks, so the order number that the hook assigns comes
    too late for a document built without one. [None] is the rejected
    promise; [now] is [Date.now()] inside the hook. *)
Definition save (now : Z) (d : Draft) : option t :=
  if validate d then Some (pre_save true now (fields d)) else None.

(** The object returned by the [countdownStatus] virtual. The overdue
    branch has no [hours] and [minutes]. *)
Record CountdownStatus := mkCS {
  cs_status : string;
  cs_timeLeft : Z;
  cs_hours : option Z;
  cs_minutes : option Z;
  cs_message : string
}.

(** [orderSchema.virtual('countdownStatus')]: [None] is the JavaScript
    [null] returned when there is no [countdownEndTime]. A [Date] object is
    always truthy, so [!this.countdownEndTime] holds exactly for an absent
    field. [now] is [new Date()]. *)
Definition countdownStatus (cet : option Z) (now : Z) : option CountdownStatus :=
  match cet with
  | None => None
  | Some e =>
      let timeLeft := e - now in
      if bool_decide (timeLeft ≤ 0) then
        Some (mkCS "overdue" 0 None None "Package is overdue")
      else
        let hours := floorDiv timeLeft (1000 * 60 * 60) in
        let minutes := floorDiv (jsRem timeLeft (1000 * 60 * 60)) msPerMinute in
        Some (mkCS (if bool_decide (hours < 24) then "urgent" else "normal")
                   timeLeft (Some hours) (Some minutes)
                   (pretty hours +:+ "h " +:+ pretty minutes +:+ "m remaining"))
  end.

End Order.

(** The spec's [classify]: the [status] of the virtual, with [None] for
    "no deadline". *)
Definition classify (cet : option Z) (now : Z) : option string :=
  Order.cs_status <$> Order.countdownStatus cet now.

(** ** models/Part.js *)

(** The stock counter of a part; the other fields of [partSchema] are
    payload. *)
Record Part := mkPart { quantityInStock : Z }.

(** ** HTTP responses *)

(** What a handler sends: [res.json(doc)] (200), [res.status(201).json(doc)],
    [res.status(400).json({ errors })] from the express-validator check,
    [res.status(400).json({ message })], [res.status(404).json({ message })]
    and the [res.status(500).json({ message: 'Server error' })] of its
    [catch] block. *)
Inductive Response (A : Type) : Type :=
  | Ok (doc : A)
  | Created (doc : A)
  | ValidationErrors
  | BadRequest (message : string)
  | NotFound (message : string)
  | InternalServerError.
Arguments Ok {A} doc.
Arguments Created {A} doc.
Arguments ValidationErrors {A}.
Arguments BadRequest {A} message.
Arguments NotFound {A} message.
Arguments InternalServerError {A}.

(** A response that rejects the request. *)
Definition rejected {A} (r : Response A) : Prop :=
  match r with
  | Ok _ | Created _ => False
  | _ => True
  end.

(** ** The orders router *)

Module Orders.

(** The collections the orders router touches: [Order], [Part] and the
    ids of the existing [Contact] documents. *)
Record Db := mkDb {
  orders : gmap nat Order.t;
  partsColl : gmap nat Part;
  contacts : gset nat
}.

Definition set_orders (m : gmap nat Order.t) (db : Db) : Db :=
  mkDb m (partsColl db) (contacts db).

(** One element of [req.body.parts]. *)
Record PartLine := mkPartLine { part : nat; quantity : Z; unitPrice : Z }.

(** The body of [POST /api/orders]. Ids are well-formed by typing
    ([isMongoId]). *)
Record CreateBody := mkCreateBody {
  c_supplier : nat;
  c_parts : list PartLine;
  c_customTimeLimit : option Z
}.

(** [optional().isInt({ min: 1, max: 168 })]. *)
Definition validTimeLimit (l : option Z) : bool :=
  match l with
  | None => true
  | Some v => bool_decide (1 ≤ v ≤ 168)
  end.

(** The validation chain of [POST /api/orders]: at least one part, every
    quantity an integer [>= 1], every unit price [>= 0], and the time
    limit check. *)
Definition validCreate (b : CreateBody) : bool :=
  bool_decide (c_parts b ≠ [])
  && forallb (λ p, bool_decide (1 ≤ quantity p) && bool_decide (0 ≤ unitPrice p)) (c_parts b)
  && validTimeLimit (c_customTimeLimit b).

(** The loop over [req.body.parts]: [inl id] is the early return for a
    part that [Part.findById] does not find; otherwise the lines with
    their [totalPrice] and the running [totalAmount]. *)
Fixpoint collectParts (pc : gmap nat Part) (ls : list PartLine)
    (acc : list (nat * Z * Z * Z)) (totalAmount : Z)
    : nat + (list (nat * Z * Z * Z) * Z) :=
  match ls with
  | [] => inr (acc, totalAmount)
  | l :: ls' =>
      match pc !! part l with
      | None => inl (part l)
      | Some _ =>
          let totalPrice := quantity l * unitPrice l in
          collectParts pc ls'
            (acc ++ [(part l, quantity l, unitPrice l, totalPrice)])
            (totalAmount + totalPrice)
      end
  end.

(** [v || d] on an optional number: [undefined] and [0] are falsy. *)
Definition orDefault (v : option Z) (d : Z) : Z :=
  match v with
  | Some x => if bool_decide (x ≠ 0) then x else d
  | None => d
  end.

(** [POST /api/orders]. [tNew] is the clock when [new Order(...)] applies
    the schema default [orderDate: Date.now]; [tSave] is the clock inside
    the [pre('save')] hook that [order.save()] runs. The route passes no
    [orderNumber] to [new Order]; a [save] that throws ends in the [catch]
    block. *)
Definition post_order (tNew tSave : Z) (user : nat) (b : CreateBody) (db : Db)
    : Response (nat * Order.t) * Db :=
  if negb (validCreate b) then (ValidationErrors, db)
  else if bool_decide (c_supplier b ∉ contacts db)
  then (BadRequest "Supplier not found", db)
  else
    match collectParts (partsColl db) (c_parts b) [] 0 with
    | inl missing =>
        (BadRequest ("Part with ID " +:+ pretty missing +:+ " not found"), db)
    | inr (parts, totalAmount) =>
        let order :=
          Order.mkDraft None
            (Order.mk (c_supplier b) parts totalAmount Order.pending tNew
                      (orDefault (c_customTimeLimit b) 72) None user) in
        match Order.save tSave order with
        | None => (InternalServerError, db)
        | Some saved =>
            let id := fresh (dom (orders db)) in
            (Created (id, saved), set_orders (<[id := saved]> (orders db)) db)
        end
    end.

(** The body of [PUT /api/orders/:id]: any field of the order may be sent;
    [Object.assign(order, req.body)] copies every one that is. The
    validator ([isInt], without [toInt]) accepts the limit as a JSON number
    and as a JSON string holding its numeral: [u_customTimeLimit] is the
    integer sent, [u_customTimeLimitAsString] tells that it came as a
    string. *)
Record UpdateBody := mkUpdateBody {
  u_status : option Order.Status;
  u_customTimeLimit : option Z;
  u_customTimeLimitAsString : bool;
  u_countdownEndTime : option Z;
  u_orderDate : option Z
}.

(** The validation chain of [PUT /api/orders/:id]; [status] is in the enum
    by typing. *)
Definition validUpdate (b : UpdateBody) : bool :=
  validTimeLimit (u_customTimeLimit b).

(** "Update countdown if custom time limit is changed":
    [req.body.customTimeLimit && req.body.customTimeLimit !== order.customTimeLimit].
    A number is truthy when it is not 0 and [!==] the stored number when it
    differs from it; a numeral string is truthy and always [!==] a number.
    The multiplication and the assignment to the [Number] path convert the
    string to the integer it holds. *)
Definition recomputeCountdown (now : Z) (b : UpdateBody) (o : Order.t) : Order.t :=
  match u_customTimeLimit b with
  | Some l =>
      if (u_customTimeLimitAsString b || bool_decide (l ≠ 0))
         && (u_customTimeLimitAsString b || bool_decide (l ≠ Order.customTimeLimit o))
      then Order.set_countdownEndTime (Some (now + l * msPerHour))
             (Order.set_customTimeLimit l o)
      else o
  | None => o
  end.

Definition assignField {A B} (v : option A) (set : A → B → B) (o : B) : B :=
  match v with
  | Some x => set x o
  | None => o
  end.

(** [Object.assign(order, req.body)]. *)
Definition assign (b : UpdateBody) (o : Order.t) : Order.t :=
  assignField (u_orderDate b) Order.set_orderDate
    (assignField (u_countdownEndTime b) (λ e, Order.set_countdownEndTime (Some e))
      (assignField (u_customTimeLimit b) Order.set_customTimeLimit
        (assignField (u_status b) Order.set_status o))).

(** [PUT /api/orders/:id]; [now] is [Date.now()] at the recompute. The merge
    of [shippingInfo] touches payload only. The document is not new, so the
    [pre('save')] hook leaves it alone. *)
Definition put_order (now : Z) (id : nat) (b : UpdateBody) (db : Db)
    : Response Order.t * Db :=
  if negb (validUpdate b) then (ValidationErrors, db)
  else
    match orders db !! id with
    | None => (NotFound "Order not found", db)
    | Some order =>
        let order1 := recomputeCountdown now b order in
        let order2 := assign b order1 in
        let saved := Order.pre_save false now order2 in
        (Ok saved, set_orders (<[id := saved]> (orders db)) db)
    end.

(** Mongo's [{ $lt: bound }] and [{ $gt: bound }] on a date field: a
    missing field matches neither. *)
Definition date_lt (field : option Z) (bound : Z) : bool :=
  match field with
  | Some d => bool_decide (d < bound)
  | None => false
  end.

Definition date_gt (field : option Z) (bound : Z) : bool :=
  match field with
  | Some d => bool_decide (bound < d)
  | None => false
  end.

(** [status: { $in: ['confirmed', 'shipped'] }]. *)
Definition statusInTransit (o : Order.t) : bool :=
  bool_decide (Order.status o ∈ [Order.confirmed; Order.shipped]).

(** [Order.find(filter)]: the documents, with their ids, that match. *)
Definition find (filter : Order.t → bool) (coll : gmap nat Order.t)
    : list (nat * Order.t) :=
  List.filter (λ d, filter d.2) (map_to_list coll).

(** The order of [.sort({ countdownEndTime: 1 })]: ascending, a missing
    date before every date. *)
Definition date_le (a b : option Z) : Prop :=
  match a, b with
  | None, _ => True
  | Some _, None => False
  | Some x, Some y => x ≤ y
  end.

Definition byCountdownEndTime (a b : nat * Order.t) : Prop :=
  date_le (Order.countdownEndTime a.2) (Order.countdownEndTime b.2).

#[global] Instance date_le_dec a b : Decision (date_le a b).
Proof. destruct a, b; simpl; apply _. Defined.

#[global] Instance byCountdownEndTime_dec : RelDecision byCountdownEndTime.
Proof. intros a b. unfold byCountdownEndTime. apply _. Defined.

Definition sortByCountdownEndTime (l : list (nat * Order.t)) : list (nat * Order.t) :=
  merge_sort byCountdownEndTime l.

(** The relation the sorted answers are stated with: both deadlines are
    present and the first is not after the second. *)
Definition deadlineAscending (a b : nat * Order.t) : Prop :=
  ∃ ea eb : Z,
    Order.countdownEndTime a.2 = Some ea
    ∧ Order.countdownEndTime b.2 = Some eb
    ∧ ea ≤ eb.

(** [GET /api/orders/shipping/overdue]; [now] is [new Date()]. *)
Definition overdueFilter (now : Z) (o : Order.t) : bool :=
  statusInTransit o && date_lt (Order.countdownEndTime o) now.

Definition get_overdue (now : Z) (db : Db) : list (nat * Order.t) :=
  sortByCountdownEndTime (find (overdueFilter now) (orders db)).

(** [GET /api/orders/shipping/urgent]. *)
Definition urgentFilter (now : Z) (o : Order.t) : bool :=
  let twentyFourHours := now + 24 * 60 * 60 * 1000 in
  statusInTransit o
  && (date_gt (Order.countdownEndTime o) now
      && date_lt (Order.countdownEndTime o) twentyFourHours).

Definition get_urgent (now : Z) (db : Db) : list (nat * Order.t) :=
  sortByCountdownEndTime (find (urgentFilter now) (orders db)).

End Orders.

(** ** models/Schedule.js *)

Module Schedule.

Inductive Status := scheduled | in_progress | completed | cancelled | no_show.

#[global] Instance Status_eq_dec : EqDecision Status.
Proof. solve_decision. Defined.

(** One element of [requiredParts]. *)
Record RequiredPart := mkRequiredPart {
  part : nat;
  quantity : Z;
  isAvailable : bool
}.

(** The fields of [scheduleSchema] that the handlers read or write. The
    customer, the notes, the reminders and the cost estimates are payload:
    no branch of the router looks at them, and the [pre('save')] hook of
    the schema touches the cost totals only. *)
Record t := mk {
  title : string;
  startTime : Z;
  endTime : Z;
  duration : Z;
  status : Status;
  assignedTechnician : option nat;
  requiredParts : list RequiredPart;
  createdBy : nat
}.

(** Setting [title] goes through the [trim] setter of the schema. *)
Definition set_title (x : string) (s : t) : t :=
  mk (trim x) (startTime s) (endTime s) (duration s) (status s)
     (assignedTechnician s) (requiredParts s) (createdBy s).

Definition set_startTime (x : Z) (s : t) : t :=
  mk (title s) x (endTime s) (duration s) (status s)
     (assignedTechnician s) (requiredParts s) (createdBy s).

Definition set_endTime (x : Z) (s : t) : t :=
  mk (title s) (startTime s) x (duration s) (status s)
     (assignedTechnician s) (requiredParts s) (createdBy s).

Definition set_duration (x : Z) (s : t) : t :=
  mk (title s) (startTime s) (endTime s) x (status s)
     (assignedTechnician s) (requiredParts s) (createdBy s).

Definition set_status (x : Status) (s : t) : t :=
  mk (title s) (startTime s) (endTime s) (duration s) x
     (assignedTechnician s) (requiredParts s) (createdBy s).

(** The technician is an id or [null]. *)
Definition set_assignedTechnician (x : option nat) (s : t) : t :=
  mk (title s) (startTime s) (endTime s) (duration s) (status s)
     x (requiredParts s) (createdBy s).

Definition set_requiredParts (x : list RequiredPart) (s : t) : t :=
  mk (title s) (startTime s) (endTime s) (duration s) (status s)
     (assignedTechnician s) x (createdBy s).

(** [schedule.save()] of a new document. The schema validation comes
    first: [title] is [required], which the empty string fails; the other
    required paths ([type], [startTime], [endTime], [duration],
    [createdBy]) hold what the route has checked or set. [None] is the
    rejected promise. *)
Definition save (s : t) : option t :=
  if bool_decide (title s ≠ "") then Some s else None.

(** [schedule.save()] of the stored document [old] after it was changed
    to [s]: only the paths whose value changed are validated. *)
Definition saveChanges (old s : t) : option t :=
  if bool_decide (title s = title old) || bool_decide (title s ≠ "")
  then Some s else None.

End Schedule.

(** ** routes/schedule.js *)

Module Schedules.

(** The collections the schedule router touches. *)
Record Db := mkDb {
  schedules : gmap nat Schedule.t;
  partsColl : gmap nat Part
}.

Definition set_schedules (m : gmap nat Schedule.t) (db : Db) : Db :=
  mkDb m (partsColl db).

(** [status: { $in: ['scheduled', 'in_progress'] }]. *)
Definition active (s : Schedule.t) : bool :=
  bool_decide (Schedule.status s ∈ [Schedule.scheduled; Schedule.in_progress]).

(** The two date conditions of the conflict query, on a stored document:
    [startTime: { $lt: endTime }, endTime: { $gt: startTime }]. *)
Definition overlaps (startTime endTime : Z) (s : Schedule.t) : bool :=
  bool_decide (Schedule.startTime s < endTime)
  && bool_decide (Schedule.endTime s > startTime).

(** The filter of the conflict query. [exclude] is the
    [_id: { $ne: schedule._id }] clause that only the update route has. *)
Definition conflictFilter (exclude : option nat) (technician : nat)
    (startTime endTime : Z) (d : nat * Schedule.t) : bool :=
  match exclude with
  | Some id => bool_decide (d.1 ≠ id)
  | None => true
  end
  && bool_decide (Schedule.assignedTechnician d.2 = Some technician)
  && active d.2
  && overlaps startTime endTime d.2.

(** [Schedule.findOne(filter)]: some matching document, if any. *)
Definition findOne (filter : nat * Schedule.t → bool)
    (coll : gmap nat Schedule.t) : option (nat * Schedule.t) :=
  head (List.filter filter (map_to_list coll)).

(** The conflict query of both routes; the spec calls its truthiness
    [hasConflict]. *)
Definition findConflict (exclude : option nat) (technician : nat)
    (startTime endTime : Z) (coll : gmap nat Schedule.t)
    : option (nat * Schedule.t) :=
  findOne (conflictFilter exclude technician startTime endTime) coll.

Definition hasConflict (exclude : option nat) (technician : nat)
    (startTime endTime : Z) (coll : gmap nat Schedule.t) : bool :=
  bool_decide (is_Some (findConflict exclude technician startTime endTime coll)).

Definition conflictMessage : string :=
  "Technician has a scheduling conflict during this time".

(** One element of [req.body.requiredParts]; [quantity] and [isAvailable]
    may be left to the schema defaults [1] and [true]. *)
Record RequiredPartBody := mkRequiredPartBody {
  rp_part : nat;
  rp_quantity : option Z;
  rp_isAvailable : option bool
}.

(** The body of [POST /api/schedule]. Dates are parsed ([isISO8601]), the
    type is in its enum and ids are well-formed by typing. *)
Record CreateBody := mkCreateBody {
  c_title : string;
  c_startTime : Z;
  c_endTime : Z;
  c_duration : Z;
  c_status : option Schedule.Status;
  c_assignedTechnician : option nat;
  c_requiredParts : list RequiredPartBody
}.

(** The validation chain of [POST /api/schedule]: [title] not empty
    ([notEmpty] does not trim: a title of white space passes),
    [duration] an integer [>= 15]. *)
Definition validCreate (b : CreateBody) : bool :=
  bool_decide (c_title b ≠ "") && bool_decide (15 ≤ c_duration b).

(** "Check if required parts are available": [inl id] is the early return
    for an unknown part; otherwise the lines, with [isAvailable] set to
    [false] where the stock is below the quantity. A missing quantity
    compares as [undefined]: the test is false. *)
Fixpoint checkParts (pc : gmap nat Part) (rps : list RequiredPartBody)
    : nat + list RequiredPartBody :=
  match rps with
  | [] => inr []
  | rp :: rest =>
      match pc !! rp_part rp with
      | None => inl (rp_part rp)
      | Some p =>
          let rp' :=
            match rp_quantity rp with
            | Some q =>
                if bool_decide (quantityInStock p < q)
                then mkRequiredPartBody (rp_part rp) (rp_quantity rp) (Some false)
                else rp
            | None => rp
            end in
          match checkParts pc rest with
          | inl missing => inl missing
          | inr rest' => inr (rp' :: rest')
          end
      end
  end.

(** The schema defaults applied by [new Schedule(...)]. *)
Definition newRequiredPart (rp : RequiredPartBody) : Schedule.RequiredPart :=
  Schedule.mkRequiredPart (rp_part rp) (default 1 (rp_quantity rp))
    (default true (rp_isAvailable rp)).

(** [POST /api/schedule]. *)
Definition post_schedule (user : nat) (b : CreateBody) (db : Db)
    : Response (nat * Schedule.t) * Db :=
  if negb (validCreate b) then (ValidationErrors, db)
  else if
    match c_assignedTechnician b with
    | Some technician =>
        hasConflict None technician (c_startTime b) (c_endTime b) (schedules db)
    | None => false
    end
  then (BadRequest conflictMessage, db)
  else
    match checkParts (partsColl db) (c_requiredParts b) with
    | inl missing =>
        (BadRequest ("Part with ID " +:+ pretty missing +:+ " not found"), db)
    | inr rps =>
        let schedule :=
          Schedule.mk (trim (c_title b)) (c_startTime b) (c_endTime b)
            (c_duration b) (default Schedule.scheduled (c_status b))
            (c_assignedTechnician b) (newRequiredPart <$> rps) user in
        match Schedule.save schedule with
        | None => (InternalServerError, db)
        | Some saved =>
            let id := fresh (dom (schedules db)) in
            (Created (id, saved), set_schedules (<[id := saved]> (schedules db)) db)
        end
    end.

(** The body of [PUT /api/schedule/:id]: every field is optional. No
    validator looks at [assignedTechnician]: the request may leave it out
    ([None]), send [null] ([Some None]) or send an id ([Some (Some id)],
    well-formed by typing). *)
Record UpdateBody := mkUpdateBody {
  u_title : option string;
  u_startTime : option Z;
  u_endTime : option Z;
  u_duration : option Z;
  u_status : option Schedule.Status;
  u_assignedTechnician : option (option nat);
  u_requiredParts : option (list Schedule.RequiredPart)
}.

(** [req.body.assignedTechnician] where the route tests it or falls back
    from it: an id is truthy, [null] and [undefined] are not. *)
Definition sentTechnician (b : UpdateBody) : option nat :=
  match u_assignedTechnician b with
  | Some (Some technician) => Some technician
  | _ => None
  end.

(** The validation chain of [PUT /api/schedule/:id]: a title that is sent
    is not empty (a title of white space passes). *)
Definition validUpdate (b : UpdateBody) : bool :=
  bool_decide (u_title b ≠ Some "").

(** The guard of the update route's conflict check:
    [(req.body.startTime || req.body.endTime || req.body.assignedTechnician)
     && schedule.status === 'scheduled']. *)
Definition updateChecksConflict (b : UpdateBody) (s : Schedule.t) : bool :=
  (bool_decide (is_Some (u_startTime b))
   || bool_decide (is_Some (u_endTime b))
   || bool_decide (is_Some (sentTechnician b)))
  && bool_decide (Schedule.status s = Schedule.scheduled).

(** The conflict check of the update route, with the values it falls back
    to: [req.body.x || schedule.x]. *)
Definition updateConflict (id : nat) (b : UpdateBody) (s : Schedule.t)
    (coll : gmap nat Schedule.t) : bool :=
  if updateChecksConflict b s then
    let startTime := default (Schedule.startTime s) (u_startTime b) in
    let endTime := default (Schedule.endTime s) (u_endTime b) in
    match
      match sentTechnician b with
      | Some x => Some x
      | None => Schedule.assignedTechnician s
      end
    with
    | Some technician => hasConflict (Some id) technician startTime endTime coll
    | None => false
    end
  else false.

Definition assignField {A B} (v : option A) (set : A → B → B) (o : B) : B :=
  match v with
  | Some x => set x o
  | None => o
  end.

(** [Object.assign(schedule, req.body)]: every field that was sent is
    set, the technician also when it was sent as [null]. *)
Definition assign (b : UpdateBody) (s : Schedule.t) : Schedule.t :=
  assignField (u_requiredParts b) Schedule.set_requiredParts
    (assignField (u_assignedTechnician b) Schedule.set_assignedTechnician
      (assignField (u_status b) Schedule.set_status
        (assignField (u_duration b) Schedule.set_duration
          (assignField (u_endTime b) Schedule.set_endTime
            (assignField (u_startTime b) Schedule.set_startTime
              (assignField (u_title b) Schedule.set_title s)))))).

(** [PUT /api/schedule/:id]. *)
Definition put_schedule (id : nat) (b : UpdateBody) (db : Db)
    : Response Schedule.t * Db :=
  if negb (validUpdate b) then (ValidationErrors, db)
  else
    match schedules db !! id with
    | None => (NotFound "Schedule not found", db)
    | Some schedule =>
        if updateConflict id b schedule (schedules db)
        then (BadRequest conflictMessage, db)
        else
          match Schedule.saveChanges schedule (assign b schedule) with
          | None => (InternalServerError, db)
          | Some saved =>
              (Ok saved, set_schedules (<[id := saved]> (schedules db)) db)
          end
    end.

(** [POST /api/schedule/:id/start]. *)
Definition start_schedule (id : nat) (db : Db) : Response Schedule.t * Db :=
  match schedules db !! id with
  | None => (NotFound "Schedule not found", db)
  | Some schedule =>
      if bool_decide (Schedule.status schedule ≠ Schedule.scheduled)
      then (BadRequest "Can only start scheduled appointments", db)
      else
        let saved := Schedule.set_status Schedule.in_progress schedule in
        (Ok saved, set_schedules (<[id := saved]> (schedules db)) db)
  end.

(** The body of [POST /api/schedule/:id/complete]: the optional
    [actualCost] with its optional [labor] and [parts]. *)
Record CompleteBody := mkCompleteBody {
  actualCost : option (option Z * option Z)
}.

(** [optional().isFloat({ min: 0 })] on both amounts. *)
Definition validComplete (b : CompleteBody) : bool :=
  match actualCost b with
  | None => true
  | Some (labor, parts) =>
      from_option (λ v, bool_decide (0 ≤ v)) true labor
      && from_option (λ v, bool_decide (0 ≤ v)) true parts
  end.

(** One round of the inventory loop: [Part.findById], then
    [if (part && requiredPart.quantity)] the clamped decrement and
    [part.save()]. *)
Definition usePart (pc : gmap nat Part) (rp : Schedule.RequiredPart) : gmap nat Part :=
  match pc !! Schedule.part rp with
  | Some p =>
      if bool_decide (Schedule.quantity rp ≠ 0)
      then <[Schedule.part rp :=
               mkPart (Z.max 0 (quantityInStock p - Schedule.quantity rp))]> pc
      else pc
  | None => pc
  end.

(** "Update inventory if parts were used": the loop over
    [schedule.requiredParts], in order. *)
Definition useParts (pc : gmap nat Part) (rps : list Schedule.RequiredPart)
    : gmap nat Part :=
  foldl usePart pc rps.

(** [POST /api/schedule/:id/complete]. *)
Definition complete_schedule (id : nat) (b : CompleteBody) (db : Db)
    : Response Schedule.t * Db :=
  if negb (validComplete b) then (ValidationErrors, db)
  else
    match schedules db !! id with
    | None => (NotFound "Schedule not found", db)
    | Some schedule =>
        if bool_decide (Schedule.status schedule ≠ Schedule.in_progress)
        then (BadRequest "Can only complete in-progress appointments", db)
        else
          let saved := Schedule.set_status Schedule.completed schedule in
          let pc :=
            if bool_decide (0 < length (Schedule.requiredParts saved))%nat
            then useParts (partsColl db) (Schedule.requiredParts saved)
            else partsColl db in
          (Ok saved, mkDb (<[id := saved]> (schedules db)) pc)
    end.

(** The quantity of part [p] that the lines [rps] ask for in total (a part
    may be listed on more than one line). *)
Definition requiredQuantity (p : nat) (rps : list Schedule.RequiredPart) : Z :=
  foldr (λ rp acc,
           (if bool_decide (Schedule.part rp = p) then Schedule.quantity rp else 0)
           + acc) 0 rps.

End Schedules.

(** ** models/Order.js: the delivery virtual *)

(** [Math.ceil (a / b)] for a positive divisor. *)
Definition ceilDiv (a b : Z) : Z := - ((- a) `div` b).

(** [orderSchema.virtual('daysUntilDelivery')]: [None] is [null], returned
    when the order has no [expectedDeliveryDate]; [now] is [new Date()]. *)
Definition daysUntilDelivery (expectedDeliveryDate : option Z) (now : Z) : option Z :=
  match expectedDeliveryDate with
  | None => None
  | Some d =>
      let timeDiff := d - now in
      Some (ceilDiv timeDiff (1000 * 60 * 60 * 24))
  end.

(** ** The client's countdown widget *)

Module CountdownTimer.

(** The two state variables of the component. *)
Record State := mkState { timeLeft : Z; isOverdue : bool }.

(** [calculateTimeLeft]: the state it sets from [endTime] and the clock. *)
Definition calculateTimeLeft (endTime now : Z) : State :=
  let difference := endTime - now in
  if bool_decide (difference > 0)
  then mkState difference false
  else mkState 0 true.

(** The four numbers [formatTime] computes. *)
Definition days (milliseconds : Z) : Z :=
  floorDiv milliseconds (1000 * 60 * 60 * 24).

Definition hours (milliseconds : Z) : Z :=
  floorDiv (jsRem milliseconds (1000 * 60 * 60 * 24)) (1000 * 60 * 60).

Definition minutes (milliseconds : Z) : Z :=
  floorDiv (jsRem milliseconds (1000 * 60 * 60)) (1000 * 60).

Definition seconds (milliseconds : Z) : Z :=
  floorDiv (jsRem milliseconds (1000 * 60)) 1000.

(** [formatTime]. *)
Definition formatTime (milliseconds : Z) : string :=
  if bool_decide (days milliseconds > 0) then
    pretty (days milliseconds) +:+ "d " +:+ pretty (hours milliseconds) +:+ "h "
      +:+ pretty (minutes milliseconds) +:+ "m"
  else if bool_decide (hours milliseconds > 0) then
    pretty (hours milliseconds) +:+ "h " +:+ pretty (minutes milliseconds) +:+ "m "
      +:+ pretty (seconds milliseconds) +:+ "s"
  else if bool_decide (minutes milliseconds > 0) then
    pretty (minutes milliseconds) +:+ "m " +:+ pretty (seconds milliseconds) +:+ "s"
  else
    pretty (seconds milliseconds) +:+ "s".

(** The [text] of [getStatusInfo]. *)
Definition statusText (st : State) : string :=
  if isOverdue st then "Overdue"
  else
    let hours := floorDiv (timeLeft st) (1000 * 60 * 60) in
    if bool_decide (hours < 24) then "Urgent" else "Normal".

(** The urgency the widget shows for a deadline once [calculateTimeLeft] has
    run at clock [now]: "No deadline" without an [endTime], the status text
    otherwise. *)
Definition shownStatus (endTime : option Z) (now : Z) : string :=
  match endTime with
  | None => "No deadline"
  | Some e => statusText (calculateTimeLeft e now)
  end.

(** The time the widget prints next to the icon. *)
Definition shownTime (endTime : option Z) (now : Z) : string :=
  match endTime with
  | None => "No deadline"
  | Some e =>
      let st := calculateTimeLeft e now in
      if isOverdue st then "Overdue" else formatTime (timeLeft st)
  end.

End CountdownTimer.

(** ** The orders router: listing, cancelling, receiving *)

Module OrdersRest.

(** The query string of [GET /api/orders]. *)
Record ListQuery := mkListQuery {
  q_page : option Z;
  q_limit : option Z;
  q_status : option Order.Status;
  q_supplier : option nat
}.

(** The validation chain of [GET /api/orders]: [page] an integer [>= 1],
    [limit] an integer between 1 and 100. *)
Definition validList (q : ListQuery) : bool :=
  from_option (λ p, bool_decide (1 ≤ p)) true (q_page q)
  && from_option (λ l, bool_decide (1 ≤ l ≤ 100)) true (q_limit q).

(** "Build filter object". *)
Definition listFilter (q : ListQuery) (o : Order.t) : bool :=
  from_option (λ s, bool_decide (Order.status o = s)) true (q_status q)
  && from_option (λ s, bool_decide (Order.supplier o = s)) true (q_supplier q).

(** The [pagination] object of the answer. *)
Record Pagination := mkPagination {
  current : Z;
  pages : Z;
  total : Z;
  hasNext : bool;
  hasPrev : bool
}.

(** The order of [.sort({ createdAt: -1 })]: newest first. [createdAt] is
    the time stamp Mongoose keeps for every document ([timestamps: true]),
    given here by document id. *)
Definition newestFirst (createdAt : nat → Z) (a b : nat * Order.t) : Prop :=
  createdAt b.1 ≤ createdAt a.1.

#[global] Instance newestFirst_dec createdAt : RelDecision (newestFirst createdAt).
Proof. intros a b. unfold newestFirst. apply _. Defined.

(** What [Order.find(filter).sort({ createdAt: -1 })] may enumerate: the
    matching documents, each once, newest first. The sort key is the time
    stamp only: the order among documents of one time stamp is the
    database's choice, and the choice of one query need not be that of the
    next. *)
Definition enumerates (createdAt : nat → Z) (q : ListQuery) (db : Orders.Db)
    (found : list (nat * Order.t)) : Prop :=
  found ≡ₚ Orders.find (listFilter q) (Orders.orders db)
  ∧ StronglySorted (newestFirst createdAt) found.

(** One such enumeration. *)
Definition matching (createdAt : nat → Z) (q : ListQuery) (db : Orders.Db)
    : list (nat * Order.t) :=
  merge_sort (newestFirst createdAt) (Orders.find (listFilter q) (Orders.orders db)).

(** [GET /api/orders], where [found] is what the sorted query of this
    request enumerates before [skip] and [limit] cut the page out of it;
    the total is counted by a query of its own. *)
Definition get_orders (found : list (nat * Order.t)) (q : ListQuery) (db : Orders.Db)
    : Response (list (nat * Order.t) * Pagination) :=
  if negb (validList q) then ValidationErrors
  else
    let page := Orders.orDefault (q_page q) 1 in
    let limit := Orders.orDefault (q_limit q) 20 in
    let skip := (page - 1) * limit in
    let orders := take (Z.to_nat limit) (drop (Z.to_nat skip) found) in
    let total := Z.of_nat (length (Orders.find (listFilter q) (Orders.orders db))) in
    Ok (orders,
        mkPagination page (ceilDiv total limit) total
          (bool_decide (page < ceilDiv total limit)) (bool_decide (page > 1))).

(** The documents of an answer of the list route, and the same query for
    another page. *)
Definition answerOrders (r : Response (list (nat * Order.t) * Pagination))
    : list (nat * Order.t) :=
  match r with
  | Ok (orders, _) => orders
  | _ => []
  end.

Definition withPage (q : ListQuery) (page : Z) : ListQuery :=
  mkListQuery (Some page) (q_limit q) (q_status q) (q_supplier q).

(** [DELETE /api/orders/:id]. *)
Definition delete_order (id : nat) (db : Orders.Db) : Response string * Orders.Db :=
  match Orders.orders db !! id with
  | None => (NotFound "Order not found", db)
  | Some order =>
      if bool_decide (Order.status order = Order.delivered)
      then (BadRequest "Cannot cancel delivered order", db)
      else
        let saved := Order.set_status Order.cancelled order in
        (Ok "Order cancelled successfully",
         Orders.set_orders (<[id := saved]> (Orders.orders db)) db)
  end.

(** What a handler whose body can throw sends: an answer of its own, or the
    [res.status(500).json({ message: 'Server error' })] of its [catch]. *)
Inductive Outcome (A : Type) : Type :=
  | Answered (r : Response A)
  | ServerError.
Arguments Answered {A} r.
Arguments ServerError {A}.

(** "Update inventory for each part": the loop of the receive route over the
    populated lines, in order. A line whose part no longer exists is
    populated with [null], and reading its stock throws: [inl] carries the
    parts collection as the earlier rounds left it. Lines that name the same
    part share one populated document, so their increments add up. *)
Fixpoint receiveLines (pc : gmap nat Part) (lines : list (nat * Z * Z * Z))
    : gmap nat Part + gmap nat Part :=
  match lines with
  | [] => inr pc
  | (partId, quantity, _, _) :: rest =>
      match pc !! partId with
      | None => inl pc
      | Some p =>
          receiveLines (<[partId := mkPart (quantityInStock p + quantity)]> pc) rest
      end
  end.

(** [POST /api/orders/:id/receive]. *)
Definition receive_order (id : nat) (db : Orders.Db) : Outcome Order.t * Orders.Db :=
  match Orders.orders db !! id with
  | None => (Answered (NotFound "Order not found"), db)
  | Some order =>
      if bool_decide (Order.status order = Order.delivered)
      then (Answered (BadRequest "Order already marked as delivered"), db)
      else
        match receiveLines (Orders.partsColl db) (Order.parts order) with
        | inl pc => (ServerError, Orders.mkDb (Orders.orders db) pc (Orders.contacts db))
        | inr pc =>
            let saved := Order.set_status Order.delivered order in
            (Answered (Ok saved),
             Orders.mkDb (<[id := saved]> (Orders.orders db)) pc (Orders.contacts db))
        end
  end.

(** The line the create route stores for a requested line. *)
Definition storedLine (l : Orders.PartLine) : nat * Z * Z * Z :=
  (Orders.part l, Orders.quantity l, Orders.unitPrice l,
   Orders.quantity l * Orders.unitPrice l).

(** The quantity of part [p] on the lines of an order, in total. *)
Definition orderedQuantity (p : nat) (lines : list (nat * Z * Z * Z)) : Z :=
  foldr (λ l acc, (if bool_decide (l.1.1.1 = p) then l.1.1.2 else 0) + acc) 0 lines.

End OrdersRest.

(** ** routes/schedule.js: cancelling and the technician's diary *)

Module SchedulesRest.

(** [DELETE /api/schedule/:id]. *)
Definition delete_schedule (id : nat) (db : Schedules.Db)
    : Response string * Schedules.Db :=
  match Schedules.schedules db !! id with
  | None => (NotFound "Schedule not found", db)
  | Some schedule =>
      if bool_decide (Schedule.status schedule = Schedule.completed)
      then (BadRequest "Cannot cancel completed schedule", db)
      else
        let saved := Schedule.set_status Schedule.cancelled schedule in
        (Ok "Schedule cancelled successfully",
         Schedules.set_schedules (<[id := saved]> (Schedules.schedules db)) db)
  end.

(** The filter of [GET /api/schedule/technician/:technicianId]: the date
    range is added only when both [startDate] and [endDate] are sent. *)
Definition technicianFilter (technicianId : nat) (startDate endDate : option Z)
    (s : Schedule.t) : bool :=
  bool_decide (Schedule.assignedTechnician s = Some technicianId)
  && match startDate, endDate with
     | Some from, Some to =>
         bool_decide (from ≤ Schedule.startTime s)
         && bool_decide (Schedule.startTime s ≤ to)
     | _, _ => true
     end.

(** The order of [.sort({ startTime: 1 })]. *)
Definition byStartTime (a b : nat * Schedule.t) : Prop :=
  Schedule.startTime a.2 ≤ Schedule.startTime b.2.

#[global] Instance byStartTime_dec : RelDecision byStartTime.
Proof. intros a b. unfold byStartTime. apply _. Defined.

(** [GET /api/schedule/technician/:technicianId]. *)
Definition get_technician_schedule (technicianId : nat)
    (startDate endDate : option Z) (db : Schedules.Db) : list (nat * Schedule.t) :=
  merge_sort byStartTime
    (List.filter (λ d, technicianFilter technicianId startDate endDate d.2)
       (map_to_list (Schedules.schedules db))).

(** The invariant of the diary: no two active appointments of one
    technician overlap. *)
Definition NoDoubleBooking (coll : gmap nat Schedule.t) : Prop :=
  ∀ (i j : nat) (a b : Schedule.t) (technician : nat),
    i ≠ j →
    coll !! i = Some a →
    coll !! j = Some b →
    Schedules.active a = true →
    Schedules.active b = true →
    Schedule.assignedTechnician a = Some technician →
    Schedule.assignedTechnician b = Some technician →
    ¬ (Schedule.startTime a < Schedule.endTime b
       ∧ Schedule.startTime b < Schedule.endTime a).

End SchedulesRest.

(** ** The client's shipping page *)

Module Shipping.

(** [getPriorityColor]: the card colour for a deadline; [now] is
    [new Date().getTime()]. *)
Definition getPriorityColor (endTime : option Z) (now : Z) : string :=
  match endTime with
  | None => "bg-gray-100 border-gray-200"
  | Some e =>
      let difference := e - now in
      if bool_decide (difference ≤ 0) then "bg-red-100 border-red-200"
      else if bool_decide (difference < 24 * 60 * 60 * 1000)
      then "bg-yellow-100 border-yellow-200"
      else "bg-blue-100 border-blue-200"
  end.

End Shipping.

(** ** models/Part.js and routes/parts.js: the stock of a part *)

Module Parts.

(** The fields of [partSchema] that the stock routes and the [stockStatus]
    virtual read or write. *)
Record Doc := mkDoc {
  quantityInStock : Z;
  minimumStockLevel : Z;
  isActive : bool
}.

(** [partSchema.virtual('stockStatus')]. *)
Definition stockStatus (p : Doc) : string :=
  if bool_decide (quantityInStock p = 0) then "out_of_stock"
  else if bool_decide (quantityInStock p ≤ minimumStockLevel p) then "low_stock"
  else "in_stock".

(** The filter of the low-stock route:
    [isActive: true, $expr: { $lte: ['$quantityInStock', '$minimumStockLevel'] }]. *)
Definition lowStockFilter (p : Doc) : bool :=
  isActive p && bool_decide (quantityInStock p ≤ minimumStockLevel p).

(** The order of [.sort({ quantityInStock: 1 })]. *)
Definition byQuantity (a b : nat * Doc) : Prop :=
  quantityInStock a.2 ≤ quantityInStock b.2.

#[global] Instance byQuantity_dec : RelDecision byQuantity.
Proof. intros a b. unfold byQuantity. apply _. Defined.

#[global] Instance byQuantity_total : Total byQuantity.
Proof. intros a b. unfold byQuantity. lia. Qed.

#[global] Instance byQuantity_trans : Transitive byQuantity.
Proof. intros a b c. unfold byQuantity. lia. Qed.

(** [GET /api/parts/inventory/low-stock]. *)
Definition get_low_stock (coll : gmap nat Doc) : list (nat * Doc) :=
  merge_sort byQuantity (List.filter (λ d, lowStockFilter d.2) (map_to_list coll)).

(** [req.body.quantity] as the restock route may receive it: a JSON
    number or a JSON string. *)
Inductive Quantity :=
  | JsonNumber (n : Z)
  | JsonString (s : string).

(** The value of a string of decimal digits read after the value [acc];
    [None] when another character occurs. *)
Fixpoint digits (acc : Z) (s : string) : option Z :=
  match s with
  | EmptyString => Some acc
  | String a rest =>
      let d := Z.of_nat (Ascii.nat_of_ascii a) - 48 in
      if bool_decide (0 ≤ d ≤ 9) then digits (10 * acc + d) rest else None
  end.

(** The integer that a string of the form [[-+]?[0-9]+] denotes, and
    [None] for every other string. These are the strings that the regular
    expression of [isInt] accepts; for the string that [+=] builds below,
    the numeral of an integer followed by an accepted string, [None] is
    the [NaN] of the cast to [Number]. *)
Definition parseInteger (s : string) : option Z :=
  match s with
  | EmptyString => None
  | String a rest =>
      if Nat.eqb (Ascii.nat_of_ascii a) 43 then
        match rest with EmptyString => None | _ => digits 0 rest end
      else if Nat.eqb (Ascii.nat_of_ascii a) 45 then
        match rest with EmptyString => None | _ => Z.opp <$> digits 0 rest end
      else digits 0 s
  end.

(** [body('quantity').isInt({ min: 1 })]: the check reads the value as a
    string and converts nothing. *)
Definition validQuantity (quantity : Quantity) : bool :=
  match quantity with
  | JsonNumber n => bool_decide (1 ≤ n)
  | JsonString s => from_option (λ n, bool_decide (1 ≤ n)) false (parseInteger s)
  end.

(** [part.quantityInStock += req.body.quantity]: the sum when the quantity
    is a number; when it is a string, the numeral of the stock followed by
    the string, which the [Number] path casts back to a number. [None] is
    the failed cast. *)
Definition addQuantity (stock : Z) (quantity : Quantity) : option Z :=
  match quantity with
  | JsonNumber n => Some (stock + n)
  | JsonString s => parseInteger (pretty stock +:+ s)
  end.

(** [POST /api/parts/:id/restock]. A failed cast and a stock below the
    [min: 0] of the schema make [save] throw. *)
Definition restock_part (id : nat) (quantity : Quantity) (coll : gmap nat Doc)
    : Response Doc * gmap nat Doc :=
  if negb (validQuantity quantity) then (ValidationErrors, coll)
  else
    match coll !! id with
    | None => (NotFound "Part not found", coll)
    | Some part =>
        match addQuantity (quantityInStock part) quantity with
        | Some stock =>
            if bool_decide (0 ≤ stock) then
              let saved := mkDoc stock (minimumStockLevel part) (isActive part) in
              (Ok saved, <[id := saved]> coll)
            else (InternalServerError, coll)
        | None => (InternalServerError, coll)
        end
    end.

(** [DELETE /api/parts/:id]: the soft delete. *)
Definition delete_part (id : nat) (coll : gmap nat Doc)
    : Response string * gmap nat Doc :=
  match coll !! id with
  | None => (NotFound "Part not found", coll)
  | Some part =>
      let saved := mkDoc (quantityInStock part) (minimumStockLevel part) false in
      (Ok "Part deleted successfully", <[id := saved]> coll)
  end.

End Parts.

(** ** Concrete data *)

Module Examples.

(** A shop with one supplier (contact 1), one part (part 7, three in
    stock) and no orders yet. *)
Definition emptyShop : Orders.Db :=
  Orders.mkDb ∅ {[ 7%nat := mkPart 3 ]} {[ 1%nat ]}.

(** Two of part 7 at 5 each, with a 72 hour limit. *)
Definition orderRequest : Orders.CreateBody :=
  Orders.mkCreateBody 1 [Orders.mkPartLine 7 2 5] (Some 72).

(** The same request without a time limit. *)
Definition orderRequestNoLimit : Orders.CreateBody :=
  Orders.mkCreateBody 1 [Orders.mkPartLine 7 2 5] None.

(** The same request with a time limit of 200 hours. *)
Definition orderRequestBadLimit : Orders.CreateBody :=
  Orders.mkCreateBody 1 [Orders.mkPartLine 7 2 5] (Some 200).

(** A confirmed order placed at time 0 with the default limit; its
    deadline is [72 * msPerHour = 259200000]. *)
Definition confirmedOrder : Order.t :=
  Order.mk 1 [(7%nat, 2, 5, 10)] 10 Order.confirmed 0 72 (Some 259200000) 9.

Definition shopWithOrder : Orders.Db :=
  Orders.mkDb {[ 0%nat := confirmedOrder ]} {[ 7%nat := mkPart 3 ]} {[ 1%nat ]}.

(** An edit of the limit to 48 hours, and one that also sends a
    [countdownEndTime]. *)
Definition editLimit : Orders.UpdateBody :=
  Orders.mkUpdateBody None (Some 48) false None None.

Definition editLimitAndDeadline : Orders.UpdateBody :=
  Orders.mkUpdateBody None (Some 48) false (Some 5) None.

Definition editBadLimit : Orders.UpdateBody :=
  Orders.mkUpdateBody None (Some 0) false None None.

(** Scenario C and D of the spec: technician 5, times of day in
    milliseconds (10:00 is 36000000, 11:00 is 39600000). *)
Definition appointment (status : Schedule.Status) : Schedule.t :=
  Schedule.mk "Brake service" 36000000 39600000 60 status (Some 5%nat)
    [Schedule.mkRequiredPart 7 5 true] 9.

Definition diary (status : Schedule.Status) : Schedules.Db :=
  Schedules.mkDb {[ 0%nat := appointment status ]} {[ 7%nat := mkPart 3 ]}.

(** A request for technician [tech] from [startTime] to [endTime]. *)
Definition booking (tech : option nat) (startTime endTime : Z)
    : Schedules.CreateBody :=
  Schedules.mkCreateBody "Oil change" startTime endTime 60 None tech [].



(** A second appointment of the same technician, 12:00 to 13:00, and a
    request that moves it to 10:30. *)
Definition laterAppointment : Schedule.t :=
  Schedule.mk "Oil change" 43200000 46800000 60 Schedule.scheduled (Some 5%nat) [] 9.

Definition busyDiary : Schedules.Db :=
  Schedules.mkDb {[ 0%nat := appointment Schedule.scheduled; 1%nat := laterAppointment ]}
    {[ 7%nat := mkPart 3 ]}.

Definition moveTo (startTime endTime : Z) : Schedules.UpdateBody :=
  Schedules.mkUpdateBody None (Some startTime) (Some endTime) None None None None.




(** The order of [shopWithOrder] once delivered. *)
Definition deliveredOrder : Order.t :=
  Order.set_status Order.delivered confirmedOrder.

Definition shopWithDelivered : Orders.Db :=
  Orders.mkDb {[ 0%nat := deliveredOrder ]} {[ 7%nat := mkPart 5 ]} {[ 1%nat ]}.

(** Three orders of one supplier, and a query for pages of two. *)
Definition shopWithThreeOrders : Orders.Db :=
  Orders.mkDb
    {[ 0%nat := confirmedOrder; 1%nat := deliveredOrder; 2%nat := confirmedOrder ]}
    {[ 7%nat := mkPart 3 ]} {[ 1%nat ]}.

Definition pagesOfTwo (page : Z) : OrdersRest.ListQuery :=
  OrdersRest.mkListQuery (Some page) (Some 2) None None.

(** Requests that send the limit the order has, 72, as a number and as the
    string ["72"], and one that sends nothing. *)
Definition sameLimit : Orders.UpdateBody :=
  Orders.mkUpdateBody None (Some 72) false None None.

Definition sameLimitAsString : Orders.UpdateBody :=
  Orders.mkUpdateBody None (Some 72) true None None.

Definition emptyUpdate : Orders.UpdateBody :=
  Orders.mkUpdateBody None None false None None.

(** A pending order. *)
Definition pendingOrder : Order.t :=
  Order.set_status Order.pending confirmedOrder.

Definition shopWithPending : Orders.Db :=
  Orders.mkDb {[ 0%nat := pendingOrder ]} {[ 7%nat := mkPart 3 ]} {[ 1%nat ]}.

(** A booking that asks for five of part 7 (three are in stock) and, on a
    second line, for part 7 again without a quantity. *)
Definition bookingWithParts : Schedules.CreateBody :=
  Schedules.mkCreateBody "Brake service" 50400000 54000000 60 None (Some 5%nat)
    [Schedules.mkRequiredPartBody 7 (Some 5) None;
     Schedules.mkRequiredPartBody 7 None None].

(** A request that names a part the shop does not have. *)
Definition orderRequestUnknownPart : Orders.CreateBody :=
  Orders.mkCreateBody 1 [Orders.mkPartLine 8 1 5] None.



(** A stock room: part 0 is low (2 of at least 5), part 1 is well stocked. *)
Definition stockRoom : gmap nat Parts.Doc :=
  {[ 0%nat := Parts.mkDoc 2 5 true; 1%nat := Parts.mkDoc 40 5 true ]}.

End Examples.

(** ** Theorems *)

Section Classification.

Lemma hours_lt_24_iff (timeLeft : Z) :
  floorDiv timeLeft (1000 * 60 * 60) < 24 ↔ timeLeft < 24 * msPerHour.
Proof.
  unfold floorDiv, msPerHour. split; intros H.
  - apply Z.nle_gt. intros Hge. apply Z.nle_gt in H. apply H.
    apply Z.div_le_lower_bound; lia.
  - apply Z.div_lt_upper_bound; lia.
Qed.

Lemma classify_None now : classify None now = None.
Proof. reflexivity. Qed.

Lemma classify_overdue e now : e - now ≤ 0 → classify (Some e) now = Some "overdue".
Proof.
  intros H. unfold classify, Order.countdownStatus. simpl.
  rewrite bool_decide_eq_true_2 by done. reflexivity.
Qed.

Lemma classify_urgent e now :
  0 < e - now → e - now < 24 * msPerHour → classify (Some e) now = Some "urgent".
Proof.
  intros H0 H1. unfold classify, Order.countdownStatus. simpl.
  rewrite bool_decide_eq_false_2 by lia. simpl.
  rewrite bool_decide_eq_true_2; [reflexivity|]. by apply hours_lt_24_iff.
Qed.

Lemma classify_normal e now :
  24 * msPerHour ≤ e - now → classify (Some e) now = Some "normal".
Proof.
  intros H. unfold classify, Order.countdownStatus. simpl.
  rewrite bool_decide_eq_false_2 by (unfold msPerHour in H; lia). simpl.
  rewrite bool_decide_eq_false_2; [reflexivity|].
  rewrite hours_lt_24_iff. lia.
Qed.

End Classification.


(** C4. For every [countdownEndTime] and [now], [classify] returns exactly
    one of "no deadline" ([None]), "overdue", "urgent" and "normal": no
    deadline exactly when the field is absent, overdue exactly when the
    remaining time is [<= 0], urgent exactly when it is strictly between 0
    and 24 hours, normal exactly from 24 hours on. At a remaining time of
    exactly 24 hours the result is "normal", at exactly 0 it is "overdue". *)
Theorem classify_exactly_one_of_four (now : Z) :
  classify None now = None
  ∧ (∀ e : Z,
       classify (Some e) now ≠ None
       ∧ (classify (Some e) now = Some "overdue" ↔ e - now ≤ 0)
       ∧ (classify (Some e) now = Some "urgent" ↔ 0 < e - now < 24 * msPerHour)
       ∧ (classify (Some e) now = Some "normal" ↔ 24 * msPerHour ≤ e - now))
  ∧ (∀ cet : option Z,
       classify cet now ∈ [None; Some "overdue"; Some "urgent"; Some "normal"])
  ∧ classify (Some (now + 24 * msPerHour)) now = Some "normal"
  ∧ classify (Some now) now = Some "overdue".
Proof.
  assert (Hcases : ∀ e : Z,
    (e - now ≤ 0 ∧ classify (Some e) now = Some "overdue")
    ∨ (0 < e - now < 24 * msPerHour ∧ classify (Some e) now = Some "urgent")
    ∨ (24 * msPerHour ≤ e - now ∧ classify (Some e) now = Some "normal")).
  { intros e.
    destruct (Z_le_gt_dec (e - now) 0) as [H0|H0].
    - left. split; [done|]. by apply classify_overdue.
    - destruct (Z_lt_le_dec (e - now) (24 * msPerHour)) as [H1|H1].
      + right; left. split; [lia|]. apply classify_urgent; lia.
      + right; right. split; [done|]. by apply classify_normal. }
  split; [reflexivity|]. split; [|split; [|split]].
  - intros e.
    destruct (Hcases e) as [[Hr ->]|[[Hr ->]|[Hr ->]]];
      (split; [done|]); (split; [|split]); (split; intros ?);
      done || (unfold msPerHour in *; lia).
  - intros [e|].
    + destruct (Hcases e) as [[_ ->]|[[_ ->]|[_ ->]]]; set_solver.
    + rewrite classify_None. set_solver.
  - apply classify_normal. lia.
  - apply classify_overdue. lia.
Qed.

Section OrderQueries.
Import Orders.

#[local] Instance date_le_total : Total date_le.
Proof. intros [a|] [b|]; simpl; try tauto. lia. Qed.

#[local] Instance date_le_trans : Transitive date_le.
Proof. intros [a|] [b|] [c|]; simpl; try tauto. lia. Qed.

#[local] Instance byCountdownEndTime_total : Total byCountdownEndTime.
Proof. intros a b. apply date_le_total. Qed.

#[local] Instance byCountdownEndTime_trans : Transitive byCountdownEndTime.
Proof. intros a b c. apply date_le_trans. Qed.

Lemma find_spec filter coll i o :
  (i, o) ∈ find filter coll ↔ coll !! i = Some o ∧ filter o = true.
Proof.
  unfold find. rewrite list_elem_of_In, filter_In, <- list_elem_of_In.
  by rewrite elem_of_map_to_list.
Qed.

Lemma NoDup_List_filter {A} (f : A → bool) (l : list A) :
  NoDup l → NoDup (List.filter f l).
Proof.
  induction 1 as [|x l Hx Hl IH]; simpl; [constructor|].
  destruct (f x); [|done]. constructor; [|done].
  rewrite list_elem_of_In, filter_In, <- list_elem_of_In. tauto.
Qed.

Lemma find_NoDup filter coll : NoDup (find filter coll).
Proof. apply NoDup_List_filter, NoDup_map_to_list. Qed.

Lemma sorted_spec l d : d ∈ sortByCountdownEndTime l ↔ d ∈ l.
Proof. unfold sortByCountdownEndTime. by rewrite merge_sort_Permutation. Qed.

Lemma sorted_NoDup l : NoDup l → NoDup (sortByCountdownEndTime l).
Proof. unfold sortByCountdownEndTime. by rewrite merge_sort_Permutation. Qed.

Lemma StronglySorted_strengthen {A} (R R' : relation A) (P : A → Prop) l :
  (∀ a b, P a → P b → R a b → R' a b) →
  StronglySorted R l → Forall P l → StronglySorted R' l.
Proof.
  intros HR. induction 1 as [|x l Hl IH Hx]; intros HP; [constructor|].
  apply Forall_cons in HP as [HPx HPl].
  constructor; [by apply IH|].
  rewrite Forall_forall in *. intros y Hy. auto.
Qed.

Lemma sorted_ascending l :
  Forall (λ d, is_Some (Order.countdownEndTime d.2)) l →
  StronglySorted deadlineAscending (sortByCountdownEndTime l).
Proof.
  intros Hall.
  apply (StronglySorted_strengthen byCountdownEndTime _
           (λ d, is_Some (Order.countdownEndTime d.2))).
  - intros a b [ea Ha] [eb Hb] Hab.
    exists ea, eb. unfold byCountdownEndTime in Hab.
    rewrite Ha, Hb in Hab. by repeat split.
  - apply (StronglySorted_merge_sort byCountdownEndTime).
  - rewrite Forall_forall in *. intros d Hd. apply Hall. by apply sorted_spec.
Qed.

Lemma statusInTransit_spec o :
  statusInTransit o = true ↔
  Order.status o = Order.confirmed ∨ Order.status o = Order.shipped.
Proof.
  unfold statusInTransit.
  rewrite bool_decide_eq_true, !elem_of_cons, elem_of_nil. tauto.
Qed.

Lemma urgentFilter_spec now o :
  urgentFilter now o = true ↔
  (Order.status o = Order.confirmed ∨ Order.status o = Order.shipped)
  ∧ ∃ e : Z, Order.countdownEndTime o = Some e ∧ 0 < e - now < 24 * msPerHour.
Proof.
  unfold urgentFilter, date_gt, date_lt, msPerHour.
  rewrite andb_true_iff, statusInTransit_spec.
  destruct (Order.countdownEndTime o) as [e|]; simpl.
  - rewrite andb_true_iff, !bool_decide_eq_true. split.
    + intros (? & ? & ?). split; [done|]. exists e. split; [done|lia].
    + intros (? & e' & [= <-] & ?). split; [done|lia].
  - split; [intros [_ [=]]|intros (_ & e & [=] & _)].
Qed.

(** What the overdue route's filter accepts: the comparison is Mongo's
    [$lt], strict. *)
Lemma overdueFilter_spec now o :
  overdueFilter now o = true ↔
  (Order.status o = Order.confirmed ∨ Order.status o = Order.shipped)
  ∧ ∃ e : Z, Order.countdownEndTime o = Some e ∧ e < now.
Proof.
  unfold overdueFilter, date_lt.
  rewrite andb_true_iff, statusInTransit_spec.
  destruct (Order.countdownEndTime o) as [e|]; simpl.
  - rewrite bool_decide_eq_true. split.
    + intros (? & ?). split; [done|]. by exists e.
    + intros (? & e' & [= <-] & ?). done.
  - split; [intros [_ [=]]|intros (_ & e & [=] & _)].
Qed.

(** The overdue route answers with the in-transit orders whose deadline is
    strictly before [now], soonest deadline first. *)
Lemma get_overdue_spec now db :
  (∀ i o, (i, o) ∈ get_overdue now db ↔
     orders db !! i = Some o
     ∧ (Order.status o = Order.confirmed ∨ Order.status o = Order.shipped)
     ∧ ∃ e : Z, Order.countdownEndTime o = Some e ∧ e < now)
  ∧ NoDup (get_overdue now db)
  ∧ StronglySorted deadlineAscending (get_overdue now db).
Proof.
  unfold get_overdue. split; [|split].
  - intros i o. by rewrite sorted_spec, find_spec, overdueFilter_spec.
  - apply sorted_NoDup, find_NoDup.
  - apply sorted_ascending, Forall_forall. intros [i o] Hd.
    apply find_spec in Hd as [_ Hf].
    apply overdueFilter_spec in Hf as (_ & e & He & _). by exists e.
Qed.

End OrderQueries.

(** C6. The urgent query returns exactly the stored orders whose status is
    confirmed or shipped and whose deadline is strictly after [now] and
    strictly less than 24 hours away, each once, sorted by ascending
    [countdownEndTime] (soonest first). *)
Theorem urgent_query_exact_and_sorted (now : Z) (db : Orders.Db) :
  (∀ (i : nat) (o : Order.t),
     (i, o) ∈ Orders.get_urgent now db ↔
       Orders.orders db !! i = Some o
       ∧ (Order.status o = Order.confirmed ∨ Order.status o = Order.shipped)
       ∧ ∃ e : Z, Order.countdownEndTime o = Some e ∧ 0 < e - now < 24 * msPerHour)
  ∧ NoDup (Orders.get_urgent now db)
  ∧ StronglySorted Orders.deadlineAscending (Orders.get_urgent now db).
Proof.
  unfold Orders.get_urgent. split; [|split].
  - intros i o. by rewrite sorted_spec, find_spec, urgentFilter_spec.
  - apply sorted_NoDup, find_NoDup.
  - apply sorted_ascending, Forall_forall. intros [i o] Hd.
    apply find_spec in Hd as [_ Hf].
    apply urgentFilter_spec in Hf as (_ & e & He & _). by exists e.
Qed.

(** At the boundary the two routes and the model disagree: an in-transit
    order whose deadline is exactly [now] is "overdue" for [countdownStatus]
    and is in neither list. *)
Lemma deadline_equal_to_now_in_neither_list (now : Z) (db : Orders.Db)
    (i : nat) (o : Order.t) :
  Order.countdownEndTime o = Some now →
  classify (Order.countdownEndTime o) now = Some "overdue"
  ∧ ((i, o) ∉ Orders.get_overdue now db)
  ∧ ((i, o) ∉ Orders.get_urgent now db).
Proof.
  intros Hnow. split; [rewrite Hnow; apply classify_overdue; lia|].
  split; intros Hin.
  - apply get_overdue_spec in Hin as (_ & _ & e & He & Hlt).
    rewrite Hnow in He. injection He as <-. lia.
  - unfold Orders.get_urgent in Hin.
    rewrite sorted_spec, find_spec, urgentFilter_spec in Hin.
    destruct Hin as (_ & _ & e & He & Hlt).
    rewrite Hnow in He. injection He as <-. lia.
Qed.

(** C3: the overdue route at the boundary. A confirmed order whose
    [countdownEndTime] equals [now] is classified "overdue" by the model's
    [countdownStatus], yet the overdue query ([$lt]) does not return it, and
    neither does the urgent query ([$gt]). *)
Theorem overdue_query_misses_deadline_equal_to_now :
  Orders.orders Examples.shopWithOrder !! 0%nat = Some Examples.confirmedOrder
  ∧ Order.countdownEndTime Examples.confirmedOrder = Some 259200000
  ∧ classify (Order.countdownEndTime Examples.confirmedOrder) 259200000 = Some "overdue"
  ∧ Orders.get_overdue 259200000 Examples.shopWithOrder = []
  ∧ Orders.get_urgent 259200000 Examples.shopWithOrder = []
  ∧ Orders.get_overdue 259200001 Examples.shopWithOrder = [(0%nat, Examples.confirmedOrder)].
Proof. repeat split; vm_compute; reflexivity. Qed.

Section OrderWrites.
Import Orders.

Lemma collectParts_found pc ls acc total :
  Forall (λ l, is_Some (pc !! part l)) ls →
  ∃ lines amount, collectParts pc ls acc total = inr (lines, amount).
Proof.
  revert acc total. induction ls as [|l ls IH]; intros acc total Hall; simpl.
  - by eexists _, _.
  - apply Forall_cons in Hall as [[p Hp] Hall]. rewrite Hp. by apply IH.
Qed.

Lemma validCreate_timeLimit b :
  validCreate b = true → validTimeLimit (c_customTimeLimit b) = true.
Proof. unfold validCreate. rewrite !andb_true_iff. tauto. Qed.

Lemma orDefault_valid v d :
  validTimeLimit v = true → orDefault v d = default d v.
Proof.
  destruct v as [x|]; simpl; [|done].
  rewrite bool_decide_eq_true. intros Hx.
  by rewrite bool_decide_eq_true_2 by lia.
Qed.

Lemma validTimeLimit_out_of_range l :
  ¬ (1 ≤ l ≤ 168) → validTimeLimit (Some l) = false.
Proof. intros H. simpl. by rewrite bool_decide_eq_false_2. Qed.

(** A request that passes every check of the route reaches [save], where
    the schema validation fails: the answer is 500 and nothing is stored. *)
Lemma post_order_rejected_at_save tNew tSave user b db :
  validCreate b = true →
  c_supplier b ∈ contacts db →
  Forall (λ l, is_Some (partsColl db !! part l)) (c_parts b) →
  post_order tNew tSave user b db = (InternalServerError, db).
Proof.
  intros Hvalid Hsup Hparts. unfold post_order.
  rewrite Hvalid. simpl.
  rewrite bool_decide_eq_false_2 by (intros Hn; by apply Hn).
  by destruct (collectParts_found _ _ [] 0 Hparts) as (lines & amount & ->).
Qed.

(** The route stores nothing, whatever the request. *)
Lemma post_order_db tNew tSave user b db :
  (post_order tNew tSave user b db).2 = db.
Proof.
  unfold post_order.
  destruct (validCreate b); simpl; [|done].
  case_bool_decide; simpl; [done|].
  by destruct (collectParts _ _ _ _) as [missing|[lines amount]].
Qed.

End OrderWrites.

(** C1: order creation at a request that passes every check of the route
    (supplier 1 and part 7 exist, limit 72 or absent). The specification has the
    order stored with the deadline [orderDate + customTimeLimit] hours. The
    route constructs the order without an [orderNumber] and saves it; the
    schema validation, which runs before the [pre('save')] hook that would
    assign the number and the deadline, rejects it. The answer is 500, no
    order is stored and no deadline is computed. The hook itself, run on
    the order the route constructs at clock 1000, reads the clock again
    (1001) and computes the deadline from that reading, not from the
    [orderDate]. *)
Theorem creation_answers_500_and_stores_nothing :
  let order := Order.mk 1 [(7%nat, 2, 5, 10)] 10 Order.pending 1000 72 None 9 in
  Orders.validCreate Examples.orderRequest = true
  ∧ Orders.c_supplier Examples.orderRequest ∈ Orders.contacts Examples.emptyShop
  ∧ Orders.partsColl Examples.emptyShop !! 7%nat = Some (mkPart 3)
  ∧ Orders.orders Examples.emptyShop = ∅
  ∧ Orders.post_order 1000 1001 9 Examples.orderRequest Examples.emptyShop
    = (InternalServerError, Examples.emptyShop)
  ∧ Orders.post_order 1000 1001 9 Examples.orderRequestNoLimit Examples.emptyShop
    = (InternalServerError, Examples.emptyShop)
  ∧ Orders.orders
      (Orders.post_order 1000 1001 9 Examples.orderRequest Examples.emptyShop).2
    = ∅
  ∧ Order.save 1001 (Order.mkDraft None order) = None
  ∧ Order.orderDate order = 1000
  ∧ Order.countdownEndTime (Order.pre_save true 1001 order)
    = Some (1001 + 72 * msPerHour).
Proof. repeat split; vm_compute; reflexivity. Qed.

Section OrderEdits.
Import Orders.

Ltac assign_cases b :=
  unfold assign, assignField;
  destruct (u_orderDate b), (u_countdownEndTime b),
    (u_customTimeLimit b), (u_status b); reflexivity.

Lemma assign_countdownEndTime b o :
  Order.countdownEndTime (assign b o)
  = match u_countdownEndTime b with
    | Some e => Some e
    | None => Order.countdownEndTime o
    end.
Proof. assign_cases b. Qed.

Lemma assign_customTimeLimit b o :
  Order.customTimeLimit (assign b o)
  = default (Order.customTimeLimit o) (u_customTimeLimit b).
Proof. assign_cases b. Qed.

(** The recompute step on a changed, valid limit. *)
Lemma recomputeCountdown_changed now b o l :
  u_customTimeLimit b = Some l → 1 ≤ l ≤ 168 → l ≠ Order.customTimeLimit o →
  recomputeCountdown now b o
  = Order.set_countdownEndTime (Some (now + l * msPerHour))
      (Order.set_customTimeLimit l o).
Proof.
  intros Hb Hl Hne. unfold recomputeCountdown. rewrite Hb.
  rewrite !bool_decide_eq_true_2 by (done || lia). by rewrite !orb_true_r.
Qed.

(** The stored limit sent again as a number leaves the deadline where it
    was. *)
Lemma recomputeCountdown_unchanged now b o :
  u_customTimeLimit b = Some (Order.customTimeLimit o) →
  u_customTimeLimitAsString b = false →
  recomputeCountdown now b o = o.
Proof.
  intros Hb Hnum. unfold recomputeCountdown. rewrite Hb, Hnum.
  rewrite (bool_decide_eq_false_2 (_ ≠ Order.customTimeLimit o)) by tauto.
  by rewrite andb_false_r.
Qed.

(** Sent as a string, every valid limit restarts the countdown. *)
Lemma recomputeCountdown_string now b o l :
  u_customTimeLimit b = Some l →
  u_customTimeLimitAsString b = true →
  recomputeCountdown now b o
  = Order.set_countdownEndTime (Some (now + l * msPerHour))
      (Order.set_customTimeLimit l o).
Proof.
  intros Hb Hstr. unfold recomputeCountdown. by rewrite Hb, Hstr.
Qed.

End OrderEdits.

(** C5: an edit of the limit whose request also carries a
    [countdownEndTime]. The limit of an order goes from 72 to 48 hours at
    clock 3600000. The route recomputes the deadline to [3600000 + 48h]
    ("Update countdown if custom time limit is changed") and then copies
    the whole request onto the order ("Update other fields"), which
    overwrites the deadline it has just computed: the order is stored with
    the limit 48 and the deadline 5 of the request, not with
    [editTime + 48h] as the specification has it. *)
Theorem edit_deadline_overridden_by_request_field :
  ∃ (saved : Order.t) (db' : Orders.Db),
    Orders.orders Examples.shopWithOrder !! 0%nat = Some Examples.confirmedOrder
    ∧ Order.customTimeLimit Examples.confirmedOrder = 72
    ∧ Orders.u_customTimeLimit Examples.editLimitAndDeadline = Some 48
    ∧ Orders.recomputeCountdown 3600000 Examples.editLimitAndDeadline
        Examples.confirmedOrder
      = Order.set_countdownEndTime (Some (3600000 + 48 * msPerHour))
          (Order.set_customTimeLimit 48 Examples.confirmedOrder)
    ∧ Orders.put_order 3600000 0 Examples.editLimitAndDeadline Examples.shopWithOrder
        = (Ok saved, db')
    ∧ Orders.orders db' !! 0%nat = Some saved
    ∧ Order.customTimeLimit saved = 48
    ∧ Order.countdownEndTime saved = Some 5
    ∧ Order.countdownEndTime saved ≠ Some (3600000 + 48 * msPerHour).
Proof.
  eexists _, _. split; [vm_compute; reflexivity|].
  split; [reflexivity|]. split; [reflexivity|].
  split; [vm_compute; reflexivity|].
  split; [vm_compute; reflexivity|].
  repeat split; try (vm_compute; reflexivity).
  vm_compute. intros [=].
Qed.

(** C9. A create or update request whose [customTimeLimit] is outside
    [1,168] is answered with the validation error, whatever the clock reads,
    and the database after the request is the database before it: no order
    is created or changed and no deadline is stored. *)
Theorem out_of_range_time_limit_rejected (l : Z) :
  ¬ (1 ≤ l ≤ 168) →
  (∀ (tNew tSave : Z) (user : nat) (b : Orders.CreateBody) (db : Orders.Db),
     Orders.c_customTimeLimit b = Some l →
     Orders.post_order tNew tSave user b db = (ValidationErrors, db))
  ∧ (∀ (now : Z) (id : nat) (b : Orders.UpdateBody) (db : Orders.Db),
       Orders.u_customTimeLimit b = Some l →
       Orders.put_order now id b db = (ValidationErrors, db)).
Proof.
  intros Hl. split.
  - intros tNew tSave user b db Hb. unfold Orders.post_order, Orders.validCreate.
    rewrite Hb, (validTimeLimit_out_of_range l Hl).
    by rewrite andb_false_r.
  - intros now id b db Hb. unfold Orders.put_order, Orders.validUpdate.
    by rewrite Hb, (validTimeLimit_out_of_range l Hl).
Qed.

Lemma out_of_range_time_limit_rejected_witness :
  Orders.post_order 1000 1001 9 Examples.orderRequestBadLimit Examples.emptyShop
    = (ValidationErrors, Examples.emptyShop)
  ∧ Orders.put_order 1000 0 Examples.editBadLimit Examples.shopWithOrder
    = (ValidationErrors, Examples.shopWithOrder).
Proof.
  split.
  - apply (proj1 (out_of_range_time_limit_rejected 200 ltac:(lia))). reflexivity.
  - apply (proj2 (out_of_range_time_limit_rejected 0 ltac:(lia))). reflexivity.
Defined.

Section Conflicts.
Import Schedules.

Lemma findOne_is_Some filter coll :
  is_Some (findOne filter coll) ↔
  ∃ i s, coll !! i = Some s ∧ filter (i, s) = true.
Proof.
  unfold findOne. split.
  - intros [[i s] Hd]. exists i, s.
    apply head_Some_elem_of in Hd.
    rewrite list_elem_of_In, filter_In, <- list_elem_of_In in Hd.
    by rewrite elem_of_map_to_list in Hd.
  - intros (i & s & Hs & Hf).
    assert (Hin : (i, s) ∈ List.filter filter (map_to_list coll)).
    { rewrite list_elem_of_In, filter_In, <- list_elem_of_In.
      by rewrite elem_of_map_to_list. }
    destruct (List.filter filter (map_to_list coll)); [by inversion Hin|].
    by eexists.
Qed.

Lemma overlaps_spec startTime endTime s :
  overlaps startTime endTime s = true ↔
  Schedule.startTime s < endTime ∧ startTime < Schedule.endTime s.
Proof.
  unfold overlaps. rewrite andb_true_iff, !bool_decide_eq_true. lia.
Qed.

Lemma active_spec s :
  active s = true ↔
  Schedule.status s = Schedule.scheduled ∨ Schedule.status s = Schedule.in_progress.
Proof.
  unfold active. rewrite bool_decide_eq_true, !elem_of_cons, elem_of_nil. tauto.
Qed.

Lemma conflictFilter_spec exclude technician startTime endTime i s :
  conflictFilter exclude technician startTime endTime (i, s) = true ↔
  exclude ≠ Some i
  ∧ Schedule.assignedTechnician s = Some technician
  ∧ (Schedule.status s = Schedule.scheduled ∨ Schedule.status s = Schedule.in_progress)
  ∧ Schedule.startTime s < endTime ∧ startTime < Schedule.endTime s.
Proof.
  unfold conflictFilter. simpl.
  rewrite !andb_true_iff, overlaps_spec, active_spec, bool_decide_eq_true.
  destruct exclude as [x|]; [rewrite bool_decide_eq_true|];
    (split; [intros (((Hx & ?) & ?) & ?)|intros (Hx & ? & ? & ?)]);
    repeat split; tauto || congruence.
Qed.

(** The conflict query finds a document exactly when the collection holds
    an active appointment of the technician, other than the excluded one,
    whose interval overlaps the proposed one. *)
Lemma hasConflict_spec exclude technician startTime endTime coll :
  hasConflict exclude technician startTime endTime coll = true ↔
  ∃ i s, coll !! i = Some s
    ∧ exclude ≠ Some i
    ∧ Schedule.assignedTechnician s = Some technician
    ∧ (Schedule.status s = Schedule.scheduled ∨ Schedule.status s = Schedule.in_progress)
    ∧ Schedule.startTime s < endTime ∧ startTime < Schedule.endTime s.
Proof.
  unfold hasConflict, findConflict.
  rewrite bool_decide_eq_true, findOne_is_Some.
  by setoid_rewrite conflictFilter_spec.
Qed.

Lemma checkParts_found pc rps :
  Forall (λ rp, is_Some (pc !! rp_part rp)) rps →
  ∃ rps', checkParts pc rps = inr rps' ∧ rp_part <$> rps' = rp_part <$> rps.
Proof.
  induction 1 as [|rp rps [p Hp] _ (rps' & IH & Hids)]; simpl.
  - by exists [].
  - rewrite Hp, IH. eexists. split; [reflexivity|].
    rewrite !fmap_cons, Hids. f_equal.
    destruct (rp_quantity rp); [|done]. by case_bool_decide.
Qed.

(** A valid request that passes the conflict stage and names known parts
    only is stored under a fresh id, with its title trimmed, when the
    trimmed title is not empty. *)
Lemma post_schedule_created user b db :
  validCreate b = true →
  trim (c_title b) ≠ "" →
  (∀ technician, c_assignedTechnician b = Some technician →
     hasConflict None technician (c_startTime b) (c_endTime b) (schedules db) = false) →
  Forall (λ rp, is_Some (partsColl db !! rp_part rp)) (c_requiredParts b) →
  ∃ id s db',
    post_schedule user b db = (Created (id, s), db')
    ∧ schedules db !! id = None
    ∧ schedules db' = <[id := s]> (schedules db)
    ∧ schedules db' !! id = Some s
    ∧ partsColl db' = partsColl db
    ∧ Schedule.title s = trim (c_title b)
    ∧ Schedule.startTime s = c_startTime b
    ∧ Schedule.endTime s = c_endTime b
    ∧ Schedule.assignedTechnician s = c_assignedTechnician b
    ∧ Schedule.status s = default Schedule.scheduled (c_status b)
    ∧ Schedule.createdBy s = user.
Proof.
  intros Hvalid Htitle Hfree Hparts. unfold post_schedule.
  rewrite Hvalid. simpl.
  assert (Hstage :
    match c_assignedTechnician b with
    | Some technician =>
        hasConflict None technician (c_startTime b) (c_endTime b) (schedules db)
    | None => false
    end = false).
  { destruct (c_assignedTechnician b); [by apply Hfree|done]. }
  rewrite Hstage.
  destruct (checkParts_found _ _ Hparts) as (rps' & -> & _).
  unfold Schedule.save. simpl. rewrite bool_decide_eq_true_2 by done.
  eexists _, _, _. split; [reflexivity|].
  split; [apply not_elem_of_dom, is_fresh|]. simpl.
  split; [reflexivity|]. split; [by rewrite lookup_insert_eq|].
  by repeat split.
Qed.

(** The same request with a title of white space only is refused by the
    schema validation of [save]: the answer is 500 and nothing is stored. *)
Lemma post_schedule_blank_title user b db :
  validCreate b = true →
  trim (c_title b) = "" →
  (∀ technician, c_assignedTechnician b = Some technician →
     hasConflict None technician (c_startTime b) (c_endTime b) (schedules db) = false) →
  Forall (λ rp, is_Some (partsColl db !! rp_part rp)) (c_requiredParts b) →
  post_schedule user b db = (InternalServerError, db).
Proof.
  intros Hvalid Htitle Hfree Hparts. unfold post_schedule.
  rewrite Hvalid. simpl.
  assert (Hstage :
    match c_assignedTechnician b with
    | Some technician =>
        hasConflict None technician (c_startTime b) (c_endTime b) (schedules db)
    | None => false
    end = false).
  { destruct (c_assignedTechnician b); [by apply Hfree|done]. }
  rewrite Hstage.
  destruct (checkParts_found _ _ Hparts) as (rps' & -> & _).
  unfold Schedule.save. simpl. by rewrite Htitle.
Qed.

(** The technician the update route checks: the id that was sent, else the
    stored one. *)
Lemma sentTechnician_spec b technician :
  sentTechnician b = Some technician ↔ u_assignedTechnician b = Some (Some technician).
Proof.
  unfold sentTechnician.
  destruct (u_assignedTechnician b) as [[x|]|]; split; intros [=]; by subst.
Qed.

Lemma sentTechnician_None b :
  sentTechnician b = None ↔
  u_assignedTechnician b = None ∨ u_assignedTechnician b = Some None.
Proof.
  unfold sentTechnician.
  destruct (u_assignedTechnician b) as [[x|]|]; split; try done;
    (by left) || (by right) || by intros [|].
Qed.

Lemma updateConflict_spec id b s coll :
  updateConflict id b s coll = true ↔
  updateChecksConflict b s = true
  ∧ ∃ technician,
      (sentTechnician b = Some technician
       ∨ sentTechnician b = None
         ∧ Schedule.assignedTechnician s = Some technician)
      ∧ hasConflict (Some id) technician
          (default (Schedule.startTime s) (u_startTime b))
          (default (Schedule.endTime s) (u_endTime b)) coll = true.
Proof.
  unfold updateConflict.
  destruct (updateChecksConflict b s); [|split; [done|by intros [? _]]].
  destruct (sentTechnician b) as [x|].
  - split.
    + intros Hc. split; [done|]. exists x. split; [by left|done].
    + intros (_ & t & [Ht|[Ht _]] & Hc); by simplify_eq.
  - destruct (Schedule.assignedTechnician s) as [x|].
    + split.
      * intros Hc. split; [done|]. exists x. split; [by right|done].
      * intros (_ & t & [Ht|[_ Ht]] & Hc); by simplify_eq.
    + split; [done|]. intros (_ & t & [Ht|[_ Ht]] & _); by simplify_eq.
Qed.

End Conflicts.



Section ConflictStage.
Import Schedules.

Lemma post_schedule_not_conflict user b db :
  match c_assignedTechnician b with
  | Some technician =>
      hasConflict None technician (c_startTime b) (c_endTime b) (schedules db)
  | None => false
  end = false →
  (post_schedule user b db).1 ≠ BadRequest conflictMessage.
Proof.
  intros Hstage. unfold post_schedule. rewrite Hstage.
  destruct (validCreate b); simpl; [|done].
  destruct (checkParts _ _); simpl; [|by destruct (Schedule.save _)].
  unfold conflictMessage. intros [= H].
Qed.

Lemma put_schedule_not_conflict id b db a :
  schedules db !! id = Some a →
  updateConflict id b a (schedules db) = false →
  (put_schedule id b db).1 ≠ BadRequest conflictMessage.
Proof.
  intros Hfind Hfree. unfold put_schedule. rewrite Hfind, Hfree.
  destruct (validUpdate b); simpl; [|done].
  by destruct (Schedule.saveChanges _ _).
Qed.

(** Appointments of the technician that overlap the proposed interval but
    are not active do not count. *)
Lemma hasConflict_inactive technician startTime endTime coll :
  (∀ i a, coll !! i = Some a →
     Schedule.assignedTechnician a = Some technician →
     Schedule.startTime a < endTime → startTime < Schedule.endTime a →
     Schedule.status a ≠ Schedule.scheduled
     ∧ Schedule.status a ≠ Schedule.in_progress) →
  hasConflict None technician startTime endTime coll = false.
Proof.
  intros Hinactive. apply not_true_iff_false. rewrite hasConflict_spec.
  intros (i & a & Ha & _ & Htech & Hstatus & Hs & He).
  destruct (Hinactive i a Ha Htech Hs He). tauto.
Qed.

End ConflictStage.

(** C7. A creation request without a technician never meets the conflict
    check: whatever appointments are stored, the answer is not the conflict
    rejection, and a valid request whose parts exist and whose title is not
    blank is stored, under an unused id, without a technician. The same
    holds for a request with a technician when every stored appointment of
    that technician overlapping the proposed interval has a status outside
    {scheduled, in_progress}, cancelled ones in particular: the query finds
    no conflict and the appointment is stored for that technician in the
    requested slot. After either request the stored appointments are the
    ones before it and the new one. On the update route an appointment that
    has no technician and is sent none (the field left out or [null]) is
    not checked either. *)
Theorem unassigned_and_inactive_never_block
    (user : nat) (b : Schedules.CreateBody) (db : Schedules.Db) :
  (Schedules.c_assignedTechnician b = None →
     (Schedules.post_schedule user b db).1 ≠ BadRequest Schedules.conflictMessage
     ∧ (Schedules.validCreate b = true →
        trim (Schedules.c_title b) ≠ EmptyString →
        Forall (λ rp, is_Some (Schedules.partsColl db !! Schedules.rp_part rp))
          (Schedules.c_requiredParts b) →
        ∃ (id : nat) (s : Schedule.t) (db' : Schedules.Db),
          Schedules.post_schedule user b db = (Created (id, s), db')
          ∧ Schedules.schedules db !! id = None
          ∧ Schedules.schedules db' = <[id := s]> (Schedules.schedules db)
          ∧ Schedules.schedules db' !! id = Some s
          ∧ Schedules.partsColl db' = Schedules.partsColl db
          ∧ Schedule.title s = trim (Schedules.c_title b)
          ∧ Schedule.startTime s = Schedules.c_startTime b
          ∧ Schedule.endTime s = Schedules.c_endTime b
          ∧ Schedule.assignedTechnician s = None))
  ∧ (∀ technician : nat,
       Schedules.c_assignedTechnician b = Some technician →
       (∀ (i : nat) (a : Schedule.t),
          Schedules.schedules db !! i = Some a →
          Schedule.assignedTechnician a = Some technician →
          Schedule.startTime a < Schedules.c_endTime b →
          Schedules.c_startTime b < Schedule.endTime a →
          Schedule.status a ≠ Schedule.scheduled
          ∧ Schedule.status a ≠ Schedule.in_progress) →
       Schedules.hasConflict None technician (Schedules.c_startTime b)
         (Schedules.c_endTime b) (Schedules.schedules db) = false
       ∧ (Schedules.post_schedule user b db).1 ≠ BadRequest Schedules.conflictMessage
       ∧ (Schedules.validCreate b = true →
          trim (Schedules.c_title b) ≠ EmptyString →
          Forall (λ rp, is_Some (Schedules.partsColl db !! Schedules.rp_part rp))
            (Schedules.c_requiredParts b) →
          ∃ (id : nat) (s : Schedule.t) (db' : Schedules.Db),
            Schedules.post_schedule user b db = (Created (id, s), db')
            ∧ Schedules.schedules db !! id = None
            ∧ Schedules.schedules db' = <[id := s]> (Schedules.schedules db)
            ∧ Schedules.schedules db' !! id = Some s
            ∧ Schedules.partsColl db' = Schedules.partsColl db
            ∧ Schedule.title s = trim (Schedules.c_title b)
            ∧ Schedule.startTime s = Schedules.c_startTime b
            ∧ Schedule.endTime s = Schedules.c_endTime b
            ∧ Schedule.assignedTechnician s = Some technician))
  ∧ (∀ (id : nat) (u : Schedules.UpdateBody) (a : Schedule.t),
       Schedules.schedules db !! id = Some a →
       Schedules.u_assignedTechnician u = None
       ∨ Schedules.u_assignedTechnician u = Some None →
       Schedule.assignedTechnician a = None →
       Schedules.updateConflict id u a (Schedules.schedules db) = false
       ∧ (Schedules.put_schedule id u db).1 ≠ BadRequest Schedules.conflictMessage).
Proof.
  split; [|split].
  - intros Hnone. split.
    + apply post_schedule_not_conflict. by rewrite Hnone.
    + intros Hvalid Htitle Hparts.
      destruct (post_schedule_created user b db Hvalid Htitle)
        as (id & s & db' & Hpost & Hfresh & Hdb' & Hstored & Hpc & Ht & Hs & He & Htech & _);
        [by rewrite Hnone|done|].
      exists id, s, db'. rewrite <- Hnone. done.
  - intros technician Htech Hinactive.
    pose proof (hasConflict_inactive _ _ _ _ Hinactive) as Hfree.
    split; [done|]. split.
    + apply post_schedule_not_conflict. by rewrite Htech.
    + intros Hvalid Htitle Hparts.
      destruct (post_schedule_created user b db Hvalid Htitle)
        as (id & s & db' & Hpost & Hfresh & Hdb' & Hstored & Hpc & Ht & Hs & He & Htech' & _);
        [by intros t; rewrite Htech; intros [= <-]|done|].
      exists id, s, db'. rewrite <- Htech. done.
  - intros id u a Hfind Hu Ha.
    assert (Hfree : Schedules.updateConflict id u a (Schedules.schedules db) = false).
    { unfold Schedules.updateConflict.
      rewrite (proj2 (sentTechnician_None u) Hu), Ha.
      by destruct (Schedules.updateChecksConflict u a). }
    split; [exact Hfree|]. by apply (put_schedule_not_conflict id u db a).
Qed.

Lemma unassigned_and_inactive_never_block_witness :
  (∃ (id : nat) (s : Schedule.t) (db' : Schedules.Db),
     Schedules.post_schedule 9 (Examples.booking None 36000000 39600000)
       (Examples.diary Schedule.scheduled)
     = (Created (id, s), db')
     ∧ Schedules.schedules db' !! id = Some s
     ∧ Schedule.assignedTechnician s = None)
  ∧ (∃ (id : nat) (s : Schedule.t) (db' : Schedules.Db),
       Schedules.post_schedule 9 (Examples.booking (Some 5%nat) 36000000 39600000)
         (Examples.diary Schedule.cancelled)
       = (Created (id, s), db')
       ∧ Schedules.schedules db' !! id = Some s
       ∧ Schedule.startTime s = 36000000
       ∧ Schedule.endTime s = 39600000
       ∧ Schedule.assignedTechnician s = Some 5%nat).
Proof.
  split.
  - destruct (unassigned_and_inactive_never_block 9
                (Examples.booking None 36000000 39600000)
                (Examples.diary Schedule.scheduled)) as (Hunassigned & _ & _).
    destruct (Hunassigned eq_refl) as (_ & Hcreated).
    destruct Hcreated
      as (id & s & db' & Hpost & _ & _ & Hstored & _ & _ & _ & _ & Htech);
      [reflexivity|vm_compute; intros [=]|constructor|].
    by exists id, s, db'.
  - destruct (unassigned_and_inactive_never_block 9
                (Examples.booking (Some 5%nat) 36000000 39600000)
                (Examples.diary Schedule.cancelled)) as (_ & Hinactive & _).
    destruct (Hinactive 5%nat eq_refl) as (_ & _ & Hcreated).
    + intros i a Ha _ _ _. simpl in Ha.
      apply lookup_singleton_Some in Ha as [_ <-]. by split.
    + destruct Hcreated
        as (id & s & db' & Hpost & _ & _ & Hstored & _ & _ & Hs & He & Htech);
        [reflexivity|vm_compute; intros [=]|constructor|].
      by exists id, s, db'.
Defined.

Section Lifecycle.
Import Schedules.

Lemma requiredQuantity_nonneg p rps :
  Forall (λ rp, 0 ≤ Schedule.quantity rp) rps → 0 ≤ requiredQuantity p rps.
Proof.
  induction 1 as [|rp rps Hq _ IH]; simpl; [done|].
  case_bool_decide; lia.
Qed.

Lemma usePart_lookup_ne pc rp p :
  Schedule.part rp ≠ p → usePart pc rp !! p = pc !! p.
Proof.
  intros Hne. unfold usePart.
  destruct (pc !! Schedule.part rp); [|done].
  case_bool_decide; [|done]. by rewrite lookup_insert_ne.
Qed.

Lemma usePart_lookup_eq pc rp stock :
  pc !! Schedule.part rp = Some stock →
  usePart pc rp !! Schedule.part rp
  = Some (if bool_decide (Schedule.quantity rp ≠ 0)
          then mkPart (Z.max 0 (quantityInStock stock - Schedule.quantity rp))
          else stock).
Proof.
  intros Hp. unfold usePart. rewrite Hp.
  case_bool_decide; [|done]. by rewrite lookup_insert_eq.
Qed.

Lemma usePart_lookup_None pc rp p :
  pc !! p = None → usePart pc rp !! p = None.
Proof.
  intros Hp. destruct (decide (Schedule.part rp = p)) as [<-|Hne].
  - unfold usePart. by rewrite Hp.
  - by rewrite usePart_lookup_ne.
Qed.

Lemma useParts_lookup_None rps : ∀ pc p,
  pc !! p = None → useParts pc rps !! p = None.
Proof.
  induction rps as [|rp rps IH]; intros pc p Hp; simpl; [done|].
  by apply IH, usePart_lookup_None.
Qed.

(** The loop never leaves a negative counter behind. *)
Lemma useParts_nonneg rps : ∀ pc,
  map_Forall (λ _ stock, 0 ≤ quantityInStock stock) pc →
  map_Forall (λ _ stock, 0 ≤ quantityInStock stock) (useParts pc rps).
Proof.
  induction rps as [|rp rps IH]; intros pc Hpc; simpl; [done|].
  apply IH. unfold usePart.
  destruct (pc !! Schedule.part rp) as [stock|]; [|done].
  case_bool_decide; [|done].
  apply map_Forall_insert_2; [simpl; lia|done].
Qed.

(** The loop subtracts, clamping at zero, what the lines ask for. *)
Lemma useParts_lookup rps : ∀ pc p stock,
  Forall (λ rp, 0 ≤ Schedule.quantity rp) rps →
  pc !! p = Some stock →
  0 ≤ quantityInStock stock →
  useParts pc rps !! p
  = Some (mkPart (Z.max 0 (quantityInStock stock - requiredQuantity p rps))).
Proof.
  induction rps as [|rp rps IH]; intros pc p stock Hq Hp Hstock; simpl.
  - rewrite Hp. destruct stock as [n]. simpl in *. do 2 f_equal. lia.
  - apply Forall_cons in Hq as [Hq Hqs].
    pose proof (requiredQuantity_nonneg p rps Hqs) as Hreq.
    case_bool_decide as Hpart.
    + subst p.
      pose proof (usePart_lookup_eq pc rp stock Hp) as Hstep.
      case_bool_decide as Hzero.
      * rewrite (IH _ _ _ Hqs Hstep) by (simpl; lia).
        simpl. do 2 f_equal. lia.
      * rewrite (IH _ _ _ Hqs Hstep Hstock).
        do 2 f_equal. lia.
    + rewrite (IH (usePart pc rp) p stock Hqs); [|by rewrite usePart_lookup_ne|done].
      do 2 f_equal.
Qed.

End Lifecycle.

(** C8. For a stored appointment: [start] on a status other than scheduled
    is answered with an error and changes nothing; on a scheduled
    appointment it stores the appointment with status in_progress: the
    appointment stored under the id afterwards is the old one with that
    status, and nothing else in the database changes. [complete] on a
    status other than in_progress is answered with an error and changes
    nothing; on an in_progress appointment (and a well-formed request) it
    stores the appointment with status completed. *)
Theorem start_and_complete_guarded
    (id : nat) (db : Schedules.Db) (a : Schedule.t) :
  Schedules.schedules db !! id = Some a →
  (Schedule.status a ≠ Schedule.scheduled →
     Schedules.start_schedule id db
       = (BadRequest "Can only start scheduled appointments", db))
  ∧ (Schedule.status a = Schedule.scheduled →
       ∃ (saved : Schedule.t) (db' : Schedules.Db),
         Schedules.start_schedule id db = (Ok saved, db')
         ∧ Schedules.schedules db' = <[id := saved]> (Schedules.schedules db)
         ∧ Schedules.schedules db' !! id = Some saved
         ∧ Schedules.partsColl db' = Schedules.partsColl db
         ∧ saved = Schedule.set_status Schedule.in_progress a
         ∧ Schedule.status saved = Schedule.in_progress)
  ∧ (∀ b : Schedules.CompleteBody,
       Schedule.status a ≠ Schedule.in_progress →
       rejected (Schedules.complete_schedule id b db).1
       ∧ (Schedules.complete_schedule id b db).2 = db
       ∧ (Schedules.validComplete b = true →
          (Schedules.complete_schedule id b db).1
            = BadRequest "Can only complete in-progress appointments"))
  ∧ (∀ b : Schedules.CompleteBody,
       Schedule.status a = Schedule.in_progress →
       Schedules.validComplete b = true →
       ∃ (saved : Schedule.t) (db' : Schedules.Db),
         Schedules.complete_schedule id b db = (Ok saved, db')
         ∧ Schedules.schedules db' = <[id := saved]> (Schedules.schedules db)
         ∧ Schedules.schedules db' !! id = Some saved
         ∧ saved = Schedule.set_status Schedule.completed a
         ∧ Schedule.status saved = Schedule.completed).
Proof.
  intros Hfind. split; [|split; [|split]].
  - intros Hst. unfold Schedules.start_schedule. rewrite Hfind.
    by rewrite bool_decide_eq_true_2.
  - intros Hst. unfold Schedules.start_schedule. rewrite Hfind.
    rewrite bool_decide_eq_false_2 by (by intros H; apply H).
    eexists _, _. split; [reflexivity|]. simpl.
    split; [reflexivity|]. split; [by rewrite lookup_insert_eq|]. done.
  - intros b Hst. unfold Schedules.complete_schedule. rewrite Hfind.
    rewrite (bool_decide_eq_true_2 _ Hst).
    by destruct (Schedules.validComplete b).
  - intros b Hst Hvalid. unfold Schedules.complete_schedule.
    rewrite Hvalid, Hfind. simpl.
    rewrite bool_decide_eq_false_2 by (by intros H; apply H).
    eexists _, _. split; [reflexivity|]. simpl.
    split; [reflexivity|]. split; [by rewrite lookup_insert_eq|]. done.
Qed.

Lemma start_and_complete_guarded_witness :
  Schedules.start_schedule 0 (Examples.diary Schedule.cancelled)
    = (BadRequest "Can only start scheduled appointments",
       Examples.diary Schedule.cancelled)
  ∧ (∃ (saved : Schedule.t) (db' : Schedules.Db),
       Schedules.start_schedule 0 (Examples.diary Schedule.scheduled)
         = (Ok saved, db')
       ∧ Schedules.schedules db'
           = <[0%nat := saved]> (Schedules.schedules (Examples.diary Schedule.scheduled))
       ∧ Schedules.schedules db' !! 0%nat = Some saved
       ∧ Schedules.partsColl db'
           = Schedules.partsColl (Examples.diary Schedule.scheduled)
       ∧ saved = Schedule.set_status Schedule.in_progress
                   (Examples.appointment Schedule.scheduled)
       ∧ Schedule.status saved = Schedule.in_progress)
  ∧ (Schedules.complete_schedule 0 (Schedules.mkCompleteBody None)
       (Examples.diary Schedule.scheduled)).2
    = Examples.diary Schedule.scheduled
  ∧ (∃ (saved : Schedule.t) (db' : Schedules.Db),
       Schedules.complete_schedule 0 (Schedules.mkCompleteBody None)
         (Examples.diary Schedule.in_progress)
         = (Ok saved, db')
       ∧ Schedules.schedules db'
           = <[0%nat := saved]> (Schedules.schedules (Examples.diary Schedule.in_progress))
       ∧ Schedules.schedules db' !! 0%nat = Some saved
       ∧ saved = Schedule.set_status Schedule.completed
                   (Examples.appointment Schedule.in_progress)
       ∧ Schedule.status saved = Schedule.completed).
Proof.
  split; [|split; [|split]].
  - apply (start_and_complete_guarded 0 (Examples.diary Schedule.cancelled)
             (Examples.appointment Schedule.cancelled)); [reflexivity|].
    simpl. intros [=].
  - apply (start_and_complete_guarded 0 (Examples.diary Schedule.scheduled)
             (Examples.appointment Schedule.scheduled)); reflexivity.
  - apply (start_and_complete_guarded 0 (Examples.diary Schedule.scheduled)
             (Examples.appointment Schedule.scheduled)); [reflexivity|].
    simpl. intros [=].
  - apply (start_and_complete_guarded 0 (Examples.diary Schedule.in_progress)
             (Examples.appointment Schedule.in_progress)); reflexivity.
Defined.

Section Inventory.
Import Schedules.

Lemma useParts_lookup_untouched rps : ∀ pc p,
  p ∉ Schedule.part <$> rps → useParts pc rps !! p = pc !! p.
Proof.
  induction rps as [|rp rps IH]; intros pc p Hp; simpl; [done|].
  rewrite fmap_cons, not_elem_of_cons in Hp. destruct Hp as [Hne Hp].
  rewrite (IH _ _ Hp). by apply usePart_lookup_ne.
Qed.

(** With every part on one line only, each line's part ends with the
    clamped difference, whatever the sign of the quantity. *)
Lemma useParts_lookup_line rps : ∀ pc rp stock,
  NoDup (Schedule.part <$> rps) →
  rp ∈ rps →
  pc !! Schedule.part rp = Some stock →
  0 ≤ quantityInStock stock →
  useParts pc rps !! Schedule.part rp
  = Some (mkPart (Z.max 0 (quantityInStock stock - Schedule.quantity rp))).
Proof.
  induction rps as [|rp0 rps IH]; intros pc rp stock Hnd Hin Hp Hstock.
  - by apply elem_of_nil in Hin.
  - rewrite fmap_cons in Hnd. apply NoDup_cons in Hnd as [Hfresh Hnd].
    apply elem_of_cons in Hin as [->|Hin]; simpl.
    + rewrite (useParts_lookup_untouched _ _ _ Hfresh).
      rewrite (usePart_lookup_eq _ _ _ Hp).
      case_bool_decide as Hzero; [done|].
      destruct stock as [n]. simpl in *. do 2 f_equal. lia.
    + apply (IH _ _ _ Hnd Hin); [|done].
      rewrite usePart_lookup_ne; [done|].
      intros Heq. apply Hfresh. rewrite Heq. by apply list_elem_of_fmap_2.
Qed.

Lemma inventory_guard pc rps :
  (if bool_decide (0 < length rps)%nat then useParts pc rps else pc)
  = useParts pc rps.
Proof. by destruct rps. Qed.

End Inventory.

(** C10. Completing an in-progress appointment is never refused for lack of
    stock. Afterwards no stock counter is negative (none was before); with
    non-negative quantities every part's [quantityInStock] is
    [max(0, previous - required quantity)], the required quantity summed
    over the lines that name the part, so it is 0 when more is required than
    was in stock; and when every part is named on one line only, each line's
    part ends with [max(0, previous - quantity)] of that line. *)
Theorem completion_clamps_stock_at_zero
    (id : nat) (b : Schedules.CompleteBody) (db : Schedules.Db) (a : Schedule.t) :
  Schedules.schedules db !! id = Some a →
  Schedule.status a = Schedule.in_progress →
  Schedules.validComplete b = true →
  map_Forall (λ _ stock, 0 ≤ quantityInStock stock) (Schedules.partsColl db) →
  ∃ (saved : Schedule.t) (db' : Schedules.Db),
    Schedules.complete_schedule id b db = (Ok saved, db')
    ∧ Schedule.status saved = Schedule.completed
    ∧ map_Forall (λ _ stock, 0 ≤ quantityInStock stock) (Schedules.partsColl db')
    ∧ (∀ p : nat, Schedules.partsColl db !! p = None →
         Schedules.partsColl db' !! p = None)
    ∧ (Forall (λ rp, 0 ≤ Schedule.quantity rp) (Schedule.requiredParts a) →
       ∀ (p : nat) (stock : Part),
         Schedules.partsColl db !! p = Some stock →
         Schedules.partsColl db' !! p
           = Some (mkPart (Z.max 0 (quantityInStock stock
                                    - Schedules.requiredQuantity p
                                        (Schedule.requiredParts a))))
         ∧ (quantityInStock stock
              < Schedules.requiredQuantity p (Schedule.requiredParts a) →
            Schedules.partsColl db' !! p = Some (mkPart 0)))
    ∧ (NoDup (Schedule.part <$> Schedule.requiredParts a) →
       ∀ (rp : Schedule.RequiredPart) (stock : Part),
         rp ∈ Schedule.requiredParts a →
         Schedules.partsColl db !! Schedule.part rp = Some stock →
         Schedules.partsColl db' !! Schedule.part rp
           = Some (mkPart (Z.max 0 (quantityInStock stock - Schedule.quantity rp)))).
Proof.
  intros Hfind Hst Hvalid Hstock. unfold Schedules.complete_schedule.
  rewrite Hvalid, Hfind. simpl.
  rewrite bool_decide_eq_false_2 by (by intros H; apply H).
  rewrite inventory_guard.
  eexists _, _. split; [reflexivity|]. simpl.
  split; [done|]. split; [by apply useParts_nonneg|].
  split; [intros p; apply useParts_lookup_None|]. split.
  - intros Hq p stock Hp.
    pose proof (Hstock p stock Hp) as Hn. simpl in Hn.
    rewrite (useParts_lookup _ _ _ _ Hq Hp Hn).
    split; [done|]. intros Hlt. do 2 f_equal. lia.
  - intros Hnd rp stock Hin Hp.
    apply useParts_lookup_line; try done. apply (Hstock _ _ Hp).
Qed.

Lemma completion_clamps_stock_at_zero_witness :
  ∃ (saved : Schedule.t) (db' : Schedules.Db),
    Schedules.complete_schedule 0 (Schedules.mkCompleteBody None)
      (Examples.diary Schedule.in_progress) = (Ok saved, db')
    ∧ Schedule.status saved = Schedule.completed
    ∧ Schedules.partsColl (Examples.diary Schedule.in_progress) !! 7%nat
        = Some (mkPart 3)
    ∧ Schedules.requiredQuantity 7
        (Schedule.requiredParts (Examples.appointment Schedule.in_progress)) = 5
    ∧ Schedules.partsColl db' !! 7%nat = Some (mkPart 0).
Proof.
  destruct (completion_clamps_stock_at_zero 0 (Schedules.mkCompleteBody None)
              (Examples.diary Schedule.in_progress)
              (Examples.appointment Schedule.in_progress))
    as (saved & db' & Hdone & Hstatus & _ & _ & Htotal & _).
  - reflexivity.
  - reflexivity.
  - reflexivity.
  - simpl. apply map_Forall_singleton. simpl. lia.
  - exists saved, db'. split; [exact Hdone|]. split; [exact Hstatus|].
    split; [reflexivity|]. split; [reflexivity|].
    apply (Htotal ltac:(repeat constructor; simpl; lia) 7%nat (mkPart 3) eq_refl).
    simpl. lia.
Defined.

(** ** The order views *)

Section OrderViews.

Ltac euclid := Z.to_euclidean_division_equations; lia.

(** X1. While time remains, [countdownStatus] reports the remaining time
    itself and splits it into whole hours and the whole minutes of the
    started hour: [0 <= minutes < 60] and
    [hours h + minutes m <= timeLeft < hours h + minutes (m + 1)]; the
    message prints these two numbers. Once the deadline is reached the
    reported [timeLeft] is 0, never negative, and hours and minutes are
    absent. *)
Theorem countdownStatus_breakdown (e now : Z) :
  (0 < e - now →
   ∃ h m : Z,
     Order.countdownStatus (Some e) now
       = Some (Order.mkCS (if bool_decide (h < 24) then "urgent" else "normal")
                 (e - now) (Some h) (Some m)
                 (pretty h +:+ "h " +:+ pretty m +:+ "m remaining"))
     ∧ 0 ≤ h
     ∧ 0 ≤ m < 60
     ∧ h * msPerHour + m * msPerMinute ≤ e - now
     ∧ e - now < h * msPerHour + (m + 1) * msPerMinute)
  ∧ (e - now ≤ 0 →
     Order.countdownStatus (Some e) now
       = Some (Order.mkCS "overdue" 0 None None "Package is overdue")).
Proof.
  split; intros Hleft; unfold Order.countdownStatus.
  - rewrite bool_decide_eq_false_2 by lia.
    eexists _, _. split; [reflexivity|].
    unfold floorDiv, jsRem, msPerHour, msPerMinute.
    repeat split; euclid.
  - by rewrite bool_decide_eq_true_2.
Qed.

Lemma countdownStatus_breakdown_witness :
  (∃ h m : Z,
     Order.countdownStatus (Some 9000000) 1000
       = Some (Order.mkCS (if bool_decide (h < 24) then "urgent" else "normal")
                 (9000000 - 1000) (Some h) (Some m)
                 (pretty h +:+ "h " +:+ pretty m +:+ "m remaining"))
     ∧ 0 ≤ h
     ∧ 0 ≤ m < 60
     ∧ h * msPerHour + m * msPerMinute ≤ 9000000 - 1000
     ∧ 9000000 - 1000 < h * msPerHour + (m + 1) * msPerMinute)
  ∧ Order.countdownStatus (Some 1000) 1000
    = Some (Order.mkCS "overdue" 0 None None "Package is overdue").
Proof.
  split.
  - apply (proj1 (countdownStatus_breakdown 9000000 1000)). lia.
  - apply (proj2 (countdownStatus_breakdown 1000 1000)). lia.
Defined.

(** X2. [daysUntilDelivery] is absent exactly when the order has no expected
    delivery date. Otherwise it is the number of started days left: the
    least [k] with [expected - now <= k days]. It is [<= 0] exactly when the
    expected date is reached or passed, and a delivery expected later within
    the next 24 hours counts as 1 day. *)
Theorem daysUntilDelivery_started_days (now : Z) :
  daysUntilDelivery None now = None
  ∧ ∀ d : Z,
      ∃ k : Z,
        daysUntilDelivery (Some d) now = Some k
        ∧ (k - 1) * (24 * msPerHour) < d - now ≤ k * (24 * msPerHour)
        ∧ (k ≤ 0 ↔ d ≤ now)
        ∧ (k = 1 ↔ 0 < d - now ≤ 24 * msPerHour).
Proof.
  split; [reflexivity|]. intros d. eexists. split; [reflexivity|].
  unfold ceilDiv, msPerHour.
  change (1000 * 60 * 60 * 24) with 86400000.
  change (24 * (60 * 60 * 1000)) with 86400000.
  split; [split; euclid|]. split; split; intros ?; try split; euclid.
Qed.

(** X3. The countdown widget of the client and the [countdownStatus] virtual
    of the server classify every deadline alike at the same clock: "No
    deadline" for an absent deadline, "Overdue" for "overdue", "Urgent" for
    "urgent" and "Normal" for "normal". *)
Theorem widget_agrees_with_server (cet : option Z) (now : Z) :
  CountdownTimer.shownStatus cet now
  = match classify cet now with
    | None => "No deadline"
    | Some status =>
        if bool_decide (status = "overdue") then "Overdue"
        else if bool_decide (status = "urgent") then "Urgent"
        else "Normal"
    end.
Proof.
  destruct cet as [e|]; [|reflexivity].
  unfold CountdownTimer.shownStatus, CountdownTimer.calculateTimeLeft,
    CountdownTimer.statusText.
  destruct (Z_le_gt_dec (e - now) 0) as [H0|H0].
  - rewrite (classify_overdue e now H0).
    by rewrite bool_decide_eq_false_2 by lia.
  - rewrite bool_decide_eq_true_2 by lia. simpl.
    destruct (Z_lt_le_dec (e - now) (24 * msPerHour)) as [H1|H1].
    + rewrite (classify_urgent e now) by lia.
      rewrite bool_decide_eq_true_2; [done|]. by apply hours_lt_24_iff.
    + rewrite (classify_normal e now H1).
      rewrite bool_decide_eq_false_2; [done|]. rewrite hours_lt_24_iff. lia.
Qed.

(** X4. For a non-negative duration the widget's [formatTime] splits the
    milliseconds into days, hours below 24, minutes below 60 and seconds
    below 60, losing less than a second. From one day on it prints days,
    hours and minutes (the seconds are dropped); from one hour on hours,
    minutes and seconds; from one minute on minutes and seconds; below that
    the seconds only. *)
Theorem formatTime_breakdown (ms : Z) :
  0 ≤ ms →
  let d := CountdownTimer.days ms in
  let h := CountdownTimer.hours ms in
  let m := CountdownTimer.minutes ms in
  let s := CountdownTimer.seconds ms in
  0 ≤ d ∧ 0 ≤ h < 24 ∧ 0 ≤ m < 60 ∧ 0 ≤ s < 60
  ∧ d * (24 * msPerHour) + h * msPerHour + m * msPerMinute + s * 1000 ≤ ms
  ∧ ms < d * (24 * msPerHour) + h * msPerHour + m * msPerMinute + (s + 1) * 1000
  ∧ (24 * msPerHour ≤ ms →
     CountdownTimer.formatTime ms
     = pretty d +:+ "d " +:+ pretty h +:+ "h " +:+ pretty m +:+ "m")
  ∧ (msPerHour ≤ ms < 24 * msPerHour →
     CountdownTimer.formatTime ms
     = pretty h +:+ "h " +:+ pretty m +:+ "m " +:+ pretty s +:+ "s")
  ∧ (msPerMinute ≤ ms < msPerHour →
     CountdownTimer.formatTime ms = pretty m +:+ "m " +:+ pretty s +:+ "s")
  ∧ (ms < msPerMinute → CountdownTimer.formatTime ms = pretty s +:+ "s").
Proof.
  intros Hms d h m s.
  assert (Hd : 0 ≤ d) by (subst d; unfold CountdownTimer.days, floorDiv; euclid).
  assert (Hh : 0 ≤ h < 24)
    by (subst h; unfold CountdownTimer.hours, floorDiv, jsRem; euclid).
  assert (Hm : 0 ≤ m < 60)
    by (subst m; unfold CountdownTimer.minutes, floorDiv, jsRem; euclid).
  assert (Hs : 0 ≤ s < 60)
    by (subst s; unfold CountdownTimer.seconds, floorDiv, jsRem; euclid).
  assert (Hsum :
    d * (24 * msPerHour) + h * msPerHour + m * msPerMinute + s * 1000 ≤ ms
    ∧ ms < d * (24 * msPerHour) + h * msPerHour + m * msPerMinute + (s + 1) * 1000).
  { subst d h m s.
    unfold CountdownTimer.days, CountdownTimer.hours, CountdownTimer.minutes,
      CountdownTimer.seconds, floorDiv, jsRem, msPerHour, msPerMinute.
    split; euclid. }
  assert (Hdpos : 0 < d ↔ 24 * msPerHour ≤ ms).
  { subst d. unfold CountdownTimer.days, floorDiv, msPerHour. split; intros ?; euclid. }
  assert (Hhpos : ms < 24 * msPerHour → (0 < h ↔ msPerHour ≤ ms)).
  { subst h. unfold CountdownTimer.hours, floorDiv, jsRem, msPerHour.
    intros ?. split; intros ?; euclid. }
  assert (Hmpos : ms < msPerHour → (0 < m ↔ msPerMinute ≤ ms)).
  { subst m. unfold CountdownTimer.minutes, floorDiv, jsRem, msPerHour, msPerMinute.
    intros ?. split; intros ?; euclid. }
  split; [done|]. split; [done|]. split; [done|]. split; [done|].
  split; [apply Hsum|]. split; [apply Hsum|].
  unfold CountdownTimer.formatTime. fold d h m s.
  split; [|split; [|split]].
  - intros H. rewrite bool_decide_eq_true_2; [done|]. apply Z.lt_gt, Hdpos, H.
  - intros [H1 H2].
    rewrite bool_decide_eq_false_2 by (intros ?%Z.gt_lt%Hdpos; lia).
    rewrite bool_decide_eq_true_2; [done|]. by apply Z.lt_gt, Hhpos.
  - intros [H1 H2]. assert (ms < 24 * msPerHour) by (unfold msPerHour in *; lia).
    rewrite bool_decide_eq_false_2 by (intros ?%Z.gt_lt%Hdpos; lia).
    rewrite bool_decide_eq_false_2 by (intros ?%Z.gt_lt%Hhpos; lia).
    rewrite bool_decide_eq_true_2; [done|]. by apply Z.lt_gt, Hmpos.
  - intros H. assert (ms < msPerHour) by (unfold msPerHour, msPerMinute in *; lia).
    assert (ms < 24 * msPerHour) by (unfold msPerHour in *; lia).
    rewrite bool_decide_eq_false_2 by (intros ?%Z.gt_lt%Hdpos; lia).
    rewrite bool_decide_eq_false_2 by (intros ?%Z.gt_lt%Hhpos; lia).
    rewrite bool_decide_eq_false_2 by (intros ?%Z.gt_lt%Hmpos; lia).
    done.
Qed.

Lemma formatTime_breakdown_witness :
  CountdownTimer.formatTime 90061000 = "1d 1h 1m"
  ∧ CountdownTimer.formatTime 3661000 = "1h 1m 1s"
  ∧ CountdownTimer.formatTime 61000 = "1m 1s"
  ∧ CountdownTimer.formatTime 999 = "0s".
Proof.
  split; [|split; [|split]].
  - destruct (formatTime_breakdown 90061000 ltac:(lia))
      as (_ & _ & _ & _ & _ & _ & Hdays & _).
    rewrite Hdays; [reflexivity|unfold msPerHour; lia].
  - destruct (formatTime_breakdown 3661000 ltac:(lia))
      as (_ & _ & _ & _ & _ & _ & _ & Hhours & _).
    rewrite Hhours; [reflexivity|unfold msPerHour; lia].
  - destruct (formatTime_breakdown 61000 ltac:(lia))
      as (_ & _ & _ & _ & _ & _ & _ & _ & Hminutes & _).
    rewrite Hminutes; [reflexivity|unfold msPerHour, msPerMinute; lia].
  - destruct (formatTime_breakdown 999 ltac:(lia))
      as (_ & _ & _ & _ & _ & _ & _ & _ & _ & Hseconds).
    rewrite Hseconds; [reflexivity|unfold msPerMinute; lia].
Defined.

End OrderViews.

(** ** Cancelling and receiving orders *)

Section OrderLifecycle.
Import Orders OrdersRest.

Lemma not_listed_unless_in_transit now db i o :
  Order.status o ≠ Order.confirmed →
  Order.status o ≠ Order.shipped →
  ((i, o) ∉ get_urgent now db) ∧ ((i, o) ∉ get_overdue now db).
Proof.
  intros Hc Hs. split; intros Hin.
  - unfold get_urgent in Hin.
    rewrite sorted_spec, find_spec, urgentFilter_spec in Hin. tauto.
  - apply get_overdue_spec in Hin. tauto.
Qed.

Lemma listed_is_stored now db i o :
  (i, o) ∈ get_urgent now db ∨ (i, o) ∈ get_overdue now db →
  orders db !! i = Some o.
Proof.
  intros [Hin|Hin].
  - unfold get_urgent in Hin. rewrite sorted_spec, find_spec in Hin. tauto.
  - apply get_overdue_spec in Hin. tauto.
Qed.

Lemma orderedQuantity_cons p l lines :
  orderedQuantity p (l :: lines)
  = (if bool_decide (l.1.1.1 = p) then l.1.1.2 else 0) + orderedQuantity p lines.
Proof. reflexivity. Qed.

(** The loop of the receive route, when every line's part exists. *)
Lemma receiveLines_found lines : ∀ pc,
  Forall (λ l, is_Some (pc !! l.1.1.1)) lines →
  ∃ pc',
    receiveLines pc lines = inr pc'
    ∧ (∀ p stock, pc !! p = Some stock →
         pc' !! p = Some (mkPart (quantityInStock stock + orderedQuantity p lines)))
    ∧ (∀ p, pc !! p = None → pc' !! p = None).
Proof.
  induction lines as [|[[[partId quantity] unitPrice] totalPrice] lines IH];
    intros pc Hall.
  - exists pc. split; [done|]. split; [|done].
    intros p [n] Hp. rewrite Hp. simpl. do 2 f_equal. lia.
  - apply Forall_cons in Hall as [[p0 Hp0] Hall]. simpl in Hp0.
    cbn [receiveLines]. rewrite Hp0.
    destruct (IH (<[partId := mkPart (quantityInStock p0 + quantity)]> pc))
      as (pc' & Hrun & Hsome & Hnone).
    { eapply Forall_impl; [exact Hall|]. intros l [x Hx]. simpl in *.
      destruct (decide (partId = l.1.1.1)) as [->|Hne].
      - rewrite lookup_insert_eq. by eexists.
      - rewrite lookup_insert_ne by done. by eexists. }
    exists pc'. split; [done|]. split.
    + intros p stock Hp. rewrite orderedQuantity_cons. simpl.
      case_bool_decide as Hpart.
      * subst p. rewrite Hp in Hp0. injection Hp0 as <-.
        rewrite (Hsome partId _ (lookup_insert_eq _ _ _)). simpl.
        do 2 f_equal. lia.
      * rewrite (Hsome p stock) by (by rewrite lookup_insert_ne).
        do 2 f_equal.
    + intros p Hp. apply Hnone.
      rewrite lookup_insert_ne; [done|]. intros ->. by rewrite Hp in Hp0.
Qed.

End OrderLifecycle.

(** X5. Cancelling an order: a delivered order cannot be cancelled (the
    answer is an error and nothing changes); any other stored order is saved
    with status cancelled and its deadline is kept, not cleared. From then on
    the order is on neither the urgent nor the overdue list, whatever the
    clock. *)
Theorem cancel_order_takes_it_off_the_lists
    (id : nat) (db : Orders.Db) (order : Order.t) :
  Orders.orders db !! id = Some order →
  (Order.status order = Order.delivered →
   OrdersRest.delete_order id db = (BadRequest "Cannot cancel delivered order", db))
  ∧ (Order.status order ≠ Order.delivered →
     ∃ db' : Orders.Db,
       OrdersRest.delete_order id db = (Ok "Order cancelled successfully", db')
       ∧ Orders.orders db'
         = <[id := Order.set_status Order.cancelled order]> (Orders.orders db)
       ∧ Order.countdownEndTime (Order.set_status Order.cancelled order)
         = Order.countdownEndTime order
       ∧ ∀ (now : Z) (o : Order.t),
           ((id, o) ∉ Orders.get_urgent now db')
           ∧ ((id, o) ∉ Orders.get_overdue now db')).
Proof.
  intros Hfind. unfold OrdersRest.delete_order. rewrite Hfind. split.
  - intros Hst. by rewrite bool_decide_eq_true_2.
  - intros Hst. rewrite bool_decide_eq_false_2 by done.
    eexists. split; [reflexivity|]. split; [reflexivity|]. split; [reflexivity|].
    intros now o.
    assert (Hstored : ∀ o',
      Orders.orders
        (Orders.set_orders
           (<[id := Order.set_status Order.cancelled order]> (Orders.orders db)) db)
        !! id = Some o' → o' = Order.set_status Order.cancelled order).
    { intros o'. simpl. rewrite lookup_insert_eq. congruence. }
    split; intros Hin.
    + pose proof (listed_is_stored now _ id o (or_introl Hin)) as Ho.
      apply Hstored in Ho. subst o.
      by apply (not_listed_unless_in_transit now _ id _) in Hin.
    + pose proof (listed_is_stored now _ id o (or_intror Hin)) as Ho.
      apply Hstored in Ho. subst o.
      by apply (not_listed_unless_in_transit now _ id _) in Hin.
Qed.

Lemma cancel_order_takes_it_off_the_lists_witness :
  OrdersRest.delete_order 0 Examples.shopWithDelivered
    = (BadRequest "Cannot cancel delivered order", Examples.shopWithDelivered)
  ∧ ∃ db' : Orders.Db,
      OrdersRest.delete_order 0 Examples.shopWithOrder
        = (Ok "Order cancelled successfully", db')
      ∧ Orders.orders db'
        = <[0%nat := Order.set_status Order.cancelled Examples.confirmedOrder]>
            (Orders.orders Examples.shopWithOrder)
      ∧ Order.countdownEndTime
          (Order.set_status Order.cancelled Examples.confirmedOrder)
        = Order.countdownEndTime Examples.confirmedOrder
      ∧ ∀ (now : Z) (o : Order.t),
          ((0%nat, o) ∉ Orders.get_urgent now db')
          ∧ ((0%nat, o) ∉ Orders.get_overdue now db').
Proof.
  split.
  - apply (cancel_order_takes_it_off_the_lists 0 Examples.shopWithDelivered
             Examples.deliveredOrder); reflexivity.
  - apply (cancel_order_takes_it_off_the_lists 0 Examples.shopWithOrder
             Examples.confirmedOrder); [reflexivity|].
    simpl. intros [=].
Defined.

(** X6. Receiving a stored order that is not yet delivered (pending,
    confirmed, shipped or even cancelled) and whose parts all exist: every
    part's stock grows by the quantity the order has of it, summed over its
    lines, parts the order does not name keep their stock, and the order is
    saved as delivered. Receiving it again is answered with an error and
    changes nothing, so a delivery is never counted twice. *)
Theorem receive_order_restocks_once
    (id : nat) (db : Orders.Db) (order : Order.t) :
  Orders.orders db !! id = Some order →
  Order.status order ≠ Order.delivered →
  Forall (λ l, is_Some (Orders.partsColl db !! l.1.1.1)) (Order.parts order) →
  ∃ db' : Orders.Db,
    OrdersRest.receive_order id db
      = (OrdersRest.Answered (Ok (Order.set_status Order.delivered order)), db')
    ∧ Orders.orders db'
      = <[id := Order.set_status Order.delivered order]> (Orders.orders db)
    ∧ (∀ (p : nat) (stock : Part),
         Orders.partsColl db !! p = Some stock →
         Orders.partsColl db' !! p
           = Some (mkPart (quantityInStock stock
                           + OrdersRest.orderedQuantity p (Order.parts order))))
    ∧ (∀ p : nat, Orders.partsColl db !! p = None → Orders.partsColl db' !! p = None)
    ∧ OrdersRest.receive_order id db'
      = (OrdersRest.Answered (BadRequest "Order already marked as delivered"), db').
Proof.
  intros Hfind Hst Hparts. unfold OrdersRest.receive_order at 1.
  rewrite Hfind, bool_decide_eq_false_2 by done.
  destruct (receiveLines_found _ _ Hparts) as (pc' & -> & Hsome & Hnone).
  eexists. split; [reflexivity|]. simpl.
  split; [done|]. split; [done|]. split; [done|].
  unfold OrdersRest.receive_order. simpl. by rewrite lookup_insert_eq.
Qed.

Lemma receive_order_restocks_once_witness :
  ∃ db' : Orders.Db,
    OrdersRest.receive_order 0 Examples.shopWithOrder
      = (OrdersRest.Answered (Ok Examples.deliveredOrder), db')
    ∧ Orders.partsColl db' !! 7%nat = Some (mkPart 5)
    ∧ OrdersRest.receive_order 0 db'
      = (OrdersRest.Answered (BadRequest "Order already marked as delivered"), db').
Proof.
  destruct (receive_order_restocks_once 0 Examples.shopWithOrder
              Examples.confirmedOrder)
    as (db' & Hreceive & _ & Hstock & _ & Hagain).
  - reflexivity.
  - simpl. intros [=].
  - repeat constructor. simpl. eexists. reflexivity.
  - exists db'. split; [exact Hreceive|]. split; [|exact Hagain].
    apply (Hstock 7%nat (mkPart 3)). reflexivity.
Defined.

Section OrderUpdates.
Import Orders.

Lemma assign_status b o :
  Order.status (assign b o) = default (Order.status o) (u_status b).
Proof.
  unfold assign, assignField.
  by destruct (u_orderDate b), (u_countdownEndTime b),
    (u_customTimeLimit b), (u_status b).
Qed.

Lemma set_orders_insert_id db id o :
  orders db !! id = Some o → set_orders (<[id := o]> (orders db)) db = db.
Proof. intros H. destruct db. unfold set_orders. simpl in *. by rewrite insert_id. Qed.

End OrderUpdates.

(** X8. An update of a stored order that sends no [countdownEndTime] is
    answered with the saved order, which replaces the stored one; parts and
    suppliers are untouched. With no [customTimeLimit] in the request, or
    with the limit the order already has sent as a number, the countdown is
    not restarted: the stored deadline and limit stay, whatever the clock
    and whatever status the request sets. A limit that differs, or any
    limit sent as a string (also the one the order has), restarts the
    countdown from the clock of the update. An update that sends nothing at
    all leaves the database as it was. *)
Theorem update_without_new_limit_keeps_deadline
    (now : Z) (id : nat) (b : Orders.UpdateBody) (db : Orders.Db) (order : Order.t) :
  Orders.orders db !! id = Some order →
  Orders.validUpdate b = true →
  Orders.u_countdownEndTime b = None →
  ∃ (saved : Order.t) (db' : Orders.Db),
    Orders.put_order now id b db = (Ok saved, db')
    ∧ Orders.orders db' = <[id := saved]> (Orders.orders db)
    ∧ Orders.orders db' !! id = Some saved
    ∧ Orders.partsColl db' = Orders.partsColl db
    ∧ Orders.contacts db' = Orders.contacts db
    ∧ Order.status saved = default (Order.status order) (Orders.u_status b)
    ∧ Order.customTimeLimit saved
      = default (Order.customTimeLimit order) (Orders.u_customTimeLimit b)
    ∧ (Orders.u_customTimeLimit b = None
       ∨ (Orders.u_customTimeLimit b = Some (Order.customTimeLimit order)
          ∧ Orders.u_customTimeLimitAsString b = false) →
       Order.countdownEndTime saved = Order.countdownEndTime order)
    ∧ (∀ l : Z,
         Orders.u_customTimeLimit b = Some l →
         l ≠ Order.customTimeLimit order
         ∨ Orders.u_customTimeLimitAsString b = true →
         Order.countdownEndTime saved = Some (now + l * msPerHour))
    ∧ (Orders.u_status b = None → Orders.u_customTimeLimit b = None →
       Orders.u_orderDate b = None →
       saved = order ∧ db' = db).
Proof.
  intros Hfind Hvalid Hcet. unfold Orders.put_order.
  rewrite Hvalid, Hfind. simpl.
  eexists _, _. split; [reflexivity|]. simpl.
  split; [reflexivity|]. split; [by rewrite lookup_insert_eq|].
  split; [reflexivity|]. split; [reflexivity|].
  rewrite assign_countdownEndTime, assign_customTimeLimit, assign_status, Hcet.
  split; [|split; [|split; [|split]]].
  - f_equal. unfold Orders.recomputeCountdown.
    destruct (Orders.u_customTimeLimit b); [|done]. by destruct (_ && _).
  - unfold Orders.recomputeCountdown.
    destruct (Orders.u_customTimeLimit b) as [l|]; [|done].
    by destruct (_ && _).
  - intros [Hnone|[Hsome Hnum]].
    + unfold Orders.recomputeCountdown. by rewrite Hnone.
    + by rewrite recomputeCountdown_unchanged.
  - intros l Hl [Hne|Hstr].
    + rewrite (recomputeCountdown_changed now b order l); [done|done| |done].
      unfold Orders.validUpdate in Hvalid. rewrite Hl in Hvalid. simpl in Hvalid.
      by apply bool_decide_eq_true in Hvalid.
    + by rewrite (recomputeCountdown_string now b order l).
  - intros Hs Hl Hd.
    assert (Hsame : Orders.assign b (Orders.recomputeCountdown now b order) = order).
    { unfold Orders.recomputeCountdown, Orders.assign. by rewrite Hs, Hl, Hd, Hcet. }
    rewrite Hsame. split; [done|]. by apply set_orders_insert_id.
Qed.

Lemma update_without_new_limit_keeps_deadline_witness :
  (∃ (saved : Order.t) (db' : Orders.Db),
     Orders.put_order 999999999 0 Examples.sameLimitAsString Examples.shopWithOrder
       = (Ok saved, db')
     ∧ Orders.orders db' !! 0%nat = Some saved
     ∧ Order.customTimeLimit saved = 72
     ∧ Order.countdownEndTime Examples.confirmedOrder = Some 259200000
     ∧ Order.countdownEndTime saved = Some (999999999 + 72 * msPerHour))
  ∧ (∃ (saved : Order.t) (db' : Orders.Db),
       Orders.put_order 999999999 0 Examples.sameLimit Examples.shopWithOrder
         = (Ok saved, db')
       ∧ Orders.orders db' !! 0%nat = Some saved
       ∧ Order.countdownEndTime saved = Some 259200000)
  ∧ (∃ (saved : Order.t) (db' : Orders.Db),
       Orders.put_order 3600000 0 Examples.editLimit Examples.shopWithOrder
         = (Ok saved, db')
       ∧ Orders.orders db' !! 0%nat = Some saved
       ∧ Order.customTimeLimit saved = 48
       ∧ Order.countdownEndTime saved = Some (3600000 + 48 * msPerHour))
  ∧ (∃ (saved : Order.t) (db' : Orders.Db),
       Orders.put_order 999999999 0 Examples.emptyUpdate Examples.shopWithOrder
         = (Ok saved, db')
       ∧ saved = Examples.confirmedOrder
       ∧ db' = Examples.shopWithOrder).
Proof.
  split; [|split; [|split]].
  - destruct (update_without_new_limit_keeps_deadline 999999999 0
                Examples.sameLimitAsString Examples.shopWithOrder
                Examples.confirmedOrder)
      as (saved & db' & Hput & _ & Hstored & _ & _ & _ & Hlimit & _ & Hrestart & _);
      [reflexivity|reflexivity|reflexivity|].
    exists saved, db'. split; [exact Hput|]. split; [exact Hstored|].
    split; [exact Hlimit|]. split; [reflexivity|].
    apply Hrestart; [reflexivity|right; reflexivity].
  - destruct (update_without_new_limit_keeps_deadline 999999999 0
                Examples.sameLimit Examples.shopWithOrder Examples.confirmedOrder)
      as (saved & db' & Hput & _ & Hstored & _ & _ & _ & _ & Hkeep & _);
      [reflexivity|reflexivity|reflexivity|].
    exists saved, db'. split; [exact Hput|]. split; [exact Hstored|].
    rewrite Hkeep; [reflexivity|]. right. split; reflexivity.
  - destruct (update_without_new_limit_keeps_deadline 3600000 0
                Examples.editLimit Examples.shopWithOrder Examples.confirmedOrder)
      as (saved & db' & Hput & _ & Hstored & _ & _ & _ & Hlimit & _ & Hrestart & _);
      [reflexivity|reflexivity|reflexivity|].
    exists saved, db'. split; [exact Hput|]. split; [exact Hstored|].
    split; [exact Hlimit|].
    apply Hrestart; [reflexivity|]. left. simpl. lia.
  - destruct (update_without_new_limit_keeps_deadline 999999999 0
                Examples.emptyUpdate Examples.shopWithOrder Examples.confirmedOrder)
      as (saved & db' & Hput & _ & _ & _ & _ & _ & _ & _ & _ & Hsame);
      [reflexivity|reflexivity|reflexivity|].
    exists saved, db'. split; [exact Hput|]. by apply Hsame.
Defined.

(** X9. A stored order that is pending is on neither the urgent nor the
    overdue list at any time, whatever its deadline. An update that sets
    its status to confirmed and sends nothing else stores the order
    confirmed, with the deadline it had, whenever the confirmation happens;
    from then on the order is listed by that deadline: urgent exactly while
    the deadline is ahead by less than 24 hours, overdue exactly once it is
    strictly past. *)
Theorem pending_order_listed_once_confirmed
    (id : nat) (o : Order.t) (db : Orders.Db) (deadline : Z) :
  Orders.orders db !! id = Some o →
  Order.status o = Order.pending →
  Order.countdownEndTime o = Some deadline →
  (∀ now : Z,
     ((id, o) ∉ Orders.get_urgent now db)
     ∧ ((id, o) ∉ Orders.get_overdue now db))
  ∧ ∀ tEdit now : Z,
      ∃ (saved : Order.t) (db' : Orders.Db),
        Orders.put_order tEdit id
          (Orders.mkUpdateBody (Some Order.confirmed) None false None None) db
          = (Ok saved, db')
        ∧ saved = Order.set_status Order.confirmed o
        ∧ Orders.orders db' = <[id := saved]> (Orders.orders db)
        ∧ Orders.orders db' !! id = Some saved
        ∧ Order.countdownEndTime saved = Some deadline
        ∧ ((id, saved) ∈ Orders.get_urgent now db'
           ↔ now < deadline < now + 24 * msPerHour)
        ∧ ((id, saved) ∈ Orders.get_overdue now db' ↔ deadline < now).
Proof.
  intros Hfind Hpending Hcet. split.
  - intros now. apply not_listed_unless_in_transit; rewrite Hpending; done.
  - intros tEdit now. unfold Orders.put_order. simpl. rewrite Hfind. simpl.
    eexists _, _. split; [reflexivity|]. split; [reflexivity|].
    simpl. split; [reflexivity|].
    assert (Hstored : (<[id := Order.set_status Order.confirmed o]> (Orders.orders db))
                        !! id = Some (Order.set_status Order.confirmed o))
      by (by rewrite lookup_insert_eq).
    split; [exact Hstored|]. split; [exact Hcet|].
    split.
    + unfold Orders.get_urgent.
      rewrite sorted_spec, find_spec, urgentFilter_spec. simpl. split.
      * intros (_ & _ & e & He & Hrange).
        change (Order.countdownEndTime o = Some e) in He.
        rewrite Hcet in He. injection He as <-. lia.
      * intros Hrange. split; [exact Hstored|]. split; [by left|].
        exists deadline. split; [exact Hcet|lia].
    + split.
      * intros Hin. apply get_overdue_spec in Hin as (_ & _ & e & He & Hlt).
        change (Order.countdownEndTime o = Some e) in He.
        rewrite Hcet in He. by injection He as <-.
      * intros Hlt. apply get_overdue_spec.
        split; [exact Hstored|]. split; [by left|]. by exists deadline.
Qed.

Lemma pending_order_listed_once_confirmed_witness :
  (∀ now : Z,
     ((0%nat, Examples.pendingOrder) ∉ Orders.get_urgent now Examples.shopWithPending)
     ∧ ((0%nat, Examples.pendingOrder) ∉ Orders.get_overdue now Examples.shopWithPending))
  ∧ ∀ tEdit now : Z,
      ∃ (saved : Order.t) (db' : Orders.Db),
        Orders.put_order tEdit 0
          (Orders.mkUpdateBody (Some Order.confirmed) None false None None)
          Examples.shopWithPending
          = (Ok saved, db')
        ∧ saved = Order.set_status Order.confirmed Examples.pendingOrder
        ∧ Orders.orders db'
          = <[0%nat := saved]> (Orders.orders Examples.shopWithPending)
        ∧ Orders.orders db' !! 0%nat = Some saved
        ∧ Order.countdownEndTime saved = Some 259200000
        ∧ ((0%nat, saved) ∈ Orders.get_urgent now db'
           ↔ now < 259200000 < now + 24 * msPerHour)
        ∧ ((0%nat, saved) ∈ Orders.get_overdue now db' ↔ 259200000 < now).
Proof.
  apply (pending_order_listed_once_confirmed 0 Examples.pendingOrder
           Examples.shopWithPending 259200000); reflexivity.
Defined.

(** ** Paging through the orders *)

Section Paging.
Import Orders OrdersRest.

Lemma concat_pages {A} (limit : nat) : ∀ (n : nat) (l : list A),
  (0 < limit)%nat →
  (length l ≤ n * limit)%nat →
  concat ((λ k : nat, take limit (drop (k * limit) l)) <$> seq 0 n) = l.
Proof.
  induction n as [|n IH]; intros l Hlimit Hlen.
  - destruct l; [done|]. simpl in Hlen. lia.
  - simpl. rewrite <- seq_shift. rewrite <- list_fmap_compose.
    rewrite <- (take_drop limit l) at 2. f_equal.
    rewrite <- (IH (drop limit l) Hlimit) by (rewrite length_drop; lia).
    f_equal. apply list_fmap_ext. intros _ k _. simpl.
    by rewrite drop_drop.
Qed.

Lemma StronglySorted_sublist {A} (R : relation A) (l1 l2 : list A) :
  l1 `sublist_of` l2 → StronglySorted R l2 → StronglySorted R l1.
Proof.
  induction 1 as [|x l1 l2 Hsub IH|x l1 l2 Hsub IH]; intros Hs.
  - constructor.
  - apply StronglySorted_inv in Hs as [Hs Hall]. constructor; [by apply IH|].
    rewrite Forall_forall in Hall |- *. intros y Hy.
    apply Hall. by apply (elem_of_sublist l1 l2).
  - apply StronglySorted_inv in Hs as [Hs _]. by apply IH.
Qed.

Lemma page_sublist {A} (n m : nat) (l : list A) : take n (drop m l) `sublist_of` l.
Proof. etrans; [apply sublist_take|apply sublist_drop]. Qed.

Lemma enumerates_length createdAt q db found :
  enumerates createdAt q db found →
  length found = length (find (listFilter q) (orders db)).
Proof. intros [Hperm _]. by rewrite Hperm. Qed.

Lemma enumerates_withPage createdAt q page db found :
  enumerates createdAt (withPage q page) db found ↔ enumerates createdAt q db found.
Proof. reflexivity. Qed.

Lemma enumerates_NoDup createdAt q db found :
  enumerates createdAt q db found → NoDup found.
Proof. intros [Hperm _]. rewrite Hperm. apply find_NoDup. Qed.

Lemma orDefault_positive v d :
  from_option (λ x, bool_decide (1 ≤ x)) true v = true →
  1 ≤ d → orDefault v d = default d v ∧ 1 ≤ orDefault v d.
Proof.
  destruct v as [x|]; simpl; [|done].
  rewrite bool_decide_eq_true. intros Hx _.
  by rewrite bool_decide_eq_true_2 by lia.
Qed.

Lemma validList_limit q :
  validList q = true →
  orDefault (q_limit q) 20 = default 20 (q_limit q)
  ∧ 1 ≤ orDefault (q_limit q) 20 ≤ 100.
Proof.
  unfold validList. rewrite andb_true_iff. intros [_ Hl].
  destruct (q_limit q) as [x|]; simpl in *; [|lia].
  apply bool_decide_eq_true in Hl.
  by rewrite bool_decide_eq_true_2 by lia.
Qed.

Lemma validList_page q :
  validList q = true → 1 ≤ orDefault (q_page q) 1.
Proof.
  unfold validList. rewrite andb_true_iff. intros [Hp _].
  by apply orDefault_positive.
Qed.

Lemma listFilter_spec q o :
  listFilter q o = true ↔
  (∀ status, q_status q = Some status → Order.status o = status)
  ∧ (∀ supplier, q_supplier q = Some supplier → Order.supplier o = supplier).
Proof.
  unfold listFilter. rewrite andb_true_iff.
  destruct (q_status q) as [st|], (q_supplier q) as [su|]; simpl;
    rewrite ?bool_decide_eq_true; split;
    try (intros [H1 H2]; split; intros ? [=]; subst; done);
    intros [H1 H2]; split; try done; (by apply H1) || (by apply H2).
Qed.

Lemma enumerates_spec createdAt q db found i o :
  enumerates createdAt q db found →
  (i, o) ∈ found ↔
  orders db !! i = Some o
  ∧ (∀ status, q_status q = Some status → Order.status o = status)
  ∧ (∀ supplier, q_supplier q = Some supplier → Order.supplier o = supplier).
Proof.
  intros [Hperm _]. by rewrite Hperm, find_spec, listFilter_spec.
Qed.

(** With distinct time stamps there is one enumeration only. *)
Lemma enumerates_unique createdAt q db found found' :
  enumerates createdAt q db found →
  enumerates createdAt q db found' →
  (∀ i j o o', (i, o) ∈ found → (j, o') ∈ found →
     createdAt i = createdAt j → i = j) →
  found' = found.
Proof.
  intros Hfound Hfound' Hdistinct.
  apply (StronglySorted_unique_strong (newestFirst createdAt));
    [|apply Hfound'|apply Hfound|by rewrite (proj1 Hfound), (proj1 Hfound')].
  intros [i o] [j o'] Hi Hj Hij Hji. unfold newestFirst in Hij, Hji. simpl in *.
  assert (Hi' : (i, o) ∈ found) by (by rewrite (proj1 Hfound), <- (proj1 Hfound')).
  assert (i = j) as -> by (apply (Hdistinct i j o o' Hi' Hj); lia).
  apply (enumerates_spec _ _ _ _ _ _ Hfound) in Hi' as [Ho _], Hj as [Ho' _].
  congruence.
Qed.

#[local] Instance newestFirst_total createdAt : Total (newestFirst createdAt).
Proof. intros a b. unfold newestFirst. lia. Qed.

#[local] Instance newestFirst_trans createdAt : Transitive (newestFirst createdAt).
Proof. intros a b c. unfold newestFirst. lia. Qed.

Lemma matching_enumerates createdAt q db :
  enumerates createdAt q db (matching createdAt q db).
Proof.
  split; [apply merge_sort_Permutation|].
  apply (StronglySorted_merge_sort (newestFirst createdAt)).
Qed.

Lemma ceilDiv_bounds total limit :
  0 < limit →
  (ceilDiv total limit - 1) * limit < total ≤ ceilDiv total limit * limit.
Proof.
  intros Hlimit. unfold ceilDiv.
  pose proof (Z.div_mod (- total) limit ltac:(lia)) as Hdm.
  pose proof (Z.mod_pos_bound (- total) limit Hlimit) as Hmod.
  nia.
Qed.

End Paging.

(** X7. The list route pages through the matching orders, newest first.
    Whatever order the database gives to orders of one time stamp, a valid
    query is answered with at most [limit] documents (20 unless the query
    says otherwise): exactly as many as remain from position
    [(page - 1) * limit] on, each a stored order that matches the filter,
    none twice, newest first. [total] counts the stored orders that match,
    [pages] is the least number of pages that hold [total] documents,
    [hasNext] holds exactly when documents remain after this page,
    [hasPrev] exactly from page 2 on, and a page after the last is empty.
    When no two matching orders have the same time stamp, the pages 1 to
    [pages], each asked for by a request of its own, are one after the
    other the matching orders, each once. *)
Theorem order_pages_partition
    (createdAt : nat → Z) (q : OrdersRest.ListQuery) (db : Orders.Db)
    (found : list (nat * Order.t)) :
  OrdersRest.validList q = true →
  OrdersRest.enumerates createdAt q db found →
  let limit := Orders.orDefault (OrdersRest.q_limit q) 20 in
  let page := Orders.orDefault (OrdersRest.q_page q) 1 in
  let matches := λ (i : nat) (o : Order.t),
    Orders.orders db !! i = Some o
    ∧ (∀ status, OrdersRest.q_status q = Some status → Order.status o = status)
    ∧ (∀ supplier, OrdersRest.q_supplier q = Some supplier →
         Order.supplier o = supplier) in
  ∃ (docs : list (nat * Order.t)) (pg : OrdersRest.Pagination),
    OrdersRest.get_orders found q db = Ok (docs, pg)
    ∧ 1 ≤ limit ≤ 100
    ∧ 1 ≤ page
    ∧ OrdersRest.current pg = page
    ∧ OrdersRest.total pg = Z.of_nat (length found)
    ∧ (OrdersRest.pages pg - 1) * limit < OrdersRest.total pg
    ∧ OrdersRest.total pg ≤ OrdersRest.pages pg * limit
    ∧ Z.of_nat (length docs)
      = Z.max 0 (Z.min limit (OrdersRest.total pg - (page - 1) * limit))
    ∧ (OrdersRest.hasNext pg = true ↔ page * limit < OrdersRest.total pg)
    ∧ (OrdersRest.hasPrev pg = true ↔ 1 < page)
    ∧ (OrdersRest.pages pg < page → docs = [])
    ∧ docs = take (Z.to_nat limit) (drop (Z.to_nat ((page - 1) * limit)) found)
    ∧ NoDup docs
    ∧ StronglySorted (OrdersRest.newestFirst createdAt) docs
    ∧ (∀ (i : nat) (o : Order.t), (i, o) ∈ docs → matches i o)
    ∧ NoDup found
    ∧ (∀ (i : nat) (o : Order.t), (i, o) ∈ found ↔ matches i o)
    ∧ ((∀ (i j : nat) (o o' : Order.t),
          (i, o) ∈ found → (j, o') ∈ found → createdAt i = createdAt j → i = j) →
       ∀ enum : nat → list (nat * Order.t),
         (∀ k : nat, OrdersRest.enumerates createdAt q db (enum k)) →
         concat
           ((λ k : nat,
               OrdersRest.answerOrders
                 (OrdersRest.get_orders (enum k)
                    (OrdersRest.withPage q (Z.of_nat k + 1)) db))
              <$> seq 0 (Z.to_nat (OrdersRest.pages pg)))
         = found).
Proof.
  intros Hvalid Hfound limit page matches.
  destruct (validList_limit q Hvalid) as [Hlimit_eq Hlimit].
  pose proof (validList_page q Hvalid) as Hpage.
  fold limit in Hlimit. fold page in Hpage.
  pose proof (enumerates_length createdAt q db found Hfound) as Hlen.
  pose proof (ceilDiv_bounds (Z.of_nat (length found)) limit ltac:(lia)) as Hceil.
  pose proof (enumerates_NoDup createdAt q db found Hfound) as Hnodup.
  unfold OrdersRest.get_orders. rewrite Hvalid. simpl.
  fold limit page. rewrite <- Hlen.
  set (pages := ceilDiv (Z.of_nat (length found)) limit) in *.
  eexists _, _. split; [reflexivity|]. simpl.
  split; [done|]. split; [done|]. split; [done|]. split; [done|].
  split; [lia|]. split; [lia|]. split.
  { rewrite length_take, length_drop. nia. }
  split.
  { rewrite bool_decide_eq_true. split; intros ?; nia. }
  split.
  { rewrite bool_decide_eq_true. lia. }
  split.
  { intros Hlast. apply nil_length_inv.
    rewrite length_take, length_drop. nia. }
  split; [done|].
  split; [exact (sublist_NoDup _ found Hnodup (page_sublist _ _ _))|].
  split.
  { exact (StronglySorted_sublist _ _ found (page_sublist _ _ _) (proj2 Hfound)). }
  split.
  { intros i o Hin. apply (enumerates_spec createdAt q db found i o Hfound).
    exact (elem_of_sublist _ found _ Hin (page_sublist _ _ _)). }
  split; [done|].
  split; [intros i o; by apply (enumerates_spec createdAt)|].
  intros Hdistinct enum Henum.
  etrans; [|apply (concat_pages (Z.to_nat limit) (Z.to_nat pages) found); nia].
  f_equal. apply list_fmap_ext. intros _ k _.
  rewrite (enumerates_unique createdAt q db found (enum k) Hfound (Henum k) Hdistinct).
  unfold OrdersRest.get_orders.
  assert (Hvalid' : OrdersRest.validList (OrdersRest.withPage q (Z.of_nat k + 1)) = true).
  { unfold OrdersRest.validList in *. simpl.
    rewrite andb_true_iff in *. split; [|tauto].
    apply bool_decide_eq_true. lia. }
  rewrite Hvalid'. simpl.
  rewrite bool_decide_eq_true_2 by lia.
  fold limit. do 2 f_equal. nia.
Qed.

Lemma order_pages_partition_witness :
  ∃ (docs : list (nat * Order.t)) (pg : OrdersRest.Pagination),
    OrdersRest.get_orders
      (OrdersRest.matching Z.of_nat (Examples.pagesOfTwo 2) Examples.shopWithThreeOrders)
      (Examples.pagesOfTwo 2) Examples.shopWithThreeOrders
      = Ok (docs, pg)
    ∧ OrdersRest.total pg = 3
    ∧ OrdersRest.pages pg = 2
    ∧ docs = [(0%nat, Examples.confirmedOrder)]
    ∧ OrdersRest.hasNext pg = false
    ∧ OrdersRest.hasPrev pg = true.
Proof.
  destruct (order_pages_partition Z.of_nat (Examples.pagesOfTwo 2)
              Examples.shopWithThreeOrders
              (OrdersRest.matching Z.of_nat (Examples.pagesOfTwo 2)
                 Examples.shopWithThreeOrders)
              eq_refl (matching_enumerates _ _ _))
    as (docs & pg & Hget & _).
  exists docs, pg. split; [exact Hget|].
  vm_compute in Hget. injection Hget as <- <-.
  repeat split; reflexivity.
Defined.

(** ** The diary *)

Section Diary.
Import Schedules SchedulesRest.

Lemma assign_slot b a :
  Schedule.startTime (assign b a) = default (Schedule.startTime a) (u_startTime b)
  ∧ Schedule.endTime (assign b a) = default (Schedule.endTime a) (u_endTime b)
  ∧ Schedule.assignedTechnician (assign b a)
    = default (Schedule.assignedTechnician a) (u_assignedTechnician b)
  ∧ Schedule.status (assign b a) = default (Schedule.status a) (u_status b).
Proof.
  destruct b as [t s e d st te rp].
  destruct t, s, e, d, st, te, rp; done.
Qed.


Lemma saveChanges_Some old s saved :
  Schedule.saveChanges old s = Some saved → saved = s.
Proof. unfold Schedule.saveChanges. destruct (_ || _); by intros [=]. Qed.


(** Storing a document keeps the invariant when it does not overlap the
    other active appointments of its technician. *)
Lemma NoDoubleBooking_insert coll i s :
  NoDoubleBooking coll →
  (∀ j b technician,
     j ≠ i → coll !! j = Some b →
     active s = true → active b = true →
     Schedule.assignedTechnician s = Some technician →
     Schedule.assignedTechnician b = Some technician →
     ¬ (Schedule.startTime b < Schedule.endTime s
        ∧ Schedule.startTime s < Schedule.endTime b)) →
  NoDoubleBooking (<[i := s]> coll).
Proof.
  intros Hinv Hnew x y a b t Hxy Ha Hb Hact_a Hact_b Hta Htb.
  destruct (decide (x = i)) as [->|Hx]; destruct (decide (y = i)) as [->|Hy].
  - done.
  - rewrite lookup_insert_eq in Ha. injection Ha as <-.
    rewrite lookup_insert_ne in Hb by done.
    pose proof (Hnew y b t Hy Hb Hact_a Hact_b Hta Htb). tauto.
  - rewrite lookup_insert_eq in Hb. injection Hb as <-.
    rewrite lookup_insert_ne in Ha by done.
    pose proof (Hnew x a t Hx Ha Hact_b Hact_a Htb Hta). tauto.
  - rewrite lookup_insert_ne in Ha, Hb by done.
    by apply (Hinv x y a b t).
Qed.

(** Replacing a document by one in the same slot, active only if the old
    one was, keeps the invariant. *)
Lemma NoDoubleBooking_same_slot coll i a s :
  NoDoubleBooking coll →
  coll !! i = Some a →
  Schedule.startTime s = Schedule.startTime a →
  Schedule.endTime s = Schedule.endTime a →
  Schedule.assignedTechnician s = Schedule.assignedTechnician a →
  (active s = true → active a = true) →
  NoDoubleBooking (<[i := s]> coll).
Proof.
  intros Hinv Ha Hs He Ht Hact. apply NoDoubleBooking_insert; [done|].
  intros j b t Hj Hb Hact_s Hact_b Hts Htb. rewrite Hs, He.
  rewrite Ht in Hts.
  pose proof (Hinv j i b a t Hj Hb Ha Hact_b (Hact Hact_s) Htb Hts). tauto.
Qed.

Lemma post_schedule_invariant user b db :
  NoDoubleBooking (schedules db) →
  NoDoubleBooking (schedules (post_schedule user b db).2).
Proof.
  intros Hinv. unfold post_schedule.
  destruct (validCreate b); simpl; [|done].
  destruct (match c_assignedTechnician b with
            | Some technician =>
                hasConflict None technician (c_startTime b) (c_endTime b) (schedules db)
            | None => false
            end) eqn:Hstage; simpl; [done|].
  destruct (checkParts _ _) as [missing|rps]; simpl; [done|].
  destruct (Schedule.save _) as [saved|] eqn:Hsave; simpl; [|done].
  unfold Schedule.save in Hsave. simpl in Hsave.
  case_bool_decide; [|done]. injection Hsave as <-.
  apply NoDoubleBooking_insert; [done|]. simpl.
  intros j other t _ Hother _ Hact Htech Htech' Hoverlap.
  rewrite Htech in Hstage.
  apply not_true_iff_false in Hstage. apply Hstage.
  apply hasConflict_spec. exists j, other.
  apply active_spec in Hact.
  split; [done|]. split; [done|]. tauto.
Qed.

Lemma start_schedule_invariant id db :
  NoDoubleBooking (schedules db) →
  NoDoubleBooking (schedules (start_schedule id db).2).
Proof.
  intros Hinv. unfold start_schedule.
  destruct (schedules db !! id) as [a|] eqn:Ha; [|done].
  case_bool_decide as Hst; simpl; [done|].
  apply (NoDoubleBooking_same_slot _ _ a); try done.
  intros _. apply active_spec. left. by destruct (decide (Schedule.status a = Schedule.scheduled)).
Qed.

Lemma complete_schedule_invariant id b db :
  NoDoubleBooking (schedules db) →
  NoDoubleBooking (schedules (complete_schedule id b db).2).
Proof.
  intros Hinv. unfold complete_schedule.
  destruct (validComplete b); simpl; [|done].
  destruct (schedules db !! id) as [a|] eqn:Ha; [|done].
  case_bool_decide as Hst; simpl; [done|].
  apply (NoDoubleBooking_same_slot _ _ a); try done.
Qed.

Lemma delete_schedule_invariant id db :
  NoDoubleBooking (schedules db) →
  NoDoubleBooking (schedules (delete_schedule id db).2).
Proof.
  intros Hinv. unfold delete_schedule.
  destruct (schedules db !! id) as [a|] eqn:Ha; [|done].
  case_bool_decide as Hst; simpl; [done|].
  apply (NoDoubleBooking_same_slot _ _ a); try done.
Qed.

Lemma put_schedule_invariant id b db a :
  schedules db !! id = Some a →
  Schedule.status a = Schedule.scheduled →
  NoDoubleBooking (schedules db) →
  NoDoubleBooking (schedules (put_schedule id b db).2).
Proof.
  intros Ha Hst Hinv. unfold put_schedule.
  destruct (validUpdate b); simpl; [|done].
  rewrite Ha.
  destruct (updateConflict id b a (schedules db)) eqn:Hcheck; simpl; [done|].
  destruct (Schedule.saveChanges a (assign b a)) as [saved|] eqn:Hsave;
    simpl; [|done].
  apply saveChanges_Some in Hsave as ->.
  destruct (assign_slot b a) as (Hs & He & Ht & _).
  apply NoDoubleBooking_insert; [done|].
  intros j other t Hj Hother _ Hact Htech Htech' Hoverlap.
  rewrite Hs, He in Hoverlap. rewrite Ht in Htech.
  destruct (updateChecksConflict b a) eqn:Hguard.
  - apply not_true_iff_false in Hcheck. apply Hcheck.
    apply updateConflict_spec. split; [done|]. exists t. split.
    + unfold sentTechnician.
      destruct (u_assignedTechnician b) as [[x|]|]; simpl in Htech;
        [left; congruence|done|by right].
    + apply hasConflict_spec. exists j, other.
      apply active_spec in Hact.
      repeat split; try tauto. congruence.
  - unfold updateChecksConflict in Hguard.
    rewrite (bool_decide_eq_true_2 _ Hst), andb_true_r in Hguard.
    rewrite !orb_false_iff, !bool_decide_eq_false in Hguard.
    destruct Hguard as [[Hus Hue] Hut].
    destruct (u_startTime b); [by destruct Hus; eexists|].
    destruct (u_endTime b); [by destruct Hue; eexists|].
    unfold sentTechnician in Hut.
    destruct (u_assignedTechnician b) as [[x|]|]; simpl in Htech;
      [by destruct Hut; eexists|done|].
    simpl in Hoverlap.
    assert (Hact_a : active a = true) by (apply active_spec; by left).
    pose proof (Hinv j id other a t Hj Hother Ha Hact Hact_a Htech' Htech). tauto.
Qed.

End Diary.

(** X10. The diary invariant, no two active appointments of one technician
    overlap, is kept by the create route, by start, complete and cancel, and
    by the update route whenever the appointment it updates is stored as
    scheduled (the only status for which the update route runs its conflict
    check). *)
Theorem no_double_booking_preserved (db : Schedules.Db) :
  SchedulesRest.NoDoubleBooking (Schedules.schedules db) →
  (∀ (user : nat) (b : Schedules.CreateBody),
     SchedulesRest.NoDoubleBooking
       (Schedules.schedules (Schedules.post_schedule user b db).2))
  ∧ (∀ id : nat,
       SchedulesRest.NoDoubleBooking
         (Schedules.schedules (Schedules.start_schedule id db).2))
  ∧ (∀ (id : nat) (b : Schedules.CompleteBody),
       SchedulesRest.NoDoubleBooking
         (Schedules.schedules (Schedules.complete_schedule id b db).2))
  ∧ (∀ id : nat,
       SchedulesRest.NoDoubleBooking
         (Schedules.schedules (SchedulesRest.delete_schedule id db).2))
  ∧ (∀ (id : nat) (b : Schedules.UpdateBody) (a : Schedule.t),
       Schedules.schedules db !! id = Some a →
       Schedule.status a = Schedule.scheduled →
       SchedulesRest.NoDoubleBooking
         (Schedules.schedules (Schedules.put_schedule id b db).2)).
Proof.
  intros Hinv. split; [|split; [|split; [|split]]].
  - intros user b. by apply post_schedule_invariant.
  - intros id. by apply start_schedule_invariant.
  - intros id b. by apply complete_schedule_invariant.
  - intros id. by apply delete_schedule_invariant.
  - intros id b a Ha Hst. by apply (put_schedule_invariant id b db a).
Qed.

Lemma no_double_booking_preserved_witness :
  SchedulesRest.NoDoubleBooking
    (Schedules.schedules
       (Schedules.post_schedule 9 (Examples.booking (Some 5%nat) 46800000 50400000)
          Examples.busyDiary).2)
  ∧ SchedulesRest.NoDoubleBooking
      (Schedules.schedules (Schedules.start_schedule 0 Examples.busyDiary).2)
  ∧ SchedulesRest.NoDoubleBooking
      (Schedules.schedules
         (Schedules.put_schedule 1 (Examples.moveTo 39600000 43200000)
            Examples.busyDiary).2).
Proof.
  assert (Hinv : SchedulesRest.NoDoubleBooking (Schedules.schedules Examples.busyDiary)).
  { intros i j a b t Hij Ha Hb _ _ _ _. simpl in Ha, Hb.
    apply lookup_insert_Some in Ha as [[<- <-]|[? Ha]];
      apply lookup_insert_Some in Hb as [[<- <-]|[? Hb]]; try done;
      try apply lookup_singleton_Some in Ha as [<- <-];
      try apply lookup_singleton_Some in Hb as [<- <-];
      simpl; try done; lia. }
  destruct (no_double_booking_preserved Examples.busyDiary Hinv)
    as (Hpost & Hstart & _ & _ & Hput).
  split; [apply Hpost|]. split; [apply Hstart|].
  apply (Hput 1%nat (Examples.moveTo 39600000 43200000) Examples.laterAppointment);
    reflexivity.
Defined.

Section Slots.
Import Schedules SchedulesRest.

(** A stored document that is not active does not count for the conflict
    query: the query answers as if the document were excluded. *)
Lemma hasConflict_insert_inactive coll id a' technician startTime endTime :
  active a' = false →
  hasConflict None technician startTime endTime (<[id := a']> coll)
  = hasConflict (Some id) technician startTime endTime coll.
Proof.
  intros Hinactive. apply eq_true_iff_eq. rewrite !hasConflict_spec. split.
  - intros (i & s & Hs & _ & Htech & Hst & Hoverlap).
    destruct (decide (i = id)) as [->|Hne].
    + rewrite lookup_insert_eq in Hs. injection Hs as <-.
      apply active_spec in Hst. congruence.
    + rewrite lookup_insert_ne in Hs by done.
      exists i, s. repeat split; try tauto. congruence.
  - intros (i & s & Hs & Hex & Htech & Hst & Hoverlap).
    assert (i ≠ id) by congruence.
    exists i, s. rewrite lookup_insert_ne by done.
    repeat split; try tauto. done.
Qed.

(** Replacing a document by one in the same slot that is active as well
    leaves every answer of the conflict query as it was. *)
Lemma hasConflict_insert_same_slot coll id a a' exclude technician startTime endTime :
  coll !! id = Some a →
  Schedule.startTime a' = Schedule.startTime a →
  Schedule.endTime a' = Schedule.endTime a →
  Schedule.assignedTechnician a' = Schedule.assignedTechnician a →
  active a = true → active a' = true →
  hasConflict exclude technician startTime endTime (<[id := a']> coll)
  = hasConflict exclude technician startTime endTime coll.
Proof.
  intros Ha Hs He Ht Hact Hact'. apply eq_true_iff_eq.
  rewrite !hasConflict_spec. split.
  - intros (i & s & Hi & Hex & Htech & Hst & Hoverlap).
    destruct (decide (i = id)) as [->|Hne].
    + rewrite lookup_insert_eq in Hi. injection Hi as <-.
      exists id, a. rewrite <- Hs, <- He, <- Ht.
      apply active_spec in Hact. tauto.
    + rewrite lookup_insert_ne in Hi by done. exists i, s. tauto.
  - intros (i & s & Hi & Hex & Htech & Hst & Hoverlap).
    destruct (decide (i = id)) as [->|Hne].
    + rewrite Ha in Hi. injection Hi as <-.
      exists id, a'. rewrite lookup_insert_eq, Hs, He, Ht.
      apply active_spec in Hact'. tauto.
    + exists i, s. rewrite lookup_insert_ne by done. tauto.
Qed.

End Slots.

(** X11. Cancelling: a completed appointment cannot be cancelled (error,
    nothing changes); any other stored appointment is saved as cancelled.
    Cancelling and completing free the slot: afterwards the conflict query
    answers, for every technician and interval, as it did before with that
    appointment excluded. Starting does not: the conflict query answers as
    before. *)
Theorem cancel_and_complete_free_the_slot
    (id : nat) (db : Schedules.Db) (a : Schedule.t) :
  Schedules.schedules db !! id = Some a →
  (Schedule.status a = Schedule.completed →
   SchedulesRest.delete_schedule id db
     = (BadRequest "Cannot cancel completed schedule", db))
  ∧ (Schedule.status a ≠ Schedule.completed →
     ∃ db' : Schedules.Db,
       SchedulesRest.delete_schedule id db
         = (Ok "Schedule cancelled successfully", db')
       ∧ Schedules.schedules db' !! id
         = Some (Schedule.set_status Schedule.cancelled a)
       ∧ Schedules.partsColl db' = Schedules.partsColl db
       ∧ ∀ (technician : nat) (s e : Z),
           Schedules.hasConflict None technician s e (Schedules.schedules db')
           = Schedules.hasConflict (Some id) technician s e (Schedules.schedules db))
  ∧ (∀ b : Schedules.CompleteBody,
       Schedule.status a = Schedule.in_progress →
       Schedules.validComplete b = true →
       ∀ (technician : nat) (s e : Z),
         Schedules.hasConflict None technician s e
           (Schedules.schedules (Schedules.complete_schedule id b db).2)
         = Schedules.hasConflict (Some id) technician s e (Schedules.schedules db))
  ∧ (Schedule.status a = Schedule.scheduled →
     ∀ (exclude : option nat) (technician : nat) (s e : Z),
       Schedules.hasConflict exclude technician s e
         (Schedules.schedules (Schedules.start_schedule id db).2)
       = Schedules.hasConflict exclude technician s e (Schedules.schedules db)).
Proof.
  intros Hfind. split; [|split; [|split]].
  - intros Hst. unfold SchedulesRest.delete_schedule.
    by rewrite Hfind, bool_decide_eq_true_2.
  - intros Hst. unfold SchedulesRest.delete_schedule.
    rewrite Hfind, bool_decide_eq_false_2 by done.
    eexists. split; [reflexivity|]. simpl.
    split; [by rewrite lookup_insert_eq|]. split; [done|].
    intros technician s e. by apply hasConflict_insert_inactive.
  - intros b Hst Hvalid technician s e. unfold Schedules.complete_schedule.
    rewrite Hvalid, Hfind. simpl.
    rewrite bool_decide_eq_false_2 by (by intros H; apply H). simpl.
    by apply hasConflict_insert_inactive.
  - intros Hst exclude technician s e. unfold Schedules.start_schedule.
    rewrite Hfind, bool_decide_eq_false_2 by (by intros H; apply H). simpl.
    apply (hasConflict_insert_same_slot _ _ a); try done.
    apply active_spec. by left.
Qed.

Lemma cancel_and_complete_free_the_slot_witness :
  (∃ db' : Schedules.Db,
     SchedulesRest.delete_schedule 0 (Examples.diary Schedule.scheduled)
       = (Ok "Schedule cancelled successfully", db')
     ∧ Schedules.hasConflict None 5 36000000 39600000 (Schedules.schedules db') = false)
  ∧ SchedulesRest.delete_schedule 0 (Examples.diary Schedule.completed)
    = (BadRequest "Cannot cancel completed schedule", Examples.diary Schedule.completed)
  ∧ Schedules.hasConflict None 5 36000000 39600000
      (Schedules.schedules
         (Schedules.complete_schedule 0 (Schedules.mkCompleteBody None)
            (Examples.diary Schedule.in_progress)).2) = false
  ∧ Schedules.hasConflict None 5 36000000 39600000
      (Schedules.schedules
         (Schedules.start_schedule 0 (Examples.diary Schedule.scheduled)).2) = true.
Proof.
  split; [|split; [|split]].
  - destruct (cancel_and_complete_free_the_slot 0 (Examples.diary Schedule.scheduled)
                (Examples.appointment Schedule.scheduled) eq_refl)
      as (_ & Hcancel & _).
    destruct Hcancel as (db' & Hdel & _ & _ & Hfree); [simpl; intros [=]|].
    exists db'. split; [exact Hdel|]. rewrite Hfree. vm_compute. reflexivity.
  - apply (cancel_and_complete_free_the_slot 0 (Examples.diary Schedule.completed)
             (Examples.appointment Schedule.completed) eq_refl). reflexivity.
  - destruct (cancel_and_complete_free_the_slot 0 (Examples.diary Schedule.in_progress)
                (Examples.appointment Schedule.in_progress) eq_refl)
      as (_ & _ & Hcomplete & _).
    rewrite (Hcomplete (Schedules.mkCompleteBody None) eq_refl eq_refl).
    vm_compute. reflexivity.
  - destruct (cancel_and_complete_free_the_slot 0 (Examples.diary Schedule.scheduled)
                (Examples.appointment Schedule.scheduled) eq_refl)
      as (_ & _ & _ & Hstart).
    rewrite (Hstart eq_refl). vm_compute. reflexivity.
Defined.



Section Availability.
Import Schedules.

(** What the availability loop leaves on each line. *)
Lemma checkParts_line pc : ∀ rps rps',
  checkParts pc rps = inr rps' →
  length rps' = length rps
  ∧ ∀ (i : nat) (rp : RequiredPartBody),
      rps !! i = Some rp →
      ∃ (rp' : RequiredPartBody) (stock : Part),
        rps' !! i = Some rp'
        ∧ pc !! rp_part rp = Some stock
        ∧ rp_part rp' = rp_part rp
        ∧ rp_quantity rp' = rp_quantity rp
        ∧ rp_isAvailable rp'
          = match rp_quantity rp with
            | Some q =>
                if bool_decide (quantityInStock stock < q)
                then Some false else rp_isAvailable rp
            | None => rp_isAvailable rp
            end.
Proof.
  induction rps as [|rp0 rps IH]; intros rps' Hrun; simpl in Hrun.
  - injection Hrun as <-. split; [done|]. intros i rp Hi. by destruct i.
  - destruct (pc !! rp_part rp0) as [stock|] eqn:Hstock; [|done].
    destruct (checkParts pc rps) as [missing|rest] eqn:Hrest; [done|].
    injection Hrun as <-.
    destruct (IH rest eq_refl) as [Hlen Hlines].
    split; [simpl; by rewrite Hlen|].
    intros [|i] rp Hi; simpl in Hi.
    + injection Hi as <-. eexists _, stock. split; [reflexivity|].
      split; [done|].
      destruct (rp_quantity rp0) as [q|] eqn:Hq; [case_bool_decide|];
        simpl; rewrite ?Hq; by repeat split.
    + by apply Hlines.
Qed.

End Availability.

(** X13. Booking never reserves or refuses for stock: a valid request
    whose title is not blank, that passes the conflict stage and names
    known parts only, is stored under an unused id, and the stock of every
    part is as before. The lines of the stored appointment are the
    requested ones, in order, with quantity 1 where none was sent. A line
    whose requested quantity exceeds the stock at booking time is stored as
    not available; a line stored as available with a requested quantity is
    covered by the stock. A line without a quantity is never checked: it
    keeps the flag that was sent (available by default) whatever the
    stock. *)
Theorem booking_flags_unavailable_parts
    (user : nat) (b : Schedules.CreateBody) (db : Schedules.Db) :
  Schedules.validCreate b = true →
  trim (Schedules.c_title b) ≠ EmptyString →
  (∀ technician : nat,
     Schedules.c_assignedTechnician b = Some technician →
     Schedules.hasConflict None technician (Schedules.c_startTime b)
       (Schedules.c_endTime b) (Schedules.schedules db) = false) →
  Forall (λ rp, is_Some (Schedules.partsColl db !! Schedules.rp_part rp))
    (Schedules.c_requiredParts b) →
  ∃ (id : nat) (s : Schedule.t) (db' : Schedules.Db),
    Schedules.post_schedule user b db = (Created (id, s), db')
    ∧ Schedules.schedules db !! id = None
    ∧ Schedules.schedules db' = <[id := s]> (Schedules.schedules db)
    ∧ Schedules.schedules db' !! id = Some s
    ∧ Schedules.partsColl db' = Schedules.partsColl db
    ∧ length (Schedule.requiredParts s) = length (Schedules.c_requiredParts b)
    ∧ ∀ (i : nat) (rp : Schedules.RequiredPartBody),
        Schedules.c_requiredParts b !! i = Some rp →
        ∃ (line : Schedule.RequiredPart) (stock : Part),
          Schedule.requiredParts s !! i = Some line
          ∧ Schedules.partsColl db !! Schedules.rp_part rp = Some stock
          ∧ Schedule.part line = Schedules.rp_part rp
          ∧ Schedule.quantity line = default 1 (Schedules.rp_quantity rp)
          ∧ (∀ q : Z, Schedules.rp_quantity rp = Some q →
               quantityInStock stock < q → Schedule.isAvailable line = false)
          ∧ (∀ q : Z, Schedules.rp_quantity rp = Some q →
               Schedule.isAvailable line = true → q ≤ quantityInStock stock)
          ∧ (Schedules.rp_quantity rp = None →
             Schedule.isAvailable line = default true (Schedules.rp_isAvailable rp)).
Proof.
  intros Hvalid Htitle Hfree Hparts. unfold Schedules.post_schedule.
  rewrite Hvalid. simpl.
  assert (Hstage :
    match Schedules.c_assignedTechnician b with
    | Some technician =>
        Schedules.hasConflict None technician (Schedules.c_startTime b)
          (Schedules.c_endTime b) (Schedules.schedules db)
    | None => false
    end = false).
  { destruct (Schedules.c_assignedTechnician b); [by apply Hfree|done]. }
  rewrite Hstage.
  destruct (checkParts_found _ _ Hparts) as (rps' & Hrun & _).
  rewrite Hrun.
  destruct (checkParts_line _ _ _ Hrun) as [Hlen Hlines].
  unfold Schedule.save. simpl. rewrite bool_decide_eq_true_2 by done.
  eexists _, _, _. split; [reflexivity|]. simpl.
  split; [apply not_elem_of_dom, is_fresh|].
  split; [done|]. split; [by rewrite lookup_insert_eq|].
  split; [done|]. split; [by rewrite length_fmap|].
  intros i rp Hi.
  destruct (Hlines i rp Hi) as (rp' & stock & Hi' & Hstock & Hpart & Hq & Hflag).
  exists (Schedules.newRequiredPart rp'), stock.
  split; [by rewrite list_lookup_fmap, Hi'|]. split; [done|].
  unfold Schedules.newRequiredPart. simpl. rewrite Hpart, Hq, Hflag.
  split; [done|]. split; [done|]. split; [|split].
  - intros q -> Hlt. by rewrite bool_decide_eq_true_2.
  - intros q ->. case_bool_decide; [done|]. intros _. lia.
  - by intros ->.
Qed.

Lemma booking_flags_unavailable_parts_witness :
  ∃ (id : nat) (s : Schedule.t) (db' : Schedules.Db),
    Schedules.post_schedule 9 Examples.bookingWithParts Examples.busyDiary
      = (Created (id, s), db')
    ∧ Schedules.schedules db' !! id = Some s
    ∧ Schedules.partsColl db' = Schedules.partsColl Examples.busyDiary
    ∧ Schedule.requiredParts s
      = [Schedule.mkRequiredPart 7 5 false; Schedule.mkRequiredPart 7 1 true].
Proof.
  destruct (booking_flags_unavailable_parts 9 Examples.bookingWithParts
              Examples.busyDiary)
    as (id & s & db' & Hpost & _ & _ & Hstored & Hstock & _).
  - reflexivity.
  - vm_compute. intros [=].
  - intros technician [= <-]. vm_compute. reflexivity.
  - repeat constructor; simpl; eexists; reflexivity.
  - exists id, s, db'. split; [exact Hpost|]. split; [exact Hstored|].
    split; [exact Hstock|].
    vm_compute in Hpost. injection Hpost as _ <- _. reflexivity.
Defined.

Section TechnicianDiary.
Import Schedules SchedulesRest.

#[global] Instance byStartTime_total : Total byStartTime.
Proof. intros a b. unfold byStartTime. lia. Qed.

#[global] Instance byStartTime_trans : Transitive byStartTime.
Proof. intros a b c. unfold byStartTime. lia. Qed.

Lemma technicianFilter_spec technicianId startDate endDate s :
  technicianFilter technicianId startDate endDate s = true ↔
  Schedule.assignedTechnician s = Some technicianId
  ∧ ∀ from to : Z,
      startDate = Some from → endDate = Some to →
      from ≤ Schedule.startTime s ≤ to.
Proof.
  unfold technicianFilter. rewrite andb_true_iff, bool_decide_eq_true.
  destruct startDate as [f|], endDate as [t|];
    rewrite ?andb_true_iff, ?bool_decide_eq_true; split;
    try (intros [Htech Hrange]; split; [done|]; intros from to [=] [=]; subst; done);
    try (intros [Htech Hrange]; split; [done|]; try done;
         by destruct (Hrange f t eq_refl eq_refl)).
Qed.

End TechnicianDiary.

(** X14. A technician's diary lists exactly the stored appointments assigned
    to that technician, of every status, each once and by ascending start
    time. The date range applies only when both [startDate] and [endDate]
    are sent, and then keeps the appointments that start within it, bounds
    included; a single bound is ignored. *)
Theorem technician_diary_exact_and_sorted
    (technicianId : nat) (startDate endDate : option Z) (db : Schedules.Db) :
  (∀ (i : nat) (s : Schedule.t),
     (i, s) ∈ SchedulesRest.get_technician_schedule technicianId startDate endDate db
     ↔ Schedules.schedules db !! i = Some s
       ∧ Schedule.assignedTechnician s = Some technicianId
       ∧ ∀ from to : Z,
           startDate = Some from → endDate = Some to →
           from ≤ Schedule.startTime s ≤ to)
  ∧ NoDup (SchedulesRest.get_technician_schedule technicianId startDate endDate db)
  ∧ StronglySorted SchedulesRest.byStartTime
      (SchedulesRest.get_technician_schedule technicianId startDate endDate db)
  ∧ SchedulesRest.get_technician_schedule technicianId startDate None db
    = SchedulesRest.get_technician_schedule technicianId None None db
  ∧ SchedulesRest.get_technician_schedule technicianId None endDate db
    = SchedulesRest.get_technician_schedule technicianId None None db.
Proof.
  unfold SchedulesRest.get_technician_schedule.
  split; [|split; [|split; [|split]]].
  - intros i s. rewrite merge_sort_Permutation.
    rewrite list_elem_of_In, filter_In, <- list_elem_of_In.
    rewrite elem_of_map_to_list. simpl. by rewrite technicianFilter_spec.
  - rewrite merge_sort_Permutation.
    apply NoDup_List_filter, NoDup_map_to_list.
  - apply (StronglySorted_merge_sort SchedulesRest.byStartTime).
  - by destruct startDate.
  - reflexivity.
Qed.

(** ** The shipping page and order creation *)

(** X15. The card colour of the shipping page follows the server's
    classification at the same clock: gray without a deadline, red for
    "overdue", yellow for "urgent", blue for "normal". So every order the
    urgent route returns is shown yellow and every order the overdue route
    returns is shown red. *)
Theorem shipping_colour_matches_lists (now : Z) (db : Orders.Db) :
  (∀ cet : option Z,
     Shipping.getPriorityColor cet now
     = match classify cet now with
       | None => "bg-gray-100 border-gray-200"
       | Some status =>
           if bool_decide (status = "overdue") then "bg-red-100 border-red-200"
           else if bool_decide (status = "urgent")
           then "bg-yellow-100 border-yellow-200"
           else "bg-blue-100 border-blue-200"
       end)
  ∧ (∀ (i : nat) (o : Order.t),
       (i, o) ∈ Orders.get_urgent now db →
       Shipping.getPriorityColor (Order.countdownEndTime o) now
       = "bg-yellow-100 border-yellow-200")
  ∧ (∀ (i : nat) (o : Order.t),
       (i, o) ∈ Orders.get_overdue now db →
       Shipping.getPriorityColor (Order.countdownEndTime o) now
       = "bg-red-100 border-red-200").
Proof.
  assert (Hcolour : ∀ cet : option Z,
    Shipping.getPriorityColor cet now
    = match classify cet now with
      | None => "bg-gray-100 border-gray-200"
      | Some status =>
          if bool_decide (status = "overdue") then "bg-red-100 border-red-200"
          else if bool_decide (status = "urgent")
          then "bg-yellow-100 border-yellow-200"
          else "bg-blue-100 border-blue-200"
      end).
  { intros [e|]; [|reflexivity]. unfold Shipping.getPriorityColor.
    destruct (Z_le_gt_dec (e - now) 0) as [H0|H0].
    - rewrite (classify_overdue e now H0). by rewrite bool_decide_eq_true_2.
    - rewrite bool_decide_eq_false_2 by lia.
      destruct (Z_lt_le_dec (e - now) (24 * msPerHour)) as [H1|H1].
      + rewrite (classify_urgent e now) by lia.
        by rewrite bool_decide_eq_true_2 by (unfold msPerHour in H1; lia).
      + rewrite (classify_normal e now H1).
        by rewrite bool_decide_eq_false_2 by (unfold msPerHour in H1; lia). }
  split; [exact Hcolour|]. split.
  - intros i o Hin. unfold Orders.get_urgent in Hin.
    rewrite sorted_spec, find_spec, urgentFilter_spec in Hin.
    destruct Hin as (_ & _ & e & He & Hrange).
    rewrite Hcolour, He, (classify_urgent e now) by lia. reflexivity.
  - intros i o Hin. apply get_overdue_spec in Hin as (_ & _ & e & He & Hlt).
    rewrite Hcolour, He, (classify_overdue e now) by lia. reflexivity.
Qed.

Lemma shipping_colour_matches_lists_witness :
  Shipping.getPriorityColor (Order.countdownEndTime Examples.confirmedOrder) 259200001
    = "bg-red-100 border-red-200"
  ∧ Shipping.getPriorityColor (Order.countdownEndTime Examples.confirmedOrder) 259000000
    = "bg-yellow-100 border-yellow-200".
Proof.
  split.
  - apply (proj2 (proj2 (shipping_colour_matches_lists 259200001 Examples.shopWithOrder))
             0%nat Examples.confirmedOrder).
    vm_compute. apply list_elem_of_here.
  - apply (proj1 (proj2 (shipping_colour_matches_lists 259000000 Examples.shopWithOrder))
             0%nat Examples.confirmedOrder).
    vm_compute. apply list_elem_of_here.
Defined.

Section OrderCreation.
Import Orders OrdersRest.

Lemma collectParts_inr pc ls : ∀ acc total lines amount,
  collectParts pc ls acc total = inr (lines, amount) →
  Forall (λ l, is_Some (pc !! part l)) ls
  ∧ lines = acc ++ (storedLine <$> ls)
  ∧ amount = total + foldr (λ x acc, x.2 + acc) 0 (storedLine <$> ls).
Proof.
  induction ls as [|l ls IH]; intros acc total lines amount Hrun; simpl in Hrun.
  - injection Hrun as <- <-. split; [done|]. simpl. by rewrite app_nil_r, Z.add_0_r.
  - destruct (pc !! part l) as [p|] eqn:Hp; [|done].
    apply IH in Hrun as (Hall & -> & ->).
    split; [constructor; [by eexists|done]|].
    split; [by rewrite <- app_assoc|].
    rewrite fmap_cons. cbn [foldr]. unfold storedLine at 2. cbn [snd]. lia.
Qed.

Lemma collectParts_inl pc ls : ∀ acc total missing,
  collectParts pc ls acc total = inl missing →
  pc !! missing = None ∧ missing ∈ part <$> ls.
Proof.
  induction ls as [|l ls IH]; intros acc total missing Hrun; simpl in Hrun; [done|].
  destruct (pc !! part l) as [p|] eqn:Hp.
  - apply IH in Hrun as [Hnone Hin]. split; [done|]. rewrite fmap_cons. by right.
  - injection Hrun as <-. split; [done|]. rewrite fmap_cons. by left.
Qed.

Lemma collectParts_first pc pre l post : ∀ acc total,
  Forall (λ l, is_Some (pc !! part l)) pre →
  pc !! part l = None →
  collectParts pc (pre ++ l :: post) acc total = inl (part l).
Proof.
  induction pre as [|x pre IH]; intros acc total Hpre Hnone; simpl.
  - by rewrite Hnone.
  - apply Forall_cons in Hpre as [[p Hp] Hpre]. rewrite Hp. by apply IH.
Qed.

Lemma sum_totalPrice_nonneg ls :
  forallb (λ p, bool_decide (1 ≤ quantity p) && bool_decide (0 ≤ unitPrice p)) ls = true →
  0 ≤ foldr (λ x acc, x.2 + acc) 0 (storedLine <$> ls).
Proof.
  induction ls as [|l ls IH]; [done|].
  rewrite fmap_cons. cbn [forallb foldr]. unfold storedLine at 1. cbn [snd].
  rewrite !andb_true_iff, !bool_decide_eq_true. intros [[Hq Hp] Hrest].
  specialize (IH Hrest).
  pose proof (Z.mul_nonneg_nonneg (quantity l) (unitPrice l)). lia.
Qed.

End OrderCreation.

(** X16. The create route stores nothing: after every request the database
    is the one before it. What the route answers is decided in this order.
    A request that fails validation is answered with the validation errors
    (exactly those). Otherwise an unknown supplier is answered "Supplier not
    found" (exactly then). Otherwise the first line whose part is not
    stored is answered "Part with ID ... not found". A request that passes
    all three checks, for which the loop has built the requested lines in
    order, each with [totalPrice = quantity * unitPrice], and a
    [totalAmount] that is their sum and not negative, is answered 500
    (exactly those): the order is saved without the [orderNumber] that the
    schema requires. *)
Theorem order_creation_never_stores
    (tNew tSave : Z) (user : nat) (b : Orders.CreateBody) (db : Orders.Db) :
  let r := Orders.post_order tNew tSave user b db in
  let known := λ l, is_Some (Orders.partsColl db !! Orders.part l) in
  r.2 = db
  ∧ (r.1 = ValidationErrors ↔ Orders.validCreate b = false)
  ∧ (r.1 = BadRequest "Supplier not found"
     ↔ Orders.validCreate b = true ∧ (Orders.c_supplier b ∉ Orders.contacts db))
  ∧ (∀ (pre : list Orders.PartLine) (l : Orders.PartLine) (post : list Orders.PartLine),
       Orders.validCreate b = true →
       Orders.c_supplier b ∈ Orders.contacts db →
       Orders.c_parts b = pre ++ l :: post →
       Forall known pre →
       Orders.partsColl db !! Orders.part l = None →
       r.1 = BadRequest ("Part with ID " +:+ pretty (Orders.part l) +:+ " not found"))
  ∧ (r.1 = InternalServerError
     ↔ Orders.validCreate b = true
       ∧ Orders.c_supplier b ∈ Orders.contacts db
       ∧ Forall known (Orders.c_parts b))
  ∧ (Orders.validCreate b = true →
     Forall known (Orders.c_parts b) →
     ∃ (lines : list (nat * Z * Z * Z)) (totalAmount : Z),
       Orders.collectParts (Orders.partsColl db) (Orders.c_parts b) [] 0
         = inr (lines, totalAmount)
       ∧ lines = OrdersRest.storedLine <$> Orders.c_parts b
       ∧ lines ≠ []
       ∧ totalAmount = foldr (λ x acc, x.2 + acc) 0 lines
       ∧ 0 ≤ totalAmount).
Proof.
  intros r known. split; [apply post_order_db|].
  subst r. unfold Orders.post_order.
  destruct (Orders.validCreate b) eqn:Hvalid; simpl.
  2:{ repeat split; try done; by intros (? & _). }
  split; [by case_bool_decide; [|destruct (Orders.collectParts _ _ _ _) as [?|[? ?]]]|].
  split.
  { case_bool_decide as Hsup; simpl; [done|].
    destruct (Orders.collectParts _ _ _ _) as [?|[? ?]]; simpl;
      (split; [intros [=]|by intros [_ ?]]). }
  split.
  { intros pre l post _ Hsup Hparts Hpre Hnone.
    rewrite bool_decide_eq_false_2 by (intros Hn; by apply Hn).
    by rewrite Hparts, (collectParts_first _ pre l post [] 0 Hpre Hnone). }
  split.
  { case_bool_decide as Hsup; simpl.
    { split; [done|]. by intros (_ & ? & _). }
    destruct (Orders.collectParts _ _ _ _) as [missing|[lines amount]] eqn:Hrun; simpl.
    - split; [done|]. intros (_ & _ & Hall).
      apply collectParts_inl in Hrun as [Hnone Hin].
      rewrite Forall_forall in Hall.
      apply list_elem_of_fmap in Hin as (l & -> & Hl).
      destruct (Hall l Hl) as [p Hp]. congruence.
    - apply collectParts_inr in Hrun as (Hall & _).
      split; [|done]. intros _. split; [done|]. split; [|done].
      by destruct (decide (Orders.c_supplier b ∈ Orders.contacts db)). }
  intros _ Hall.
  destruct (collectParts_found _ _ [] 0 Hall) as (lines & amount & Hrun).
  exists lines, amount. split; [exact Hrun|].
  apply collectParts_inr in Hrun as (_ & -> & ->). simpl.
  unfold Orders.validCreate in Hvalid. rewrite !andb_true_iff in Hvalid.
  destruct Hvalid as [[Hne Hlines] Hlimit].
  apply bool_decide_eq_true in Hne.
  split; [done|]. split; [|split; [lia|]].
  - destruct (Orders.c_parts b); [done|]. by rewrite fmap_cons.
  - rewrite Z.add_0_l. by apply sum_totalPrice_nonneg.
Qed.

Lemma order_creation_never_stores_witness :
  (Orders.post_order 1000 1001 9 Examples.orderRequestUnknownPart Examples.emptyShop).1
    = BadRequest "Part with ID 8 not found"
  ∧ ∃ (lines : list (nat * Z * Z * Z)) (totalAmount : Z),
      Orders.collectParts (Orders.partsColl Examples.emptyShop)
        (Orders.c_parts Examples.orderRequest) [] 0
        = inr (lines, totalAmount)
      ∧ lines = [(7%nat, 2, 5, 10)]
      ∧ totalAmount = 10.
Proof.
  split.
  - destruct (order_creation_never_stores 1000 1001 9
                Examples.orderRequestUnknownPart Examples.emptyShop)
      as (_ & _ & _ & Hpart & _).
    apply (Hpart [] (Orders.mkPartLine 8 1 5) []).
    + reflexivity.
    + vm_compute. reflexivity.
    + vm_compute. reflexivity.
    + constructor.
    + vm_compute. reflexivity.
  - destruct (order_creation_never_stores 1000 1001 9
                Examples.orderRequest Examples.emptyShop)
      as (_ & _ & _ & _ & _ & Hlines).
    destruct Hlines as (lines & amount & Hrun & Hl & _ & Ha & _).
    + reflexivity.
    + repeat constructor. vm_compute. eexists. reflexivity.
    + exists lines, amount. split; [exact Hrun|]. split; [exact Hl|].
      rewrite Ha, Hl. reflexivity.
Defined.

Section Booking.
Import Schedules.




End Booking.





(** ** The stock of a part *)

Section Stock.
Import Parts.

Lemma lowStockFilter_spec p :
  lowStockFilter p = true ↔
  isActive p = true ∧ quantityInStock p ≤ minimumStockLevel p.
Proof. unfold lowStockFilter. by rewrite andb_true_iff, bool_decide_eq_true. Qed.

Lemma get_low_stock_spec coll i p :
  (i, p) ∈ get_low_stock coll ↔
  coll !! i = Some p ∧ isActive p = true ∧ quantityInStock p ≤ minimumStockLevel p.
Proof.
  unfold get_low_stock. rewrite merge_sort_Permutation.
  rewrite list_elem_of_In, filter_In, <- list_elem_of_In.
  rewrite elem_of_map_to_list. simpl. by rewrite lowStockFilter_spec.
Qed.

Lemma stockStatus_in_stock p :
  0 ≤ minimumStockLevel p →
  stockStatus p ≠ "in_stock" ↔ quantityInStock p ≤ minimumStockLevel p.
Proof.
  intros Hmin. unfold stockStatus.
  repeat case_bool_decide; split; intros ?; done || lia.
Qed.

End Stock.

(** X19. The low-stock list holds exactly the active parts whose stock is at
    or below their minimum level, each once, lowest stock first. For a part
    with a non-negative minimum level this agrees with the [stockStatus]
    virtual: an active part is listed exactly when its status is not
    "in_stock", and a part with no stock left is "out_of_stock". *)
Theorem low_stock_list_matches_stock_status (coll : gmap nat Parts.Doc) :
  (∀ (i : nat) (p : Parts.Doc),
     (i, p) ∈ Parts.get_low_stock coll ↔
     coll !! i = Some p
     ∧ Parts.isActive p = true
     ∧ Parts.quantityInStock p ≤ Parts.minimumStockLevel p)
  ∧ NoDup (Parts.get_low_stock coll)
  ∧ StronglySorted Parts.byQuantity (Parts.get_low_stock coll)
  ∧ (∀ (i : nat) (p : Parts.Doc),
       coll !! i = Some p →
       0 ≤ Parts.minimumStockLevel p →
       ((i, p) ∈ Parts.get_low_stock coll ↔
        Parts.isActive p = true ∧ Parts.stockStatus p ≠ "in_stock")
       ∧ (Parts.stockStatus p = "out_of_stock" ↔ Parts.quantityInStock p = 0)).
Proof.
  split; [intros i p; apply get_low_stock_spec|]. split; [|split].
  - unfold Parts.get_low_stock. rewrite merge_sort_Permutation.
    apply NoDup_List_filter, NoDup_map_to_list.
  - apply (StronglySorted_merge_sort Parts.byQuantity).
  - intros i p Hp Hmin. split.
    + rewrite get_low_stock_spec, (stockStatus_in_stock p Hmin). tauto.
    + unfold Parts.stockStatus. repeat case_bool_decide; split; intros ?; done.
Qed.

Lemma low_stock_list_matches_stock_status_witness :
  ((0%nat, Parts.mkDoc 2 5 true) ∈ Parts.get_low_stock Examples.stockRoom
   ↔ Parts.isActive (Parts.mkDoc 2 5 true) = true
     ∧ Parts.stockStatus (Parts.mkDoc 2 5 true) ≠ "in_stock")
  ∧ (Parts.stockStatus (Parts.mkDoc 2 5 true) = "out_of_stock"
     ↔ Parts.quantityInStock (Parts.mkDoc 2 5 true) = 0).
Proof.
  apply (proj2 (proj2 (proj2 (low_stock_list_matches_stock_status Examples.stockRoom)))
           0%nat (Parts.mkDoc 2 5 true)).
  - reflexivity.
  - simpl. lia.
Defined.

(** X20. Restocking a stored part whose stock is not negative. A quantity
    below 1 is refused and changes nothing. A quantity sent as a JSON
    number is added to the stock: the part is stored with the sum, its
    minimum level and its active flag, and afterwards it is on the
    low-stock list exactly when it is active and the new stock is still at
    or below the minimum level. A quantity sent as a JSON string passes
    the same validation but is not added: the part is stored with the
    number that the numeral of the stock followed by the string reads as,
    and the request is answered 500, with nothing changed, when that is no
    number. With 2 in stock, the string "10" gives 210 and the string "+5"
    is answered 500. A soft-deleted part leaves the low-stock list for
    good, yet it stays in the collection with its stock and can still be
    restocked. *)
Theorem restock_and_soft_delete
    (id : nat) (coll : gmap nat Parts.Doc) (part : Parts.Doc) :
  coll !! id = Some part →
  0 ≤ Parts.quantityInStock part →
  (∀ quantity : Z,
     quantity < 1 →
     Parts.restock_part id (Parts.JsonNumber quantity) coll = (ValidationErrors, coll))
  ∧ (∀ quantity : Z,
       1 ≤ quantity →
       ∃ (saved : Parts.Doc) (coll' : gmap nat Parts.Doc),
         Parts.restock_part id (Parts.JsonNumber quantity) coll = (Ok saved, coll')
         ∧ coll' = <[id := saved]> coll
         ∧ coll' !! id = Some saved
         ∧ Parts.quantityInStock saved = Parts.quantityInStock part + quantity
         ∧ Parts.minimumStockLevel saved = Parts.minimumStockLevel part
         ∧ Parts.isActive saved = Parts.isActive part
         ∧ ((id, saved) ∈ Parts.get_low_stock coll' ↔
            Parts.isActive part = true
            ∧ Parts.quantityInStock part + quantity ≤ Parts.minimumStockLevel part))
  ∧ (∀ s : string,
       Parts.validQuantity (Parts.JsonString s) = true →
       (∀ stock : Z,
          Parts.parseInteger (pretty (Parts.quantityInStock part) +:+ s) = Some stock →
          0 ≤ stock →
          ∃ (saved : Parts.Doc) (coll' : gmap nat Parts.Doc),
            Parts.restock_part id (Parts.JsonString s) coll = (Ok saved, coll')
            ∧ coll' = <[id := saved]> coll
            ∧ coll' !! id = Some saved
            ∧ Parts.quantityInStock saved = stock
            ∧ Parts.minimumStockLevel saved = Parts.minimumStockLevel part
            ∧ Parts.isActive saved = Parts.isActive part)
       ∧ (Parts.parseInteger (pretty (Parts.quantityInStock part) +:+ s) = None →
          Parts.restock_part id (Parts.JsonString s) coll
          = (InternalServerError, coll)))
  ∧ Parts.restock_part 0 (Parts.JsonString "10") Examples.stockRoom
    = (Ok (Parts.mkDoc 210 5 true),
       <[0%nat := Parts.mkDoc 210 5 true]> Examples.stockRoom)
  ∧ Parts.restock_part 0 (Parts.JsonString "+5") Examples.stockRoom
    = (InternalServerError, Examples.stockRoom)
  ∧ (let deleted :=
       Parts.mkDoc (Parts.quantityInStock part) (Parts.minimumStockLevel part) false in
     Parts.delete_part id coll
       = (Ok "Part deleted successfully", <[id := deleted]> coll)
     ∧ (<[id := deleted]> coll) !! id = Some deleted
     ∧ (∀ p : Parts.Doc, (id, p) ∉ Parts.get_low_stock (<[id := deleted]> coll))
     ∧ ∀ quantity : Z,
         1 ≤ quantity →
         ∃ coll' : gmap nat Parts.Doc,
           Parts.restock_part id (Parts.JsonNumber quantity) (<[id := deleted]> coll)
             = (Ok (Parts.mkDoc (Parts.quantityInStock part + quantity)
                      (Parts.minimumStockLevel part) false), coll')
           ∧ coll' !! id
             = Some (Parts.mkDoc (Parts.quantityInStock part + quantity)
                       (Parts.minimumStockLevel part) false)
           ∧ ∀ p : Parts.Doc, (id, p) ∉ Parts.get_low_stock coll').
Proof.
  intros Hfind Hstock. split; [|split; [|split; [|split; [|split]]]].
  - intros quantity Hq. unfold Parts.restock_part. simpl.
    by rewrite bool_decide_eq_false_2 by lia.
  - intros quantity Hq. unfold Parts.restock_part. simpl.
    rewrite bool_decide_eq_true_2 by done. simpl. rewrite Hfind.
    rewrite bool_decide_eq_true_2 by lia.
    eexists _, _. split; [reflexivity|]. split; [reflexivity|].
    split; [by rewrite lookup_insert_eq|]. simpl.
    split; [done|]. split; [done|]. split; [done|].
    rewrite get_low_stock_spec, lookup_insert_eq. simpl. tauto.
  - intros s Hvalid. unfold Parts.restock_part. rewrite Hvalid. simpl.
    rewrite Hfind. split.
    + intros stock -> Hpos. rewrite bool_decide_eq_true_2 by done.
      eexists _, _. split; [reflexivity|]. split; [reflexivity|].
      split; [by rewrite lookup_insert_eq|]. done.
    + by intros ->.
  - vm_compute. reflexivity.
  - vm_compute. reflexivity.
  - intros deleted. unfold Parts.delete_part. rewrite Hfind.
    split; [done|]. split; [by rewrite lookup_insert_eq|]. split.
    + intros p Hin. apply get_low_stock_spec in Hin as (Hp & Hactive & _).
      rewrite lookup_insert_eq in Hp. injection Hp as <-. done.
    + intros quantity Hq. unfold Parts.restock_part. simpl.
      rewrite bool_decide_eq_true_2 by done. simpl. rewrite lookup_insert_eq.
      simpl. rewrite bool_decide_eq_true_2 by lia.
      eexists. split; [reflexivity|]. split; [by rewrite lookup_insert_eq|].
      intros p Hin. apply get_low_stock_spec in Hin as (Hp & Hactive & _).
      rewrite lookup_insert_eq in Hp. injection Hp as <-. done.
Qed.

Lemma restock_and_soft_delete_witness :
  Parts.restock_part 0 (Parts.JsonNumber 0) Examples.stockRoom
    = (ValidationErrors, Examples.stockRoom)
  ∧ (∃ (saved : Parts.Doc) (coll' : gmap nat Parts.Doc),
       Parts.restock_part 0 (Parts.JsonNumber 10) Examples.stockRoom = (Ok saved, coll')
       ∧ coll' !! 0%nat = Some saved
       ∧ Parts.quantityInStock saved = 12)
  ∧ Parts.delete_part 0 Examples.stockRoom
    = (Ok "Part deleted successfully",
       <[0%nat := Parts.mkDoc 2 5 false]> Examples.stockRoom).
Proof.
  destruct (restock_and_soft_delete 0 Examples.stockRoom (Parts.mkDoc 2 5 true) eq_refl)
    as (Hbad & Hgood & _ & _ & _ & Hdelete & _); [simpl; lia|].
  split; [apply Hbad; lia|]. split; [|exact Hdelete].
  destruct (Hgood 10) as (saved & coll' & Hput & _ & Hstored & Hsum & _); [lia|].
  by exists saved, coll'.
Defined.

(** ** Moving an appointment *)


